(** * MicoEnv: the episode controller of micoenv/mico_robot_env.py

    A shallow embedding of the environment class [MicoEnv] and of the
    numpy operations it relies on.

    Number model.  Python floats and numpy float arrays are read as real
    numbers ([R]); a one-dimensional array of shape [(n,)] is a [list R]
    of length [n].  Rounding and not-a-number payloads are outside this
    model; the cast [astype(np.float32)] is kept as an unspecified
    elementwise function.

    Where a result depends on how a float rounds or on a NaN (the
    comparison of a distance with a threshold, the clipping and
    scaling of an action), the functions are read a second time over
    IEEE 754 binary floats, in the modules [fp] and [ieee], and the
    statements about them are made there.

    Collaborators.  The physics engine ([self.p]), the actuator class
    [Mico], the renderer of the parent class and the two helper modules
    are not part of the file; they appear as a record of operations over
    an abstract world. *)

From Stdlib Require Import Reals Lra List String ZArith Lia Bool.
From Stdlib Require Import SpecFloat.
From stdpp Require Import base option list gmap strings.

Open Scope R_scope.

(** ** Python outcomes *)

Inductive exn : Type :=
| AssertionError
| IndexError
| AttributeError
| UnboundLocalError
| Exception (msg : string).

Inductive result (A : Type) : Type :=
| Return (a : A)
| Raise (e : exn)
| OutOfFuel.          (* a loop was still running when the fuel ran out *)
Arguments Return {A} a.
Arguments Raise {A} e.
Arguments OutOfFuel {A}.

Definition bind {A B} (m : result A) (k : A -> result B) : result B :=
  match m with
  | Return a => k a
  | Raise e => Raise e
  | OutOfFuel => OutOfFuel
  end.

Declare Scope py_scope.
Delimit Scope py_scope with py.
Notation "x <- m ;; k" := (bind m (fun x => k))
  (at level 100, m at next level, right associativity) : py_scope.
Notation "m ;;; k" := (bind m (fun _ => k))
  (at level 100, right associativity) : py_scope.
Open Scope py_scope.

(** [assert c] *)
Definition assert (c : bool) : result unit :=
  if c then Return tt else Raise AssertionError.

(** Reading an attribute that may not have been assigned yet. *)
Definition attr {A} (o : option A) : result A :=
  match o with
  | Some a => Return a
  | None => Raise AttributeError
  end.

(** Reading a local variable that is bound on some paths only. *)
Definition local {A} (o : option A) : result A :=
  match o with
  | Some a => Return a
  | None => Raise UnboundLocalError
  end.

(** ** numpy on one-dimensional arrays *)

Abbreviation vec := (list R).

Definition Rltb (x y : R) : bool := if Rlt_dec x y then true else false.

Module np.

(** [a - b] for two arrays of the same shape. *)
Definition sub (a b : vec) : vec := zip_with Rminus a b.

(** [a * c] with a scalar [c], here without rounding; [fp.scale]
    multiplies in the dtype of the array. *)
Definition scale (a : vec) (c : R) : vec := map (fun x => x * c) a.

(** [np.add.reduce]. *)
Definition sum (a : vec) : R := fold_left Rplus a 0.

(** [np.linalg.norm(x, axis=-1)] on a one-dimensional array:
    [sqrt(add.reduce((x.conj() * x).real))], here without rounding;
    [fp.linalg_norm] rounds as numpy does. *)
Definition linalg_norm (x : vec) : R := sqrt (sum (map (fun t => t * t) x)).

(** [np.clip(a, a_min, a_max)] on scalars is
    [minimum(a_max, maximum(a, a_min))]; on numbers that are not NaN,
    which [fp.clip1] lets through. *)
Definition clip1 (a a_min a_max : R) : R := Rmin a_max (Rmax a a_min).

(** [np.clip(a, lo, hi)] with scalar bounds: a new array. *)
Definition clip (a : vec) (a_min a_max : R) : vec :=
  map (fun x => clip1 x a_min a_max) a.

(** [np.clip(a, a_min, a_max)] with array bounds of the same shape. *)
Fixpoint clip_arrays (a a_min a_max : vec) : vec :=
  match a, a_min, a_max with
  | x :: a', lo :: a_min', hi :: a_max' =>
      clip1 x lo hi :: clip_arrays a' a_min' a_max'
  | _, _, _ => []
  end.

(** [state[i:j]] *)
Definition slice (i j : nat) (a : vec) : vec := take (j - i) (drop i a).

Definition zeros (n : nat) : vec := replicate n 0.

(** [np.array(t)] of a triple returned by the engine. *)
Definition array3 (t : R * R * R) : vec :=
  let '(x, y, z) := t in [x; y; z].

(** [a[i]] *)
Definition item (i : nat) (a : vec) : result R :=
  match a !! i with
  | Some x => Return x
  | None => Raise IndexError
  end.

(** [a[i] = x]: in place where the index exists, [IndexError]
    otherwise. *)
Definition setitem (i : nat) (x : R) (a : vec) : result vec :=
  if (i <? length a)%nat then Return (<[i := x]> a) else Raise IndexError.

End np.

(** ** Module-level helper *)

(** [goal_distance(goal_a, goal_b)] *)
Definition goal_distance (goal_a goal_b : vec) : result R :=
  assert (Nat.eqb (length goal_a) (length goal_b)) ;;;
  Return (np.linalg_norm (np.sub goal_a goal_b)).

(** The Euclidean distance as the documentation words it: the square
    root of the sum of the squared coordinate differences. *)
Fixpoint sq_diff (a b : vec) : R :=
  match a, b with
  | x :: a', y :: b' => (x - y) * (x - y) + sq_diff a' b'
  | _, _ => 0
  end.

Definition euclidean (a b : vec) : R := sqrt (sq_diff a b).

(** ** Configuration fixed by the constructor *)

Record Config : Type := mkConfig {
  n_substeps : Z;
  has_object : bool;
  target_in_the_air : bool;
  distance_threshold : R;
  height_offset : R;
  reward_type : string;
  done_after : option R;          (* [None] is [float("inf")] *)
  observation_type : string;
  fixed_goal : bool;
  use_gui : bool;
  randomize_textures : bool;
  normal_textures : bool;
  randomize_objects : bool;
  randomize_camera : bool;
  randomize_arm : bool;
  envId : string                  (* [uuid.uuid4()] *)
}.

(** The constructor's defaults. *)
Definition default_config : Config :=
  {| n_substeps := 5; has_object := true; target_in_the_air := true;
     distance_threshold := 0.1; height_offset := 0.06;
     reward_type := "positive"; done_after := None;
     observation_type := "low_dim"; fixed_goal := true; use_gui := false;
     randomize_textures := false; normal_textures := false;
     randomize_objects := false; randomize_camera := false;
     randomize_arm := false; envId := "0" |}.

Definition table_low : vec := [-0.35; -0.25; 0.05].
Definition table_high : vec := [-0.2; 0.25; 0.2].
Definition n_actions : nat := 4.

(** ** Reward *)

(** [compute_reward]; the result [None] is Python's [None], returned when
    the mode is neither of the two strings. *)
Definition compute_reward (cfg : Config) (achieved_goal desired_goal : vec)
  : result (option Z) :=
  d <- goal_distance achieved_goal desired_goal ;;
  if String.eqb (reward_type cfg) "sparse" then
    Return (Some (if Rltb d (distance_threshold cfg) then 3 else -1)%Z)
  else if String.eqb (reward_type cfg) "positive" then
    Return (Some (if Rltb d (distance_threshold cfg) then 5 else 0)%Z)
  else Return None.


(** ** Multi-dimensional arrays (rendered images) *)

Record ndarray : Type := mkArray {
  shape : list nat;
  data : list R               (* row-major *)
}.

(** [pixels[:, :, k]] for a literal, non-negative [k]: numpy checks [k]
    against the size of the third axis. *)
Definition channel (k : nat) (px : ndarray) : result ndarray :=
  match shape px with
  | [d0; d1; d2] =>
      if (k <? d2)%nat then
        Return {| shape := [d0; d1];
                  data := map (fun i => nth (i * d2 + k)%nat (data px) 0)
                              (seq 0 (d0 * d1)) |}
      else Raise IndexError
  | _ => Raise IndexError
  end.

(** [sub in s] on strings *)
Fixpoint contains (sub s : string) : bool :=
  if String.prefix sub s then true
  else match s with
       | EmptyString => false
       | String _ s' => contains sub s'
       end.

(** What [_get_obs] hands back, by mode. *)
Inductive Obs : Type :=
| ObsLowDim (low_dim : vec)
| ObsPixels (pixels : ndarray)
| ObsComposed (low_dim : vec) (pixels : ndarray).

(** ** Random generators

    A generator is a cursor into the values it will produce.
    [uniform(low, high)] is [low + (high - low) * random_sample()] and
    [normal(loc, scale)] is [loc + scale * z] for a standard deviate [z]. *)

Record Rng : Type := mkRng {
  cursor : nat;
  unit_draws : nat -> R;        (* [random_sample()], values of [0, 1) *)
  std_normals : nat -> R;
  int_draws : nat -> Z
}.

Definition advance (g : Rng) : Rng :=
  {| cursor := S (cursor g); unit_draws := unit_draws g;
     std_normals := std_normals g; int_draws := int_draws g |}.

Module rng.

Definition random_sample (g : Rng) : R * Rng :=
  (unit_draws g (cursor g), advance g).

Definition uniform1 (low high : R) (g : Rng) : R * Rng :=
  let '(u, g') := random_sample g in (low + (high - low) * u, g').

Fixpoint uniform (low high : vec) (g : Rng) : vec * Rng :=
  match low, high with
  | l :: low', h :: high' =>
      let '(x, g1) := uniform1 l h g in
      let '(rest, g2) := uniform low' high' g1 in
      (x :: rest, g2)
  | _, _ => ([], g)
  end.

Definition normal1 (loc scale : R) (g : Rng) : R * Rng :=
  (loc + scale * std_normals g (cursor g), advance g).

Fixpoint normal (loc : vec) (scale : R) (g : Rng) : vec * Rng :=
  match loc with
  | m :: loc' =>
      let '(x, g1) := normal1 m scale g in
      let '(rest, g2) := normal loc' scale g1 in
      (x :: rest, g2)
  | [] => ([], g)
  end.

Definition random_integers (lo hi : Z) (g : Rng) : Z * Rng :=
  ((lo + int_draws g (cursor g) mod (hi - lo + 1))%Z, advance g).

Definition choice (xs : list Z) (g : Rng) : Z * Rng :=
  (nth (Z.to_nat (int_draws g (cursor g) mod Z.of_nat (length xs))) xs 0%Z,
   advance g).

End rng.

(** ** The goal sampler *)

(** [_sample_goal]; [npr] is [self.np_random], [glob] the module-level
    [np.random]. *)
Definition _sample_goal (cfg : Config) (npr glob : Rng) : vec * Rng * Rng :=
  if fixed_goal cfg then
    if target_in_the_air cfg then ([-0.4; 0.2; 0.3], npr, glob)
    else
      let '(xy, glob1) := rng.normal [-0.3; 0.2] 0.05 glob in
      (xy ++ [0.03], npr, glob1)
  else
    let '(goal, npr1) := rng.uniform table_low table_high npr in
    let goal := <[2%nat := 0.03]> goal in
    if target_in_the_air cfg then
      let '(u, npr2) := rng.uniform1 0 1 npr1 in
      if Rltb u 1 then
        let '(dz, npr3) := rng.uniform1 0 (nth 2 table_high 0) npr2 in
        (<[2%nat := nth 2 goal 0 + dz]> goal, npr3, glob)
      else (goal, npr2, glob)
    else (goal, npr1, glob).

(** Lines 161-165 of [_reset_sim]: the rejection loop.  One unit of fuel
    pays for one evaluation of the loop condition. *)
Fixpoint while_too_close (fuel : nat) (cfg : Config) (high goal obj_pos : vec)
  (npr : Rng) : result (vec * Rng) :=
  match fuel with
  | O => OutOfFuel
  | S fuel' =>
      d <- goal_distance obj_pos goal ;;
      if Rltb d 0.1 then
        let '(o, npr1) := rng.uniform table_low high npr in
        while_too_close fuel' cfg high goal
          (<[2%nat := height_offset cfg]> o) npr1
      else Return (obj_pos, npr)
  end.

(** Lines 155-168 of [_reset_sim]: goal and object position when no
    explicit state is given. *)
Definition sample_scene (fuel : nat) (cfg : Config) (npr glob : Rng)
  : result (vec * vec * Rng * Rng) :=
  let high := if fixed_goal cfg then <[1%nat := 0.0]> table_high
              else table_high in
  let '(goal, npr1, glob1) := _sample_goal cfg npr glob in
  let '(o, npr2) := rng.uniform table_low high npr1 in
  let obj_pos := <[2%nat := height_offset cfg]> o in
  r <- while_too_close fuel cfg high goal obj_pos npr2 ;;
  let '(obj_pos, npr3) := r in
  Return (goal, obj_pos, npr3, glob1).

(** ** The collaborators *)

Inductive Geom : Type :=
| GEOM_SPHERE (radius : R)
| GEOM_BOX (halfExtents : vec).

Inductive Visual : Type :=
| rgbaColor (c : vec)
| textureUniqueId (t : Z).

(** The engine commands the environment issues; each one answers with an
    identifier (ignored where the method returns nothing). *)
Inductive PCall : Type :=
| resetSimulation
| createCollisionShape (g : Geom)
| createMultiBody (baseMass : R) (baseCollisionShapeIndex : Z)
    (basePosition : option vec) (baseOrientation : option vec)
    (useMaximalCoordinates : bool)
| changeVisualShape (objectUniqueId linkIndex : Z) (v : Visual)
| loadURDF (fileName : string) (basePosition baseOrientation : vec)
| loadTexture (fileName : string).

Record LinkState : Type := mkLinkState {
  linkWorldPosition : R * R * R;        (* index 0 *)
  worldLinkLinearVelocity : R * R * R   (* index 6 *)
}.

(** The public face of a [Mico] object; [internals] is whatever else the
    actuator keeps. *)
Record Arm (A : Type) : Type := mkArm {
  armId : Z;
  goalPosition : vec;
  goalGripper : R;
  internals : A
}.
Arguments mkArm {A}.
Arguments armId {A}.
Arguments goalPosition {A}.
Arguments goalGripper {A}.
Arguments internals {A}.

Record Light : Type := mkLight {
  diffuse : R; ambient : R; spec : R; dir : list Z; col : vec
}.

(** Handles and camera set by [init_env]. *)
Record Scene : Type := mkScene {
  wallId : option Z;
  planeId : option Z;
  viewMatrix : option vec;
  projMatrix : option vec;
  light : option Light
}.

(** Operations of the engine, the actuator and the helper modules over
    a world [W]. *)
Record Backend (W A : Type) : Type := mkBackend {
  p_exec : W -> PCall -> Z * W;
  p_getLinkState : W -> Z -> Z -> LinkState;
  p_getJointState : W -> Z -> Z -> R;                  (* component 0 *)
  p_getBasePositionAndOrientation : W -> Z -> R * R * R;   (* component 0 *)
  p_getQuaternionFromEuler : vec -> vec;
  p_computeViewMatrix : vec -> vec -> vec -> vec;
  p_computeProjectionMatrixFOV : R -> R -> R -> R -> vec;
  p_restoreState : W -> string -> option W;            (* [None]: raises *)
  Mico : W -> vec -> vec -> vec -> bool -> option string -> Arm A * W;
  apply_action : Arm A -> W -> vec -> Arm A * W;
  step_simulation : Arm A -> W -> Arm A * W;
  is_grasping : Arm A -> W -> bool;
  set_graspable_object : Arm A -> W -> Z -> R -> Arm A * W;
  init_gripper : Arm A -> W -> Arm A * W;
  create_randomized_description : Rng -> (string * vec * vec) * Rng;
  createAndSave : W -> string -> string -> vec -> string * W;
  render : W -> Scene -> ndarray
}.
Arguments p_exec {W A}.
Arguments p_getLinkState {W A}.
Arguments p_getJointState {W A}.
Arguments p_getBasePositionAndOrientation {W A}.
Arguments p_getQuaternionFromEuler {W A}.
Arguments p_computeViewMatrix {W A}.
Arguments p_computeProjectionMatrixFOV {W A}.
Arguments p_restoreState {W A}.
Arguments Mico {W A}.
Arguments apply_action {W A}.
Arguments step_simulation {W A}.
Arguments is_grasping {W A}.
Arguments set_graspable_object {W A}.
Arguments init_gripper {W A}.
Arguments create_randomized_description {W A}.
Arguments createAndSave {W A}.
Arguments render {W A}.

(** What the environment asked of its collaborators, in order. *)
Inductive Event : Type :=
| EvP (c : PCall) (answer : Z)
| EvRestoreState (fileName : string) (ok : bool)
| EvMico (spawn_pos reach_low reach_high : vec) (randomize_arm : bool)
    (urdf : option string)
| EvApplyAction (action : vec)
| EvStepSimulation
| EvSetGraspableObject (body : Z) (grasping : R)
| EvInitGripper
| EvRandomizedDescription
| EvCreateAndSave (path pattern : string) (color : vec)
| EvPrint (msg : string).

(** Arrays as Python objects: a store from references to contents. *)
Abbreviation Heap := (gmap nat vec).

Definition alloc (h : Heap) (v : vec) : nat * Heap :=
  let l := fresh (dom h) in (l, <[l := v]> h).

Definition deref (h : Heap) (l : nat) : result vec := attr (h !! l).

(** ** The environment *)

Section MicoEnv.

Context {W A : Type}.
Variable B : Backend W A.
Variable tmp_dir : string.             (* the module-level [tmp_dir] *)
Variable astype_float32 : R -> R.      (* [astype(np.float32)], per element *)

(** Everything outside the object: the collaborators' world, the
    record of what was asked of them, and the module-level generator
    [np.random]. *)
Record Ext : Type := mkExt {
  world : W;
  trace : list Event;
  global_random : Rng
}.

Definition St (T : Type) : Type := Ext -> T * Ext.

Definition ret {T} (t : T) : St T := fun x => (t, x).

Definition andthen {T U} (m : St T) (k : T -> St U) : St U :=
  fun x => let '(t, x') := m x in k t x'.

Notation "x <~ m ;; k" := (andthen m (fun x => k))
  (at level 100, m at next level, right associativity).
Notation "m ;;~ k" := (andthen m (fun _ => k))
  (at level 100, right associativity).

Definition emit (e : Event) : St unit :=
  fun x => (tt, {| world := world x; trace := trace x ++ [e];
                   global_random := global_random x |}).

(** A call that changes the world and is recorded as [ev]. *)
Definition call {T} (f : W -> T * W) (ev : T -> Event) : St T :=
  fun x => let '(t, w) := f (world x) in
           (t, {| world := w; trace := trace x ++ [ev t];
                  global_random := global_random x |}).

(** [self.p.<command>(...)] *)
Definition p (c : PCall) : St Z := call (fun w => p_exec B w c) (EvP c).

(** A draw from [np.random]. *)
Definition draw {T} (f : Rng -> T * Rng) : St T :=
  fun x => let '(t, g) := f (global_random x) in
           (t, {| world := world x; trace := trace x;
                  global_random := g |}).

(** A method of the actuator: it may change the arm and the world. *)
Definition actuate (f : W -> Arm A * W) (ev : Event) : St (Arm A) :=
  call f (fun _ => ev).

Record Env : Type := mkEnv {
  ext : Ext;
  np_random : Rng;                       (* [self.np_random] *)
  goal : option vec;
  arm : option (Arm A);
  body : option Z;
  goalShape : option Z;
  visualizeTarget : option Z;
  scene : Scene;
  originalObjPosition : option vec;
  originalGoalPosition : option vec;
  originalGripPosition : option vec
}.

Definition with_actuator (s : Env) (r : Arm A * Ext) : Env :=
  {| ext := snd r; np_random := np_random s; goal := goal s;
     arm := Some (fst r); body := body s; goalShape := goalShape s;
     visualizeTarget := visualizeTarget s; scene := scene s;
     originalObjPosition := originalObjPosition s;
     originalGoalPosition := originalGoalPosition s;
     originalGripPosition := originalGripPosition s |}.

(** [_step_callback] *)
Definition _step_callback (s : Env) : result Env :=
  a <- attr (arm s) ;;
  Return (with_actuator s
            (actuate (step_simulation B a) EvStepSimulation (ext s))).

(** [_set_action]; [action] is a reference into the store [h]: the
    clipped array, its copy and the product are new objects, and the
    assignment to index 3 writes into the clipped array. *)
Definition _set_action (h : Heap) (action : nat) (s : Env)
  : result (Heap * Env) :=
  a <- deref h action ;;
  assert (length a =? n_actions)%nat ;;;
  (* action = np.clip(action, -1, 1) *)
  let '(action, h) := alloc h (np.clip a (-1) 1) in
  (* action[3] = 0 *)
  a <- deref h action ;;
  a <- np.setitem 3 0 a ;;
  let h := <[action := a]> h in
  (* action = action.copy() * 0.05 *)
  a <- deref h action ;;
  let '(copy, h) := alloc h a in
  a <- deref h copy ;;
  let '(action, h) := alloc h (np.scale a 0.05) in
  (* self.arm.apply_action(action) *)
  arm0 <- attr (arm s) ;;
  a <- deref h action ;;
  Return (h, with_actuator s
               (actuate (fun w => apply_action B arm0 w a)
                        (EvApplyAction a) (ext s))).

(** [state_vector] *)
Definition state_vector (cfg : Config) (s : Env) : result vec :=
  arm0 <- attr (arm s) ;;
  let w := world (ext s) in
  let grip_state := p_getLinkState B w (armId arm0) 6 in
  let grip_velp := np.array3 (worldLinkLinearVelocity grip_state) in
  let grip_pos := np.array3 (linkWorldPosition grip_state) in
  o <- (if has_object cfg then
          b <- attr (body s) ;;
          let obj_pos :=
            np.array3 (p_getBasePositionAndOrientation B w b) in
          Return (obj_pos, np.sub obj_pos grip_pos)
        else Return (np.zeros 3, np.zeros 3)) ;;
  let '(obj_pos, object_rel_pos) := o in
  let gripper_state :=
    [p_getJointState B w (armId arm0) 7;
     p_getJointState B w (armId arm0) 9] in
  let is_grasping : R := if is_grasping B arm0 w then 1 else 0 in
  g <- attr (goal s) ;;
  let low_dim :=
    grip_pos ++ g ++ gripper_state ++ obj_pos ++ object_rel_pos
    ++ goalPosition arm0 ++ [goalGripper arm0] ++ grip_velp
    ++ [is_grasping] in
  Return (map astype_float32 low_dim).

(** [get_state] *)
Definition get_state (cfg : Config) (s : Env) : result vec :=
  state_vector cfg s.

(** [_get_obs] *)
Definition _get_obs (cfg : Config) (s : Env) : result Obs :=
  low_dim <- state_vector cfg s ;;
  pixels <- (if contains "pixels" (observation_type cfg)
                || contains "composed" (observation_type cfg) then
               let pixels := render B (world (ext s)) (scene s) in
               assert (bool_decide (shape pixels = [84; 84; 3]%nat)) ;;;
               Return (Some pixels)
             else Return None) ;;
  if String.eqb (observation_type cfg) "low_dim" then
    Return (ObsLowDim low_dim)
  else if String.eqb (observation_type cfg) "pixels" then
    px <- local pixels ;; Return (ObsPixels px)
  else if String.eqb (observation_type cfg) "pixels_depth" then
    px <- local pixels ;;
    depth <- channel 3 px ;;
    Return (ObsPixels depth)
  else if String.eqb (observation_type cfg) "composed" then
    px <- local pixels ;; Return (ObsComposed low_dim px)
  else Raise (Exception "Unsupported observation type").

(** [_is_success] *)
Definition _is_success (cfg : Config) (s : Env) : result bool :=
  arm0 <- attr (arm s) ;;
  let w := world (ext s) in
  let grip_pos :=
    np.array3 (linkWorldPosition (p_getLinkState B w (armId arm0) 6)) in
  g <- attr (goal s) ;;
  d <- goal_distance grip_pos g ;;
  d <- (if has_object cfg then
          b <- attr (body s) ;;
          goal_distance (np.array3 (p_getBasePositionAndOrientation B w b)) g
        else Return d) ;;
  Return (Rltb d (distance_threshold cfg)).

(** [_get_reward] *)
Definition _get_reward (cfg : Config) (s : Env) : result (option Z) :=
  arm0 <- attr (arm s) ;;
  let w := world (ext s) in
  let grip_pos :=
    np.array3 (linkWorldPosition (p_getLinkState B w (armId arm0) 6)) in
  if has_object cfg then
    b <- attr (body s) ;;
    g <- attr (goal s) ;;
    compute_reward cfg (np.array3 (p_getBasePositionAndOrientation B w b)) g
  else
    g <- attr (goal s) ;;
    compute_reward cfg grip_pos g.

(** [init_arm]: the new [self.arm]. *)
Definition init_arm (cfg : Config) : St (Arm A) :=
  let reach_low := map (fun x => x - 0.2) table_low in
  let reach_high := map (fun x => x + 0.2) table_high in
  let reach_low := <[2%nat := 0.05]> reach_low in
  let spawn_pos : vec := [0; 0; 0] in
  made <~ (if randomize_arm cfg then
             n <~ draw (rng.normal [0; 0; 0.05] 0.02) ;;
             let spawn_pos := np.clip_arrays [0; 0; 0.03] [0; 0; 0.07] n in
             d <~ draw (create_randomized_description B) ;;
             emit EvRandomizedDescription ;;~
             let '(urdf, link_color, ring_color) := d in
             arm0 <~ actuate
               (fun w => Mico B w spawn_pos reach_low reach_high
                           (randomize_arm cfg) (Some urdf))
               (EvMico spawn_pos reach_low reach_high
                  (randomize_arm cfg) (Some urdf)) ;;
             ret (arm0, link_color, ring_color)
           else
             arm0 <~ actuate
               (fun w => Mico B w spawn_pos reach_low reach_high
                           (randomize_arm cfg) None)
               (EvMico spawn_pos reach_low reach_high
                  (randomize_arm cfg) None) ;;
             ret (arm0, [0.1; 0.1; 0.1], [0.4; 0.4; 0.4])) ;;
  let '(arm0, link_color, ring_color) := made in
  p (changeVisualShape (armId arm0) 6 (rgbaColor [0; 0; 0; 0])) ;;~
  p (changeVisualShape (armId arm0) 7 (rgbaColor (ring_color ++ [1]))) ;;~
  p (changeVisualShape (armId arm0) 9 (rgbaColor (ring_color ++ [1]))) ;;~
  col_shape <~ p (createCollisionShape (GEOM_BOX [0.08; 0.10; 0.02])) ;;
  mount <~ p (createMultiBody 0 col_shape None None false) ;;
  p (changeVisualShape mount (-1) (rgbaColor (link_color ++ [1]))) ;;~
  col_shape <~ p (createCollisionShape (GEOM_BOX [0.02; 0.02; 0.1])) ;;
  mount <~ p (createMultiBody 0 col_shape None None false) ;;
  p (changeVisualShape mount (-1) (rgbaColor (link_color ++ [1]))) ;;~
  actuate (init_gripper B arm0) EvInitGripper.

(** The two-way pick [np.random.choice([random_integers(a, b),
    random_integers(c, d)])]. *)
Definition choice_of_two (a b c d : Z) : St Z :=
  i <~ draw (rng.random_integers a b) ;;
  j <~ draw (rng.random_integers c d) ;;
  draw (rng.choice [i; j]).

(** [init_env]: the scene handles after it ran. *)
Definition init_env (cfg : Config) (sc : Scene) : St Scene :=
  wall <~ p (loadURDF "plane.urdf" [0.697; 0; 0]
               (p_getQuaternionFromEuler B [0; - PI / 2; 0])) ;;
  plane <~ p (loadURDF "plane.urdf" [0; 0; 0]
                (p_getQuaternionFromEuler B [0; 0; 0])) ;;
  cam <~ (if randomize_camera cfg then
            x <~ draw (rng.normal1 (-1.05) 0.04) ;;
            z <~ draw (rng.normal1 0.68 0.04) ;;
            lookat_x <~ draw (rng.normal1 0.1 0.02) ;;
            let view := p_computeViewMatrix B
                          [x; 0; z] [lookat_x; 0; 0] [-0.5; 0; 1] in
            fov <~ draw (rng.normal1 45 2) ;;
            let proj := p_computeProjectionMatrixFOV B
                          fov (4 / 3) 0.01 2.5 in
            d0 <~ choice_of_two (-20) (-5) 5 20 ;;
            d1 <~ choice_of_two (-20) (-5) 5 20 ;;
            d2 <~ draw (rng.random_integers 70 100) ;;
            dif <~ draw (rng.uniform1 0.4 0.6) ;;
            amb <~ draw (rng.uniform1 0.4 0.6) ;;
            spe <~ draw (rng.uniform1 0.4 0.7) ;;
            co <~ draw (rng.uniform [0.9; 0.9; 0.9] [1; 1; 1]) ;;
            ret (Some view, Some proj,
                 Some {| diffuse := dif; ambient := amb; spec := spe;
                         dir := [d0; d1; d2]; col := co |})
          else ret (viewMatrix sc, projMatrix sc, light sc)) ;;
  let '(view, proj, li) := cam in
  (if randomize_textures cfg then
     colors <~ (if normal_textures cfg then
                  wood <~ draw (rng.normal [170; 150; 140] 8) ;;
                  wall_color <~ draw (rng.normal [230; 240; 250] 8) ;;
                  ret (wood, wall_color)
                else
                  wood <~ draw (rng.uniform [100; 100; 100]
                                            [130; 255; 130]) ;;
                  wall_color <~ draw (rng.uniform [100; 100; 100]
                                                  [130; 255; 130]) ;;
                  ret (wood, wall_color)) ;;
     let '(wood_color, wall_color) := colors in
     let wall_png := (tmp_dir ++ "/wall-" ++ envId cfg ++ ".png")%string in
     let table_png := (tmp_dir ++ "/table-" ++ envId cfg ++ ".png")%string in
     f1 <~ call (fun w => createAndSave B w wall_png "cloud" wall_color)
                (fun _ => EvCreateAndSave wall_png "cloud" wall_color) ;;
     tex1 <~ p (loadTexture f1) ;;
     f2 <~ call (fun w => createAndSave B w table_png "cloud" wood_color)
                (fun _ => EvCreateAndSave table_png "cloud" wood_color) ;;
     tex2 <~ p (loadTexture f2) ;;
     p (changeVisualShape plane (-1) (textureUniqueId tex2)) ;;~
     p (changeVisualShape wall (-1) (textureUniqueId tex1)) ;;~
     ret tt
   else ret tt) ;;~
  ret {| wallId := Some wall; planeId := Some plane; viewMatrix := view;
         projMatrix := proj; light := li |}.

(** Lines 170-208 of [_reset_sim]: tear the simulation down and build
    the scene again.  Returns [goalShape], [visualizeTarget], the
    scene handles, the arm and, with an object, its body. *)
Definition rebuild (cfg : Config) (sc : Scene) (goal obj_pos : vec)
  (should_be_grasping : R) : St (Z * Z * Scene * Arm A * option Z) :=
  p resetSimulation ;;~
  radius <~ (if randomize_objects cfg
             then draw (rng.uniform1 0.02 0.03) else ret 0.025) ;;
  goalShape <~ p (createCollisionShape (GEOM_SPHERE radius)) ;;
  visualizeTarget <~
    p (createMultiBody 0.0 goalShape (Some goal) None true) ;;
  color <~ (if randomize_objects cfg
            then draw (rng.uniform [0.1; 0.1; 0.7; 1] [0.3; 0.3; 1; 1])
            else ret [0.2; 0.2; 0.8; 1]) ;;
  p (changeVisualShape visualizeTarget (-1) (rgbaColor color)) ;;~
  sc <~ init_env cfg sc ;;
  arm0 <~ init_arm cfg ;;
  (if has_object cfg then
     look <~ (if randomize_objects cfg then
                obj_color <~ draw (rng.uniform [0.7; 0.1; 0.1; 1]
                                               [1; 0.3; 0.3; 1]) ;;
                obj_size <~ draw (rng.uniform1 0.025 0.04) ;;
                ret (obj_size, obj_color)
              else ret (0.03, [1; 0.3; 0.3; 1])) ;;
     let '(obj_size, obj_color) := look in
     col_shape <~
       p (createCollisionShape
            (GEOM_BOX [obj_size; obj_size; obj_size])) ;;
     yaw <~ draw (rng.uniform1 0 (PI * 2)) ;;
     body <~ p (createMultiBody 0.3 col_shape (Some obj_pos)
                  (Some (p_getQuaternionFromEuler B [0; 0; yaw])) false) ;;
     p (changeVisualShape body (-1) (rgbaColor obj_color)) ;;~
     arm0 <~ actuate
       (fun w => set_graspable_object B arm0 w body should_be_grasping)
       (EvSetGraspableObject body should_be_grasping) ;;
     ret (goalShape, visualizeTarget, sc, arm0, Some body)
   else ret (goalShape, visualizeTarget, sc, arm0, None)).

(** Truth value of the [state_file] argument. *)
Definition truthy (f : option string) : option string :=
  match f with
  | Some EmptyString => None
  | other => other
  end.

(** [self.p.restoreState(fileName=f)] under [try]. *)
Definition try_restoreState (f : string) : St bool :=
  fun x =>
    match p_restoreState B (world x) f with
    | Some w => (true, {| world := w;
                          trace := trace x ++ [EvRestoreState f true];
                          global_random := global_random x |})
    | None => (false, {| world := world x;
                         trace := trace x ++ [EvRestoreState f false];
                         global_random := global_random x |})
    end.

(** Lines 140-168 of [_reset_sim]: decode the explicit state, or
    sample.  Returns the goal, the object position, the arm's goal
    (position and gripper value, [None] on the sampling path), the
    grasping flag ([False] is 0) and the two generators. *)
Definition plan_scene (fuel : nat) (cfg : Config) (state : option vec)
  (s : Env) : result (vec * vec * option (vec * R) * R * Rng * Rng) :=
  match state with
  | Some state =>
      assert (length state =? 22)%nat ;;;
      let goal := np.slice 3 6 state in
      let obj_pos := np.slice 8 11 state in
      let arm_goal_pos := np.slice 14 17 state in
      arm_goal_grip <- np.item 17 state ;;
      should_be_grasping <- np.item 21 state ;;
      Return (goal, obj_pos, Some (arm_goal_pos, arm_goal_grip),
              should_be_grasping, np_random s, global_random (ext s))
  | None =>
      r <- sample_scene fuel cfg (np_random s) (global_random (ext s)) ;;
      let '(goal, obj_pos, npr, glob) := r in
      Return (goal, obj_pos, None, 0, npr, glob)
  end.

(** [_reset_sim(state, state_file)] *)
Definition _reset_sim (fuel : nat) (cfg : Config) (state : option vec)
  (state_file : option string) (s : Env) : result (bool * Env) :=
  plan <- plan_scene fuel cfg state s ;;
  let '(goal, obj_pos, arm_goal, should_be_grasping, npr, glob) := plan in
  let x := {| world := world (ext s); trace := trace (ext s);
              global_random := glob |} in
  let '(built, x) :=
    rebuild cfg (scene s) goal obj_pos should_be_grasping x in
  let '(goalShape, visualizeTarget, sc, arm0, body0) := built in
  let body1 := if has_object cfg then body0 else body s in
  let original_obj := if has_object cfg then Some obj_pos
                      else originalObjPosition s in
  let '(restored, x) :=
    match truthy state_file with
    | Some f => try_restoreState f x
    | None => (true, x)
    end in
  if negb restored then
    let '(_, x) := emit (EvPrint "Warning: state reset failed") x in
    Return (false,
            {| ext := x; np_random := npr; goal := Some goal;
               arm := Some arm0; body := body1;
               goalShape := Some goalShape;
               visualizeTarget := Some visualizeTarget; scene := sc;
               originalObjPosition := original_obj;
               originalGoalPosition := originalGoalPosition s;
               originalGripPosition := originalGripPosition s |})
  else
    let arm1 :=
      match arm_goal with
      | Some (arm_goal_pos, arm_goal_grip) =>
          {| armId := armId arm0; goalPosition := arm_goal_pos;
             goalGripper := arm_goal_grip; internals := internals arm0 |}
      | None => arm0
      end in
    let grip_state := p_getLinkState B (world x) (armId arm1) 6 in
    let grip_pos := np.array3 (linkWorldPosition grip_state) in
    Return (true,
            {| ext := x; np_random := npr; goal := Some goal;
               arm := Some arm1; body := body1;
               goalShape := Some goalShape;
               visualizeTarget := Some visualizeTarget; scene := sc;
               originalObjPosition := original_obj;
               originalGoalPosition := Some goal;
               originalGripPosition := Some grip_pos |}).

(** [_env_setup]: [while not self._reset_sim(): pass]; each attempt
    gets [fuel] for its own loop and there are at most [tries]
    attempts. *)
Fixpoint _env_setup (tries fuel : nat) (cfg : Config) (s : Env)
  : result Env :=
  match tries with
  | O => OutOfFuel
  | S tries' =>
      r <- _reset_sim fuel cfg None None s ;;
      let '(ok, s') := r in
      if ok then Return s' else _env_setup tries' fuel cfg s'
  end.

(** The result of lines 170-208 of [_reset_sim] run from the state
    [s] with the module-level generator at [glob]: what was built, and
    the world and the trace at the point where [state_file] is looked
    at. *)
Definition rebuilt (cfg : Config) (s : Env) (g o : vec) (grasp : R)
  (glob : Rng) : (Z * Z * Scene * Arm A * option Z) * Ext :=
  rebuild cfg (scene s) g o grasp
    {| world := world (ext s); trace := trace (ext s);
       global_random := glob |}.

(** ** Predicates used by the statements *)

(** Whatever the world, the result of [m] is in [Q]. *)
Definition yields {T} (Q : T -> Prop) (m : St T) : Prop :=
  forall x, Q (fst (m x)).

(** Running [m] appends events to the trace, all of them in [P]. *)
Definition adds (P : Event -> Prop) {T} (m : St T) : Prop :=
  forall x, exists evs,
    trace (snd (m x)) = trace x ++ evs /\ Forall P evs.

(** Running [m] appends events to the trace, one of them in [Q]. *)
Definition emits (Q : Event -> Prop) {T} (m : St T) : Prop :=
  forall x, exists pre e suf,
    trace (snd (m x)) = trace x ++ pre ++ e :: suf /\ Q e.

(** Between the states [s] and [s'] the engine was asked for an event
    in [Q]. *)
Definition asked (Q : Event -> Prop) (s s' : Env) : Prop :=
  exists pre e suf,
    trace (ext s') = trace (ext s) ++ pre ++ e :: suf /\ Q e.

(** The attributes [state_vector] reads are in place: [self.arm],
    [self.goal] with three coordinates, the actuator's [goalPosition]
    with three coordinates and, with an object, [self.body]. *)
Definition ready (cfg : Config) (s : Env) : Prop :=
  exists (a : Arm A) (g : vec),
    arm s = Some a /\ goal s = Some g /\ length g = 3%nat /\
    length (goalPosition a) = 3%nat /\
    (has_object cfg = true -> is_Some (body s)).

(** What the environment relies on from the actuator: a new [Mico] has
    a three-coordinate [goalPosition] and its methods keep it so. *)
Definition actuator_contract : Prop :=
  (forall w sp rl rh r u,
      length (goalPosition (fst (Mico B w sp rl rh r u))) = 3%nat) /\
  (forall a w, length (goalPosition a) = 3%nat ->
      length (goalPosition (fst (init_gripper B a w))) = 3%nat) /\
  (forall a w b g, length (goalPosition a) = 3%nat ->
      length (goalPosition (fst (set_graspable_object B a w b g))) = 3%nat) /\
  (forall a w v, length (goalPosition a) = 3%nat ->
      length (goalPosition (fst (apply_action B a w v))) = 3%nat) /\
  (forall a w, length (goalPosition a) = 3%nat ->
      length (goalPosition (fst (step_simulation B a w))) = 3%nat).

End MicoEnv.

(** Clipping to [-1, 1] in words: below -1 gives -1, above 1 gives 1,
    anything between is kept. *)
Definition clamp (x : R) : R :=
  if Rltb x (-1) then -1 else if Rltb 1 x then 1 else x.

(** The values of [random_sample()] lie in [0, 1). *)
Definition unit_interval (g : Rng) : Prop :=
  forall k, 0 <= unit_draws g k < 1.

(** [o] has three coordinates, each between the matching coordinates of
    [low] and [high]. *)
Definition within_box (low high o : vec) : Prop :=
  length o = 3%nat /\
  forall i l h x, low !! i = Some l -> high !! i = Some h ->
                  o !! i = Some x -> l <= x <= h.

(** [o] was drawn for the object: x and y are the uniform draws
    [low + (high - low) * u] from two consecutive values [u] of the
    generator, and the height is the configured offset. *)
Definition drawn_on_table (cfg : Config) (draws : nat -> R) (o : vec) : Prop :=
  exists k,
    o = [-0.35 + (-0.2 - -0.35) * draws k;
         -0.25 + ((if fixed_goal cfg then 0 else 0.25) - -0.25) * draws (S k);
         height_offset cfg].

(** The creation of the object's body at position [o]: mass 0.3, some
    box shape, some orientation. *)
Definition object_created_at (o : vec) (e : Event) : Prop :=
  exists shape q b,
    e = EvP (createMultiBody 0.3 shape (Some o) (Some q) false) b.

Definition is_restore (e : Event) : bool :=
  match e with EvRestoreState _ _ => true | _ => false end.

(** Any event but a restore attempt. *)
Definition quiet (e : Event) : Prop := is_restore e = false.

(** The [spawn_pos] arguments of the [Mico] constructions in a trace. *)
Definition spawn_positions (tr : list Event) : list vec :=
  omap (fun e => match e with
                 | EvMico sp _ _ _ _ => Some sp
                 | _ => None
                 end) tr.

(** ** A small backend and generators for the examples

    The engine answers every command with 0 and keeps everything at the
    origin, restoring fails for the file named "corrupt", and the
    renderer returns a black 84x84x3 image. *)
Definition toy : Backend unit unit :=
  {| p_exec := fun w _ => (0%Z, w);
     p_getLinkState := fun _ _ _ => mkLinkState (0, 0, 0) (0, 0, 0);
     p_getJointState := fun _ _ _ => 0;
     p_getBasePositionAndOrientation := fun _ _ => (0, 0, 0);
     p_getQuaternionFromEuler := fun _ => [0; 0; 0; 1];
     p_computeViewMatrix := fun _ _ _ => [];
     p_computeProjectionMatrixFOV := fun _ _ _ _ => [];
     p_restoreState := fun w f => if String.eqb f "corrupt" then None
                                  else Some w;
     Mico := fun w _ _ _ _ _ => (mkArm 0%Z [0; 0; 0] 0 tt, w);
     apply_action := fun a w _ => (a, w);
     step_simulation := fun a w => (a, w);
     is_grasping := fun _ _ => false;
     set_graspable_object := fun a w _ _ => (a, w);
     init_gripper := fun a w => (a, w);
     create_randomized_description :=
       fun g => (("mico.urdf"%string, [0.1; 0.1; 0.1], [0.4; 0.4; 0.4]), g);
     createAndSave := fun w path _ _ => (path, w);
     render := fun _ _ => mkArray [84; 84; 3]%nat (replicate (84 * 84 * 3) 0)
  |}.

(** A generator whose every draw is the given constant. *)
Definition constant_rng (u z : R) : Rng :=
  {| cursor := 0; unit_draws := fun _ => u; std_normals := fun _ => z;
     int_draws := fun _ => 0%Z |}.

Definition toy_ext : @Ext unit :=
  {| world := tt; trace := []; global_random := constant_rng 0 0 |}.

(** An environment object before its first reset. *)
Definition fresh_env : @Env unit unit :=
  {| ext := toy_ext; np_random := constant_rng 0 0; goal := None;
     arm := None; body := None; goalShape := None;
     visualizeTarget := None;
     scene := {| wallId := None; planeId := None; viewMatrix := None;
                 projMatrix := None; light := None |};
     originalObjPosition := None; originalGoalPosition := None;
     originalGripPosition := None |}.

(** An environment after a reset: the arm at rest, the goal of the
    default configuration, one object. *)
Definition toy_env : @Env unit unit :=
  {| ext := toy_ext; np_random := constant_rng 0 0;
     goal := Some [-0.4; 0.2; 0.3];
     arm := Some (mkArm 0%Z [0; 0; 0] 0 tt); body := Some 0%Z;
     goalShape := Some 0%Z; visualizeTarget := Some 0%Z;
     scene := {| wallId := Some 0%Z; planeId := Some 0%Z;
                 viewMatrix := None; projMatrix := None; light := None |};
     originalObjPosition := Some [-0.35; -0.25; 0.06];
     originalGoalPosition := Some [-0.4; 0.2; 0.3];
     originalGripPosition := Some [0; 0; 0] |}.

(** The default configuration with observation mode "pixels_depth". *)
Definition pixels_depth_config : Config :=
  {| n_substeps := 5; has_object := true; target_in_the_air := true;
     distance_threshold := 0.1; height_offset := 0.06;
     reward_type := "positive"; done_after := None;
     observation_type := "pixels_depth"; fixed_goal := true;
     use_gui := false; randomize_textures := false;
     normal_textures := false; randomize_objects := false;
     randomize_camera := false; randomize_arm := false; envId := "0" |}.

(** The default configuration with the object put at height 1. *)
Definition high_object_config : Config :=
  {| n_substeps := 5; has_object := true; target_in_the_air := true;
     distance_threshold := 0.1; height_offset := 1;
     reward_type := "positive"; done_after := None;
     observation_type := "low_dim"; fixed_goal := true;
     use_gui := false; randomize_textures := false;
     normal_textures := false; randomize_objects := false;
     randomize_camera := false; randomize_arm := false; envId := "0" |}.

(** The default configuration with arm randomization switched on. *)
Definition randomized_arm_config : Config :=
  {| n_substeps := 5; has_object := true; target_in_the_air := true;
     distance_threshold := 0.1; height_offset := 0.06;
     reward_type := "positive"; done_after := None;
     observation_type := "low_dim"; fixed_goal := true;
     use_gui := false; randomize_textures := false;
     normal_textures := false; randomize_objects := false;
     randomize_camera := false; randomize_arm := true; envId := "0" |}.

(** The default configuration with the sparse reward. *)
Definition sparse_config : Config :=
  {| n_substeps := 5; has_object := true; target_in_the_air := true;
     distance_threshold := 0.1; height_offset := 0.06;
     reward_type := "sparse"; done_after := None;
     observation_type := "low_dim"; fixed_goal := true;
     use_gui := false; randomize_textures := false;
     normal_textures := false; randomize_objects := false;
     randomize_camera := false; randomize_arm := false; envId := "0" |}.
(** ** Further definitions

    The remaining method of the class, and what the statements about
    the other methods need. *)

(** [get_aux]; [get_joint_poses] is the actuator's method of that
    name. *)
Definition get_aux {W A : Type} (B : Backend W A)
  (get_joint_poses : Arm A -> W -> vec) (s : @Env W A) : result vec :=
  arm0 <- attr (arm s) ;;
  let w := world (ext s) in
  let grip_state := p_getLinkState B w (armId arm0) 6 in
  Return (get_joint_poses arm0 w
          ++ np.array3 (linkWorldPosition grip_state)
          ++ goalPosition arm0).




(** The arguments of the [Mico] constructions in a trace. *)
Definition mico_calls (tr : list Event)
  : list (vec * vec * vec * bool * option string) :=
  omap (fun e => match e with
                 | EvMico sp rl rh r u => Some (sp, rl, rh, r, u)
                 | _ => None
                 end) tr.

(** The paths of the texture files written in a trace. *)
Definition saved_textures (tr : list Event) : list string :=
  omap (fun e => match e with
                 | EvCreateAndSave path _ _ => Some path
                 | _ => None
                 end) tr.

(** The creation of the goal marker at position [g]: mass 0, some
    sphere shape, maximal coordinates. *)
Definition goal_marker_at (g : vec) (e : Event) : Prop :=
  exists shape b, e = EvP (createMultiBody 0.0 shape (Some g) None true) b.

(** The object was registered with the actuator as graspable, with the
    grasping flag [flag]. *)
Definition registered_graspable (flag : R) (e : Event) : Prop :=
  exists b, e = EvSetGraspableObject b flag.

(** The reward of the configured mode for a success flag. *)
Definition reward_of (cfg : Config) (success : bool) : option Z :=
  if String.eqb (reward_type cfg) "sparse" then
    Some (if success then 3 else -1)%Z
  else if String.eqb (reward_type cfg) "positive" then
    Some (if success then 5 else 0)%Z
  else None.

(** The four observation modes [_get_obs] knows. *)
Definition known_mode (m : string) : bool :=
  String.eqb m "low_dim" || String.eqb m "pixels"
  || String.eqb m "pixels_depth" || String.eqb m "composed".

(** The default configuration with the given observation mode. *)
Definition config_with_mode (m : string) : Config :=
  {| n_substeps := 5; has_object := true; target_in_the_air := true;
     distance_threshold := 0.1; height_offset := 0.06;
     reward_type := "positive"; done_after := None;
     observation_type := m; fixed_goal := true;
     use_gui := false; randomize_textures := false;
     normal_textures := false; randomize_objects := false;
     randomize_camera := false; randomize_arm := false; envId := "0" |}.

(** The default configuration with the goal sampled, in the air or
    not. *)
Definition sampled_goal_config (air : bool) : Config :=
  {| n_substeps := 5; has_object := true; target_in_the_air := air;
     distance_threshold := 0.1; height_offset := 0.06;
     reward_type := "positive"; done_after := None;
     observation_type := "low_dim"; fixed_goal := false;
     use_gui := false; randomize_textures := false;
     normal_textures := false; randomize_objects := false;
     randomize_camera := false; randomize_arm := false; envId := "0" |}.

(** The default configuration with texture randomization and the given
    environment identifier. *)
Definition textured_config (id : string) : Config :=
  {| n_substeps := 5; has_object := true; target_in_the_air := true;
     distance_threshold := 0.1; height_offset := 0.06;
     reward_type := "positive"; done_after := None;
     observation_type := "low_dim"; fixed_goal := true;
     use_gui := false; randomize_textures := true;
     normal_textures := false; randomize_objects := false;
     randomize_camera := false; randomize_arm := false; envId := id |}.

(** The default configuration with the given reward mode. *)
Definition config_with_reward (r : string) : Config :=
  {| n_substeps := 5; has_object := true; target_in_the_air := true;
     distance_threshold := 0.1; height_offset := 0.06;
     reward_type := r; done_after := None;
     observation_type := "low_dim"; fixed_goal := true;
     use_gui := false; randomize_textures := false;
     normal_textures := false; randomize_objects := false;
     randomize_camera := false; randomize_arm := false; envId := "0" |}.

(** * The numeric kernels in IEEE 754 arithmetic

    Where a result depends on how a float rounds, or on a value that
    is not a number, the functions are read a second time over the
    binary floating-point numbers of [SpecFloat]: the distance and the
    reward, which compare a rounded distance with a threshold, and the
    clipping and scaling of an action, which numpy carries out in the
    precision of the array and which lets a NaN through. *)

(** The floating-point dtypes of numpy arrays. *)
Inductive dtype : Type := float32 | float64.

Module fp.

(** Number of mantissa bits, implicit bit included. *)
Definition prec (t : dtype) : Z :=
  match t with float32 => 24 | float64 => 53 end.

(** Exponent of the infinities. *)
Definition emax (t : dtype) : Z :=
  match t with float32 => 128 | float64 => 1024 end.

(** The values of the dtype. *)
Definition valid (t : dtype) (x : spec_float) : Prop :=
  valid_binary (prec t) (emax t) x = true.

(** A Python int stored into an array of the dtype. *)
Definition of_int (t : dtype) (n : Z) : spec_float :=
  binary_normalize (prec t) (emax t) n 0 false.

(** The Python float written as the decimal [num / den]: the double
    nearest to the quotient. *)
Definition literal (num den : Z) : spec_float :=
  SFdiv 53 1024 (of_int float64 num) (of_int float64 den).

(** A Python float (a double) brought to the dtype of the array it
    meets. *)
Definition cast (t : dtype) (x : spec_float) : spec_float :=
  match x with
  | S754_finite s m e => binary_round (prec t) (emax t) s m e
  | other => other
  end.

Definition isnan (x : spec_float) : bool :=
  match x with S754_nan => true | _ => false end.

(** Neither infinite nor a NaN. *)
Definition isfinite (x : spec_float) : bool :=
  match x with S754_zero _ | S754_finite _ _ _ => true | _ => false end.

(** [a - b] for two arrays of the same shape. *)
Definition sub (t : dtype) (a b : list spec_float) : list spec_float :=
  zip_with (SFsub (prec t) (emax t)) a b.

(** [a * c] with a Python float [c]: the product is taken in the
    dtype of the array. *)
Definition scale (t : dtype) (a : list spec_float) (c : spec_float)
  : list spec_float :=
  map (fun x => SFmul (prec t) (emax t) x (cast t c)) a.

(** [np.add.reduce] on fewer than eight numbers, which numpy adds from
    left to right, starting from 0. *)
Definition sum (t : dtype) (a : list spec_float) : spec_float :=
  fold_left (SFadd (prec t) (emax t)) a (S754_zero false).

(** [np.linalg.norm(x, axis=-1)] on a one-dimensional array:
    [sqrt(add.reduce((x.conj() * x).real))]. *)
Definition linalg_norm (t : dtype) (x : list spec_float) : spec_float :=
  SFsqrt (prec t) (emax t)
    (sum t (map (fun u => SFmul (prec t) (emax t) u u) x)).

(** The two halves of numpy's clip on floats: [isnan(a) ? a : (a > b
    ? a : b)] and [isnan(a) ? a : (a < b ? a : b)]. *)
Definition maximum (a b : spec_float) : spec_float :=
  if isnan a then a else if SFltb b a then a else b.

Definition minimum (a b : spec_float) : spec_float :=
  if isnan a then a else if SFltb a b then a else b.

(** [np.clip(a, a_min, a_max)] on scalars:
    [minimum(maximum(a, a_min), a_max)], in which a NaN [a] stays. *)
Definition clip1 (a a_min a_max : spec_float) : spec_float :=
  minimum (maximum a a_min) a_max.

(** [np.clip(a, lo, hi)] with Python ints as bounds: a new array. *)
Definition clip (t : dtype) (a : list spec_float) (a_min a_max : Z)
  : list spec_float :=
  map (fun x => clip1 x (of_int t a_min) (of_int t a_max)) a.

(** [lo <= x <= hi] as floats compare: false for a NaN. *)
Definition between (lo hi x : spec_float) : bool :=
  SFleb lo x && SFleb x hi.

End fp.

Module ieee.

(** [goal_distance(goal_a, goal_b)] on float64 arrays, as positions
    are. *)
Definition goal_distance (goal_a goal_b : list spec_float)
  : result spec_float :=
  assert (Nat.eqb (length goal_a) (length goal_b)) ;;;
  Return (fp.linalg_norm float64 (fp.sub float64 goal_a goal_b)).

(** [compute_reward], with the two attributes it reads; the threshold
    is a Python float. *)
Definition compute_reward (reward_type : string)
  (distance_threshold : spec_float)
  (achieved_goal desired_goal : list spec_float) : result (option Z) :=
  d <- goal_distance achieved_goal desired_goal ;;
  if String.eqb reward_type "sparse" then
    Return (Some (if SFltb d distance_threshold then 3 else -1)%Z)
  else if String.eqb reward_type "positive" then
    Return (Some (if SFltb d distance_threshold then 5 else 0)%Z)
  else Return None.

(** [_set_action] on an action of dtype [t]; [apply_action] is the
    actuator's method, and the result is what that call does with the
    array it is given. *)
Definition _set_action {T : Type} (t : dtype)
  (apply_action : list spec_float -> T) (action : list spec_float)
  : result T :=
  assert (length action =? n_actions)%nat ;;;
  (* action = np.clip(action, -1, 1) *)
  let action := fp.clip t action (-1) 1 in
  (* action[3] = 0 *)
  let action := <[3%nat := fp.of_int t 0]> action in
  (* action = action.copy() * 0.05 *)
  let action := fp.scale t action (fp.literal 5 100) in
  (* self.arm.apply_action(action) *)
  Return (apply_action action).

End ieee.

(** * Properties *)

Lemma Rltb_true x y : Rltb x y = true <-> x < y.
Proof. unfold Rltb. destruct (Rlt_dec x y); split; intros; try easy. Qed.

Lemma Rltb_false x y : Rltb x y = false <-> y <= x.
Proof.
  unfold Rltb. destruct (Rlt_dec x y); split; intros; try easy; lra.
Qed.


Lemma sum_from (a : vec) (acc : R) : fold_left Rplus a acc = acc + np.sum a.
Proof.
  unfold np.sum. revert acc.
  induction a as [|x a IH]; intros acc; simpl.
  - lra.
  - rewrite (IH (acc + x)), (IH (0 + x)). lra.
Qed.

Lemma sum_cons (x : R) (a : vec) : np.sum (x :: a) = x + np.sum a.
Proof. unfold np.sum at 1. simpl. rewrite sum_from. lra. Qed.

Lemma norm_sub_euclidean (a b : vec) :
  np.linalg_norm (np.sub a b) = euclidean a b.
Proof.
  unfold np.linalg_norm, euclidean, np.sub. f_equal.
  revert b. induction a as [|x a IH]; intros [|y b]; try reflexivity.
  change (zip_with Rminus (x :: a) (y :: b))
    with ((x - y) :: zip_with Rminus a b).
  rewrite map_cons, sum_cons, IH. reflexivity.
Qed.

Lemma goal_distance_same_shape (a b : vec) :
  length a = length b -> goal_distance a b = Return (euclidean a b).
Proof.
  intros H. unfold goal_distance.
  rewrite H, Nat.eqb_refl. simpl. now rewrite norm_sub_euclidean.
Qed.

(** ** The action path *)

Lemma clip1_clamp x : np.clip1 x (-1) 1 = clamp x.
Proof.
  unfold np.clip1, clamp, Rmin, Rmax, Rltb.
  repeat (destruct (Rle_dec _ _)); repeat (destruct (Rlt_dec _ _)); lra.
Qed.

Lemma fresh_unused (h : gmap nat (list R)) : h !! fresh (dom h) = None.
Proof. apply not_elem_of_dom, is_fresh. Qed.

Section ActionPath.

Context {W A : Type} (B : Backend W A).

(** One run of [_set_action] on a four-element array: three arrays
    are allocated at unused references and the last one goes to the
    actuator. *)
Lemma set_action_run (h : gmap nat (list R)) (action : nat)
  (s : @Env W A) (x0 x1 x2 x3 : R) (arm0 : Arm A) :
  h !! action = Some [x0; x1; x2; x3] -> arm s = Some arm0 ->
  let z := [np.clip1 x0 (-1) 1; np.clip1 x1 (-1) 1;
            np.clip1 x2 (-1) 1; 0] in
  let u := np.scale z 0.05 in
  exists l1 l2 l3,
    h !! l1 = None /\ <[l1 := z]> h !! l2 = None /\
    <[l2 := z]> (<[l1 := z]> h) !! l3 = None /\
    _set_action B h action s
    = Return (<[l3 := u]> (<[l2 := z]> (<[l1 := z]> h)),
              with_actuator s
                (actuate (fun w => apply_action B arm0 w u)
                   (EvApplyAction u) (ext s))).
Proof.
  intros Hl Harm z u.
  unfold _set_action, deref. rewrite Hl. cbn [attr bind].
  change (assert _) with (Return tt : result unit). cbn [bind].
  unfold alloc.
  set (l1 := fresh (dom h)).
  rewrite lookup_insert_eq. cbn [attr bind].
  change (np.setitem 3 0 _) with (Return z). cbn [bind].
  rewrite insert_insert_eq, lookup_insert_eq. cbn [attr bind].
  set (h1 := <[l1 := z]> h).
  set (l2 := fresh (dom h1)).
  rewrite lookup_insert_eq. cbn [attr bind].
  set (h2 := <[l2 := z]> h1).
  set (l3 := fresh (dom h2)).
  rewrite Harm. cbn [attr bind].
  rewrite lookup_insert_eq. cbn [attr bind].
  exists l1, l2, l3. repeat split; apply fresh_unused.
Qed.

Lemma four_elements (a : list R) :
  length a = n_actions -> exists x0 x1 x2 x3, a = [x0; x1; x2; x3].
Proof.
  destruct a as [|x0 [|x1 [|x2 [|x3 [|? ?]]]]]; try discriminate.
  intros _. now exists x0, x1, x2, x3.
Qed.

(** C10 — [_set_action] leaves the caller's array as it was: the
    clipped array is a new object, and the zeroing and the scaling
    touch only new objects, so after the call every array that
    existed before holds the values it held. *)
Theorem set_action_keeps_caller_array (h : gmap nat (list R))
  (action : nat) (s : @Env W A) (a : list R) (arm0 : Arm A) :
  h !! action = Some a -> length a = n_actions -> arm s = Some arm0 ->
  exists h' s',
    _set_action B h action s = Return (h', s') /\
    h' !! action = Some a /\
    (forall l v, h !! l = Some v -> h' !! l = Some v).
Proof.
  intros Hl Hlen Harm.
  destruct (four_elements a Hlen) as (x0 & x1 & x2 & x3 & ->).
  destruct (set_action_run h action s x0 x1 x2 x3 arm0 Hl Harm)
    as (l1 & l2 & l3 & H1 & H2 & H3 & Hrun).
  eexists _, _. split; [exact Hrun|].
  assert (Hkeep : forall l v, h !! l = Some v ->
    <[l3 := np.scale [np.clip1 x0 (-1) 1; np.clip1 x1 (-1) 1;
                      np.clip1 x2 (-1) 1; 0] 0.05]>
      (<[l2 := [np.clip1 x0 (-1) 1; np.clip1 x1 (-1) 1;
                np.clip1 x2 (-1) 1; 0]]>
         (<[l1 := [np.clip1 x0 (-1) 1; np.clip1 x1 (-1) 1;
                   np.clip1 x2 (-1) 1; 0]]> h)) !! l = Some v).
  { intros l v Hv.
    assert (l <> l1) by (intros ->; congruence).
    assert (E1 : <[l1 := [np.clip1 x0 (-1) 1; np.clip1 x1 (-1) 1;
                    np.clip1 x2 (-1) 1; 0]]> h !! l = Some v)
      by now rewrite lookup_insert_ne.
    assert (l <> l2) by (intros ->; congruence).
    assert (E2 : <[l2 := [np.clip1 x0 (-1) 1; np.clip1 x1 (-1) 1;
                    np.clip1 x2 (-1) 1; 0]]>
                   (<[l1 := [np.clip1 x0 (-1) 1; np.clip1 x1 (-1) 1;
                    np.clip1 x2 (-1) 1; 0]]> h) !! l = Some v)
      by now rewrite lookup_insert_ne.
    assert (l <> l3) by (intros ->; congruence).
    now rewrite lookup_insert_ne. }
  split; [now apply Hkeep | exact Hkeep].
Qed.

End ActionPath.

(** ** Observations *)

Section Observation.

Context {W A : Type} (B : Backend W A).
Variable astype_float32 : R -> R.

Abbreviation f32 := astype_float32.

(** What [state_vector] evaluates to once the attributes it reads
    are set. *)
Lemma state_vector_eval (cfg : Config) (s : @Env W A) (a : Arm A)
  (g : list R) :
  arm s = Some a -> goal s = Some g ->
  (has_object cfg = true -> is_Some (body s)) ->
  let w := world (ext s) in
  let link := p_getLinkState B w (armId a) 6 in
  let grip_pos := np.array3 (linkWorldPosition link) in
  let object_fields :=
    if has_object cfg then
      match body s with
      | Some b =>
          np.array3 (p_getBasePositionAndOrientation B w b)
          ++ np.sub (np.array3 (p_getBasePositionAndOrientation B w b))
               grip_pos
      | None => []
      end
    else [0; 0; 0] ++ [0; 0; 0] in
  state_vector B f32 cfg s
  = Return (map f32
      (grip_pos ++ g
       ++ [p_getJointState B w (armId a) 7; p_getJointState B w (armId a) 9]
       ++ object_fields
       ++ goalPosition a ++ [goalGripper a]
       ++ np.array3 (worldLinkLinearVelocity link)
       ++ [if is_grasping B a w then 1 else 0])).
Proof.
  intros Ha Hg Hbody. unfold state_vector. rewrite Ha, Hg.
  cbn [attr bind].
  destruct (has_object cfg).
  - destruct (Hbody eq_refl) as [b ->]. cbn [attr bind].
    now rewrite <- !app_assoc.
  - reflexivity.
Qed.

(** C1 — once the attributes are in place, [state_vector] (and so
    [get_state]) returns 22 numbers in the fixed order: gripper
    position (3), goal (3), the two gripper joints (2), object position
    (3), object relative to gripper (3), the arm's goal position (3),
    the arm's goal gripper value (1), gripper linear velocity (3),
    grasping flag (1), each cast to float32; without an object the two
    object fields are the cast of zero vectors; the result depends on
    the configuration through [has_object] only, so neither the
    observation mode nor a randomization toggle changes it. *)
Theorem state_vector_layout (cfg : Config) (s : @Env W A) :
  ready cfg s ->
  exists (v : list R) (a : Arm A) (g : list R),
    arm s = Some a /\ goal s = Some g /\
    state_vector B f32 cfg s = Return v /\
    get_state B f32 cfg s = Return v /\
    length v = 22%nat /\
    let w := world (ext s) in
    let link := p_getLinkState B w (armId a) 6 in
    let grip_pos := np.array3 (linkWorldPosition link) in
    np.slice 0 3 v = map f32 grip_pos /\
    np.slice 3 6 v = map f32 g /\
    np.slice 6 8 v = map f32 [p_getJointState B w (armId a) 7;
                              p_getJointState B w (armId a) 9] /\
    (forall b, has_object cfg = true -> body s = Some b ->
       let obj_pos := np.array3 (p_getBasePositionAndOrientation B w b) in
       np.slice 8 11 v = map f32 obj_pos /\
       np.slice 11 14 v = map f32 (np.sub obj_pos grip_pos)) /\
    (has_object cfg = false ->
       np.slice 8 11 v = map f32 [0; 0; 0] /\
       np.slice 11 14 v = map f32 [0; 0; 0]) /\
    np.slice 14 17 v = map f32 (goalPosition a) /\
    np.slice 17 18 v = [f32 (goalGripper a)] /\
    np.slice 18 21 v = map f32 (np.array3 (worldLinkLinearVelocity link)) /\
    np.slice 21 22 v = [f32 (if is_grasping B a w then 1 else 0)] /\
    (forall cfg', has_object cfg' = has_object cfg ->
       state_vector B f32 cfg' s = Return v).
Proof.
  intros (a & g & Ha & Hg & Hg3 & Hp3 & Hbody).
  pose proof (state_vector_eval cfg s a g Ha Hg Hbody) as Hev.
  cbn zeta in Hev.
  assert (Hind : forall cfg', has_object cfg' = has_object cfg ->
            state_vector B f32 cfg' s = state_vector B f32 cfg s).
  { intros cfg' Hc.
    rewrite (state_vector_eval cfg' s a g Ha Hg), Hev;
      [|rewrite Hc; exact Hbody].
    cbn zeta. now rewrite Hc. }
  rewrite Hev in Hind.
  match type of Hev with _ = Return ?v => exists v, a, g end.
  split; [exact Ha|]. split; [exact Hg|].
  split; [exact Hev|]. split; [exact Hev|].
  clear Hev. revert Hind. cbn zeta.
  destruct g as [|g0 [|g1 [|g2 [|? ?]]]]; try discriminate.
  destruct (goalPosition a) as [|p0 [|p1 [|p2 [|? ?]]]]; try discriminate.
  destruct (p_getLinkState B (world (ext s)) (armId a) 6)
    as [[[px py] pz] [[vx vy] vz]].
  cbn [linkWorldPosition worldLinkLinearVelocity np.array3].
  destruct (has_object cfg) eqn:Hobj.
  - destruct (Hbody eq_refl) as [b Hb]. rewrite Hb.
    destruct (p_getBasePositionAndOrientation B (world (ext s)) b)
      as [[ox oy] oz] eqn:Ho.
    cbn [np.array3]. intros Hind.
    split; [reflexivity|].
    do 3 (split; [reflexivity|]).
    split.
    { intros b' _ [= <-]. rewrite Ho. split; reflexivity. }
    split; [discriminate|].
    do 4 (split; [reflexivity|]).
    exact Hind.
  - intros Hind.
    split; [reflexivity|].
    do 3 (split; [reflexivity|]).
    split; [discriminate|].
    split; [intros _; split; reflexivity|].
    do 4 (split; [reflexivity|]).
    exact Hind.
Qed.

Lemma channel_3_of_rgb (px : ndarray) :
  shape px = [84; 84; 3]%nat -> channel 3 px = Raise IndexError.
Proof. intros H. unfold channel. now rewrite H. Qed.

(** In mode "pixels_depth" the image passes the shape check and the
    channel index 3 is then outside its three channels. *)
Lemma get_obs_pixels_depth_raises (cfg : Config) (s : @Env W A) :
  ready cfg s ->
  observation_type cfg = "pixels_depth"%string ->
  shape (render B (world (ext s)) (scene s)) = [84; 84; 3]%nat ->
  _get_obs B f32 cfg s = Raise IndexError.
Proof.
  intros (a & g & Ha & Hg & _ & _ & Hbody) Hmode Hshape.
  unfold _get_obs.
  rewrite (state_vector_eval cfg s a g Ha Hg Hbody). cbn zeta.
  cbn [bind]. rewrite Hmode.
  change (contains "pixels" "pixels_depth") with true.
  cbn [orb]. rewrite Hshape.
  rewrite bool_decide_true by reflexivity.
  cbn [assert bind].
  change ("pixels_depth" =? "low_dim")%string with false.
  change ("pixels_depth" =? "pixels")%string with false.
  change ("pixels_depth" =? "pixels_depth")%string with true.
  cbn [local bind].
  now rewrite (channel_3_of_rgb _ Hshape).
Qed.

(** Whatever the state and the renderer, mode "pixels_depth" never
    yields an observation. *)
Lemma get_obs_pixels_depth_no_observation (cfg : Config) (s : @Env W A)
  (o : Obs) :
  observation_type cfg = "pixels_depth"%string ->
  _get_obs B f32 cfg s <> Return o.
Proof.
  intros Hmode. unfold _get_obs.
  destruct (state_vector B f32 cfg s) as [v|e|]; cbn [bind];
    try discriminate.
  rewrite Hmode.
  change (contains "pixels" "pixels_depth") with true.
  cbn [orb].
  destruct (bool_decide (shape (render B (world (ext s)) (scene s))
                         = [84; 84; 3]%nat)) eqn:E;
    cbn [assert bind]; try discriminate.
  apply bool_decide_eq_true in E.
  change ("pixels_depth" =? "low_dim")%string with false.
  change ("pixels_depth" =? "pixels")%string with false.
  change ("pixels_depth" =? "pixels_depth")%string with true.
  cbn [local bind].
  now rewrite (channel_3_of_rgb _ E).
Qed.

End Observation.

Lemma toy_env_ready (cfg : Config) : ready cfg toy_env.
Proof.
  exists (mkArm 0%Z [0; 0; 0] 0 tt), [-0.4; 0.2; 0.3].
  repeat split; try reflexivity. intros _. now exists 0%Z.
Qed.

(** C7 — with observation mode "pixels_depth", a rendered image of
    shape 84x84x3 passes the shape check of [_get_obs], and the
    extraction [pixels[:, :, 3]] then asks for a fourth channel of a
    three-channel image: the call ends in [IndexError] instead of
    returning an 84x84 array. *)
Theorem get_obs_pixels_depth_index_error :
  _get_obs toy (fun x => x) pixels_depth_config toy_env = Raise IndexError.
Proof.
  apply get_obs_pixels_depth_raises.
  - apply toy_env_ready.
  - reflexivity.
  - reflexivity.
Qed.

(** ** Sampling the goal and the object *)

Lemma advance_unit_interval (g : Rng) :
  unit_interval g -> unit_interval (advance g).
Proof. intros H k. apply H. Qed.

Lemma uniform_three (l0 l1 l2 h0 h1 h2 : R) (g : Rng) :
  rng.uniform [l0; l1; l2] [h0; h1; h2] g
  = ([l0 + (h0 - l0) * unit_draws g (cursor g);
      l1 + (h1 - l1) * unit_draws g (S (cursor g));
      l2 + (h2 - l2) * unit_draws g (S (S (cursor g)))],
     advance (advance (advance g))).
Proof. reflexivity. Qed.

(** The upper corner of the box the object is drawn from. *)
Lemma object_high (cfg : Config) :
  (if fixed_goal cfg then <[1%nat := 0.0]> table_high else table_high)
  = [-0.2; if fixed_goal cfg then 0 else 0.25; 0.2].
Proof.
  destruct (fixed_goal cfg); unfold table_high; cbn; repeat f_equal; lra.
Qed.

Lemma draw_is_candidate (cfg : Config) (g : Rng) :
  drawn_on_table cfg (unit_draws g)
    (<[2%nat := height_offset cfg]>
       (fst (rng.uniform table_low
               [-0.2; if fixed_goal cfg then 0 else 0.25; 0.2] g))).
Proof.
  unfold table_low. rewrite uniform_three. cbn [fst].
  exists (cursor g). reflexivity.
Qed.

Lemma drawn_on_table_bounds (cfg : Config) (draws : nat -> R) (o : list R) :
  (forall k, 0 <= draws k < 1) ->
  drawn_on_table cfg draws o ->
  exists x y, o = [x; y; height_offset cfg] /\
              -0.35 <= x <= -0.2 /\
              -0.25 <= y <= (if fixed_goal cfg then 0 else 0.25).
Proof.
  intros Hint [k ->]. eexists _, _. split; [reflexivity|].
  pose proof (Hint k). pose proof (Hint (S k)).
  destruct (fixed_goal cfg); split; lra.
Qed.


(** The rejection loop: what it returns is at least 0.1 from the goal,
    it is the position the loop started with or one it drew, and the
    generator's values are as they were. *)
Lemma while_too_close_returns (fuel : nat) (cfg : Config) (goal : list R) :
  forall (obj_pos : list R) (npr : Rng) (o : list R) (npr' : Rng),
    while_too_close fuel cfg
      [-0.2; if fixed_goal cfg then 0 else 0.25; 0.2] goal obj_pos npr
    = Return (o, npr') ->
    (exists d, goal_distance o goal = Return d /\ 0.1 <= d) /\
    unit_draws npr' = unit_draws npr /\
    (drawn_on_table cfg (unit_draws npr) obj_pos ->
     drawn_on_table cfg (unit_draws npr) o).
Proof.
  induction fuel as [|fuel IH]; intros obj_pos npr o npr' H;
    [discriminate|].
  cbn [while_too_close] in H.
  destruct (goal_distance obj_pos goal) as [d|e|] eqn:Hd; cbn [bind] in H;
    try discriminate.
  destruct (Rltb d 0.1) eqn:Hlt.
  - destruct (rng.uniform table_low _ npr) as [o1 npr1] eqn:Hu.
    apply IH in H. destruct H as (Hfar & Hdraws & Hcand).
    assert (Hnpr1 : unit_draws npr1 = unit_draws npr).
    { unfold table_low in Hu. rewrite uniform_three in Hu.
      now injection Hu as _ <-. }
    split; [exact Hfar|]. split; [congruence|].
    intros _. rewrite <- Hnpr1. apply Hcand. rewrite Hnpr1.
    pose proof (draw_is_candidate cfg npr) as Hc.
    now rewrite Hu in Hc.
  - injection H as <- <-. apply Rltb_false in Hlt.
    split; [now exists d|]. split; [reflexivity|]. now intros Hc.
Qed.

(** More fuel does not change a result. *)
Lemma while_too_close_more_fuel (fuel : nat) (cfg : Config)
  (high goal : list R) :
  forall (obj_pos : list R) (npr : Rng) (r : list R * Rng),
    while_too_close fuel cfg high goal obj_pos npr = Return r ->
    while_too_close (S fuel) cfg high goal obj_pos npr = Return r.
Proof.
  induction fuel as [|fuel IH]; intros obj_pos npr r H; [discriminate|].
  cbn [while_too_close] in H. cbn [while_too_close].
  destruct (goal_distance obj_pos goal) as [d|e|]; cbn [bind] in *;
    try discriminate.
  destruct (Rltb d 0.1); [|exact H].
  destruct (rng.uniform table_low high npr) as [o1 npr1].
  apply IH in H. exact H.
Qed.

(** A position that is far enough leaves the loop at once. *)
Lemma while_too_close_exit (fuel : nat) (cfg : Config)
  (high goal obj_pos : list R) (npr : Rng) :
  length obj_pos = length goal ->
  0.1 <= euclidean obj_pos goal ->
  while_too_close (S fuel) cfg high goal obj_pos npr = Return (obj_pos, npr).
Proof.
  intros Hlen Hfar. cbn [while_too_close].
  rewrite (goal_distance_same_shape _ _ Hlen). cbn [bind].
  now rewrite (proj2 (Rltb_false _ _) Hfar).
Qed.

(** The distance is at least the difference in height. *)
Lemma euclidean_height (a0 a1 a2 b0 b1 b2 c : R) :
  0 <= c -> c * c <= (a2 - b2) * (a2 - b2) ->
  c <= euclidean [a0; a1; a2] [b0; b1; b2].
Proof.
  intros Hc Hz. unfold euclidean. cbn [sq_diff].
  rewrite <- (sqrt_square c) by exact Hc.
  pose proof (Rle_0_sqr (a0 - b0)) as H0.
  pose proof (Rle_0_sqr (a1 - b1)) as H1.
  pose proof (Rle_0_sqr (a2 - b2)) as H2.
  pose proof (Rle_0_sqr c) as H3.
  unfold Rsqr in *.
  apply sqrt_le_1; lra.
Qed.

Lemma sample_goal_draws (cfg : Config) (npr glob : Rng) :
  unit_draws (snd (fst (_sample_goal cfg npr glob))) = unit_draws npr.
Proof.
  unfold _sample_goal.
  destruct (fixed_goal cfg), (target_in_the_air cfg); try reflexivity.
  unfold table_low, table_high. rewrite uniform_three.
  unfold rng.uniform1, rng.random_sample.
  destruct (Rltb _ 1); reflexivity.
Qed.

(** What [sample_scene] returns: the sampled goal, and an object
    position that is at least 0.1 from it and was drawn on the table. *)
Lemma sample_scene_returns (fuel : nat) (cfg : Config) (npr glob : Rng)
  (g o : list R) (npr' glob' : Rng) :
  sample_scene fuel cfg npr glob = Return (g, o, npr', glob') ->
  g = fst (fst (_sample_goal cfg npr glob)) /\
  (exists d, goal_distance o g = Return d /\ 0.1 <= d) /\
  drawn_on_table cfg (unit_draws npr) o.
Proof.
  unfold sample_scene. rewrite object_high.
  pose proof (sample_goal_draws cfg npr glob) as Hdraws.
  destruct (_sample_goal cfg npr glob) as [[g1 npr1] glob1].
  cbn [fst snd] in Hdraws.
  destruct (rng.uniform table_low _ npr1) as [o1 npr2] eqn:Hu.
  destruct (while_too_close fuel cfg _ g1 _ npr2) as [[o2 npr3]|e|] eqn:Hw;
    cbn [bind]; try discriminate.
  intros [= <- <- <- <-].
  apply while_too_close_returns in Hw.
  destruct Hw as (Hfar & _ & Hcand).
  assert (Hnpr2 : unit_draws npr2 = unit_draws npr).
  { unfold table_low in Hu. rewrite uniform_three in Hu.
    injection Hu as _ <-. exact Hdraws. }
  split; [reflexivity|]. split; [exact Hfar|].
  rewrite <- Hnpr2. apply Hcand. rewrite Hnpr2, <- Hdraws.
  pose proof (draw_is_candidate cfg npr1) as Hc.
  now rewrite Hu in Hc.
Qed.

(** With the fixed goal in the air and the object's height at least 0.1
    away from the goal's, the first draw is accepted: one unit of fuel
    is enough, whatever the generator produces. *)
Lemma sample_scene_fixed_goal_in_the_air (fuel : nat) (cfg : Config)
  (npr glob : Rng) :
  fixed_goal cfg = true -> target_in_the_air cfg = true ->
  0.1 * 0.1 <= (height_offset cfg - 0.3) * (height_offset cfg - 0.3) ->
  sample_scene (S fuel) cfg npr glob
  = Return ([-0.4; 0.2; 0.3],
            [-0.35 + (-0.2 - -0.35) * unit_draws npr (cursor npr);
             -0.25 + (0 - -0.25) * unit_draws npr (S (cursor npr));
             height_offset cfg],
            advance (advance (advance npr)), glob).
Proof.
  intros Hfixed Hair Hh. unfold sample_scene, _sample_goal.
  rewrite object_high, Hfixed, Hair.
  unfold table_low. rewrite uniform_three.
  cbn [list_insert insert].
  rewrite while_too_close_exit; [reflexivity|reflexivity|].
  apply euclidean_height; lra.
Qed.

(** The loop never raises: the positions it compares have three
    coordinates, as the goal has. *)
Lemma while_too_close_no_raise (fuel : nat) (cfg : Config) (hy : R)
  (goal : list R) :
  length goal = 3%nat ->
  forall (obj_pos : list R) (npr : Rng),
    length obj_pos = 3%nat ->
    while_too_close fuel cfg [-0.2; hy; 0.2] goal obj_pos npr = OutOfFuel \/
    exists r,
      while_too_close fuel cfg [-0.2; hy; 0.2] goal obj_pos npr = Return r.
Proof.
  intros Hgoal. induction fuel as [|fuel IH]; intros obj_pos npr Hobj;
    [now left|].
  cbn [while_too_close].
  rewrite goal_distance_same_shape by congruence. cbn [bind].
  destruct (Rltb _ 0.1).
  - unfold table_low. rewrite uniform_three. now apply IH.
  - right. now eexists.
Qed.

Lemma sample_goal_length (cfg : Config) (npr glob : Rng) :
  length (fst (fst (_sample_goal cfg npr glob))) = 3%nat.
Proof.
  unfold _sample_goal.
  destruct (fixed_goal cfg), (target_in_the_air cfg); try reflexivity.
  unfold table_low, table_high. rewrite uniform_three.
  unfold rng.uniform1, rng.random_sample.
  destruct (Rltb _ 1); reflexivity.
Qed.

Lemma sample_scene_no_raise (fuel : nat) (cfg : Config) (npr glob : Rng) :
  sample_scene fuel cfg npr glob = OutOfFuel \/
  exists r, sample_scene fuel cfg npr glob = Return r.
Proof.
  unfold sample_scene. rewrite object_high.
  pose proof (sample_goal_length cfg npr glob) as Hlen.
  destruct (_sample_goal cfg npr glob) as [[g1 npr1] glob1].
  cbn [fst] in Hlen.
  unfold table_low. rewrite uniform_three.
  match goal with
  | |- context [while_too_close fuel cfg ?high g1 ?o ?g] =>
      assert (Ho : length o = 3%nat)
        by (rewrite length_insert; reflexivity);
      destruct (while_too_close_no_raise fuel cfg
                  (if fixed_goal cfg then 0 else 0.25) g1 Hlen o g Ho)
        as [E|[[o3 npr3] E]]; rewrite E; cbn [bind]
  end.
  - now left.
  - right. now eexists.
Qed.

(** ** Rebuilding the scene *)

Section Rebuild.

Context {W A : Type} (B : Backend W A).
Variable tmp_dir : string.

Lemma adds_ret (P : Event -> Prop) {T} (t : T) : adds P (ret (W := W) t).
Proof. intros x. exists []. split; [now rewrite app_nil_r|constructor]. Qed.

Lemma adds_andthen (P : Event -> Prop) {T U} (m : St T) (k : T -> St U) :
  adds (W := W) P m -> (forall t, adds P (k t)) -> adds P (andthen m k).
Proof.
  intros Hm Hk x. unfold andthen.
  destruct (Hm x) as (evs1 & E1 & F1).
  destruct (m x) as [t x1]. cbn [snd] in E1.
  destruct (Hk t x1) as (evs2 & E2 & F2).
  exists (evs1 ++ evs2). split.
  - now rewrite E2, E1, app_assoc.
  - now apply Forall_app.
Qed.

Lemma adds_call (P : Event -> Prop) {T} (f : W -> T * W) (ev : T -> Event) :
  (forall t, P (ev t)) -> adds P (call f ev).
Proof.
  intros H x. unfold call. destruct (f (world x)) as [t w].
  exists [ev t]. split; [reflexivity|]. repeat constructor. apply H.
Qed.

Lemma adds_emit (P : Event -> Prop) (e : Event) :
  P e -> adds (W := W) P (emit e).
Proof.
  intros H x. exists [e]. split; [reflexivity|]. now repeat constructor.
Qed.

Lemma adds_draw (P : Event -> Prop) {T} (f : Rng -> T * Rng) :
  adds (W := W) P (draw f).
Proof.
  intros x. unfold draw. destruct (f (global_random x)) as [t g].
  exists []. split; [now rewrite app_nil_r|constructor].
Qed.

Ltac adds_step :=
  lazymatch goal with
  | |- adds _ (ret _) => apply adds_ret
  | |- adds _ (draw _) => apply adds_draw
  | |- adds _ (emit _) => apply adds_emit; reflexivity
  | |- adds _ (call _ _) => apply adds_call; intros; reflexivity
  | |- adds _ (andthen _ _) => apply adds_andthen; [|intros ?]
  | |- adds _ (if ?c then _ else _) => destruct c
  | |- adds _ (match ?q with _ => _ end) => destruct q
  end.

Lemma init_env_quiet (cfg : Config) (sc : Scene) :
  adds quiet (init_env B tmp_dir cfg sc).
Proof. unfold init_env, choice_of_two, p. repeat adds_step. Qed.

Lemma init_arm_quiet (cfg : Config) : adds quiet (init_arm B cfg).
Proof. unfold init_arm, actuate, p. repeat adds_step. Qed.

Lemma rebuild_quiet (cfg : Config) (sc : Scene) (g o : list R) (grasp : R) :
  adds quiet (rebuild B tmp_dir cfg sc g o grasp).
Proof.
  unfold rebuild, actuate, p.
  repeat first [ apply init_env_quiet | apply init_arm_quiet | adds_step ].
Qed.

Lemma emits_now (Q : Event -> Prop) {T} (f : W -> T * W) (ev : T -> Event) :
  (forall t, Q (ev t)) -> emits Q (call f ev).
Proof.
  intros H x. unfold call. destruct (f (world x)) as [t w].
  exists [], (ev t), []. split; [reflexivity|apply H].
Qed.

Lemma emits_first (Q P : Event -> Prop) {T U} (m : St T) (k : T -> St U) :
  emits (W := W) Q m -> (forall t, adds P (k t)) -> emits Q (andthen m k).
Proof.
  intros Hm Hk x. unfold andthen.
  destruct (Hm x) as (pre & e & suf & E1 & He).
  destruct (m x) as [t x1]. cbn [snd] in E1.
  destruct (Hk t x1) as (evs & E2 & _).
  exists pre, e, (suf ++ evs). split; [|exact He].
  rewrite E2, E1, <- !app_assoc. reflexivity.
Qed.

Lemma emits_later (Q P : Event -> Prop) {T U} (m : St T) (k : T -> St U) :
  adds (W := W) P m -> (forall t, emits Q (k t)) -> emits Q (andthen m k).
Proof.
  intros Hm Hk x. unfold andthen.
  destruct (Hm x) as (evs & E1 & _).
  destruct (m x) as [t x1]. cbn [snd] in E1.
  destruct (Hk t x1) as (pre & e & suf & E2 & He).
  exists (evs ++ pre), e, suf. split; [|exact He].
  rewrite E2, E1, <- !app_assoc. reflexivity.
Qed.

(** With an object configured, [rebuild] creates its body at
    [obj_pos]. *)
Lemma rebuild_creates_object (cfg : Config) (sc : Scene) (g o : list R)
  (grasp : R) :
  has_object cfg = true ->
  emits (object_created_at o) (rebuild B tmp_dir cfg sc g o grasp).
Proof.
  intros Hobj. unfold rebuild. rewrite Hobj.
  do 8 (eapply (emits_later _ quiet);
        [ unfold p; repeat first [ apply init_env_quiet
                                 | apply init_arm_quiet | adds_step ]
        | intros ? ]).
  eapply (emits_later _ quiet); [repeat adds_step|intros [obj_size obj_color]].
  do 2 (eapply (emits_later _ quiet); [unfold p; repeat adds_step|intros ?]).
  eapply (emits_first _ quiet).
  - apply emits_now. intros b. now eexists _, _, b.
  - intros b. unfold p, actuate. repeat adds_step.
Qed.

(** Results of state procedures. *)

Lemma yields_andthen {T U} (Q1 : T -> Prop) (Q : U -> Prop)
  (m : St T) (k : T -> St U) :
  yields (W := W) Q1 m -> (forall t, Q1 t -> yields Q (k t)) ->
  yields Q (andthen m k).
Proof.
  intros Hm Hk x. unfold andthen. specialize (Hm x).
  destruct (m x) as [t x1]. now apply Hk.
Qed.

Lemma yields_skip {T U} (Q : U -> Prop) (m : St T) (k : T -> St U) :
  (forall t, yields (W := W) Q (k t)) -> yields Q (andthen m k).
Proof.
  intros Hk. apply (yields_andthen (fun _ => True)); [easy|].
  intros t _. apply Hk.
Qed.

Lemma yields_ret {T} (Q : T -> Prop) (t : T) :
  Q t -> yields (W := W) Q (ret t).
Proof. intros H x. exact H. Qed.

Lemma yields_actuate (Q : Arm A -> Prop) (f : W -> Arm A * W) (ev : Event) :
  (forall w, Q (fst (f w))) -> yields Q (actuate f ev).
Proof.
  intros H x. unfold actuate, call. specialize (H (world x)).
  now destruct (f (world x)).
Qed.

Section ArmInvariant.

(** A property of the arm that a new [Mico] has and that
    [init_gripper] and [set_graspable_object] keep. *)
Variable I : Arm A -> Prop.
Hypothesis Mico_I : forall w sp rl rh r u, I (fst (Mico B w sp rl rh r u)).
Hypothesis init_gripper_I :
  forall a w, I a -> I (fst (init_gripper B a w)).
Hypothesis set_graspable_object_I :
  forall a w b g, I a -> I (fst (set_graspable_object B a w b g)).

Lemma init_arm_result (cfg : Config) : yields I (init_arm B cfg).
Proof.
  unfold init_arm.
  apply (yields_andthen (fun made => I (fst (fst made)))).
  - destruct (randomize_arm cfg).
    + do 3 (apply yields_skip; intros ?).
      destruct t0 as [[urdf lc] rc].
      apply (yields_andthen I).
      * apply yields_actuate. intros w. apply Mico_I.
      * intros t2 H2. now apply yields_ret.
    + apply (yields_andthen I).
      * apply yields_actuate. intros w. apply Mico_I.
      * intros t2 H2. now apply yields_ret.
  - intros [[arm0 lc] rc] H0. cbn [fst] in H0.
    do 9 (apply yields_skip; intros ?).
    apply yields_actuate. intros w. now apply init_gripper_I.
Qed.

(** [rebuild] hands back an arm with the property and, with an
    object configured, a body. *)
Lemma rebuild_result (cfg : Config) (sc : Scene) (g o : list R)
  (grasp : R) :
  yields (fun r => I (snd (fst r)) /\
                   (has_object cfg = true -> is_Some (snd r)))
    (rebuild B tmp_dir cfg sc g o grasp).
Proof.
  unfold rebuild.
  do 7 (apply yields_skip; intros ?).
  apply (yields_andthen I); [apply init_arm_result|].
  intros arm0 H0.
  destruct (has_object cfg).
  - apply yields_skip; intros [obj_size obj_color].
    do 4 (apply yields_skip; intros ?).
    apply (yields_andthen I).
    + apply yields_actuate. intros w. now apply set_graspable_object_I.
    + intros arm1 H1. apply yields_ret. cbn. split; [exact H1|eauto].
  - apply yields_ret. cbn. split; [exact H0|discriminate].
Qed.

End ArmInvariant.

(** The [spawn_pos] handed to [Mico]. *)

Lemma spawn_positions_app (t1 t2 : list Event) :
  spawn_positions (t1 ++ t2) = spawn_positions t1 ++ spawn_positions t2.
Proof. apply omap_app. Qed.

Ltac run_step :=
  match goal with
  | |- context [match ?e with _ => _ end] =>
      lazymatch e with
      | context [match _ with _ => _ end] => fail
      | _ => destruct e eqn:?
      end
  end; cbn [world trace global_random fst snd].

Lemma init_arm_spawn_pos (cfg : Config) (x : Ext) :
  spawn_positions (trace (snd (init_arm B cfg x)))
  = spawn_positions (trace x)
    ++ [if randomize_arm cfg then
          np.clip_arrays [0; 0; 0.03] [0; 0; 0.07]
            (fst (rng.normal [0; 0; 0.05] 0.02 (global_random x)))
        else [0; 0; 0]].
Proof.
  unfold init_arm, p, actuate. unfold andthen, draw, emit, call, ret.
  destruct (randomize_arm cfg); cbn [world trace global_random];
    repeat run_step;
    rewrite <- ?app_assoc, spawn_positions_app; reflexivity.
Qed.

End Rebuild.

(** When the array is below the lower bound and the upper bound is
    below the lower bound too, [np.clip] returns the upper bound. *)
Lemma clip1_upper_below_lower (a a_min a_max : R) :
  a <= a_min -> a_max <= a_min -> np.clip1 a a_min a_max = a_max.
Proof.
  intros H1 H2. unfold np.clip1.
  rewrite (Rmax_right a a_min H1). now apply Rmin_left.
Qed.

(** C9 — with arm randomization on, [init_arm] calls
    [np.clip([0, 0, 0.03], [0, 0, 0.07], np.random.normal(...))]: the
    constant [0, 0, 0.03] is the array being clipped, [0, 0, 0.07] the
    lower bound and the normal draw the upper bound.  With the three
    standard deviates equal to -2 the draw is (-0.04, -0.04, 0.01) and
    the arm is spawned at (-0.04, -0.04, 0.01): x and y are not 0 and z
    is below 0.03. *)
Theorem init_arm_spawn_outside_clip_range :
  spawn_positions
    (trace (snd (init_arm toy randomized_arm_config
                   {| world := tt; trace := [];
                      global_random := constant_rng 0 (-2) |})))
  = [[-0.04; -0.04; 0.01]]
  /\ -0.04 <> 0 /\ ~ (0.03 <= 0.01 <= 0.07).
Proof.
  split; [|split; lra].
  rewrite init_arm_spawn_pos.
  cbn [trace global_random randomized_arm_config randomize_arm
       spawn_positions omap app].
  cbn [rng.normal rng.normal1 constant_rng std_normals cursor advance fst
       np.clip_arrays].
  rewrite !clip1_upper_below_lower by lra.
  replace (0 + 0.02 * -2) with (-0.04) by lra.
  replace (0.05 + 0.02 * -2) with 0.01 by lra.
  reflexivity.
Qed.

(** ** Resetting *)

Lemma slice_length (i j : nat) (a : list R) :
  (j <= length a)%nat -> length (np.slice i j a) = (j - i)%nat.
Proof.
  intros H. unfold np.slice. rewrite length_take, length_drop. lia.
Qed.

Lemma item_in_range (i : nat) (a : list R) :
  (i < length a)%nat -> exists x, a !! i = Some x /\ np.item i a = Return x.
Proof.
  intros H. unfold np.item.
  destruct (lookup_lt_is_Some_2 a i H) as [x Hx].
  exists x. now rewrite Hx.
Qed.

Section Reset.

Context {W A : Type} (B : Backend W A).
Variable tmp_dir : string.

(** The explicit-state path decodes the four fields it uses and
    leaves both generators alone, whatever the fuel. *)
Lemma plan_scene_explicit (fuel : nat) (cfg : Config) (v : list R)
  (s : @Env W A) :
  length v = 22%nat ->
  exists x17 x21,
    v !! 17%nat = Some x17 /\ v !! 21%nat = Some x21 /\
    plan_scene fuel cfg (Some v) s
    = Return (np.slice 3 6 v, np.slice 8 11 v,
              Some (np.slice 14 17 v, x17), x21,
              np_random s, global_random (ext s)).
Proof.
  intros Hlen. unfold plan_scene. rewrite Hlen. cbn [Nat.eqb assert bind].
  destruct (item_in_range 17 v) as (x17 & H17 & E17); [lia|].
  destruct (item_in_range 21 v) as (x21 & H21 & E21); [lia|].
  exists x17, x21. rewrite E17, E21. now cbn [bind].
Qed.

Lemma plan_scene_sampled (fuel : nat) (cfg : Config) (s : @Env W A)
  (pl : list R * list R * option (list R * R) * R * Rng * Rng) :
  plan_scene fuel cfg None s = Return pl ->
  exists g o npr glob,
    sample_scene fuel cfg (np_random s) (global_random (ext s))
    = Return (g, o, npr, glob) /\
    pl = (g, o, None, 0, npr, glob).
Proof.
  unfold plan_scene.
  destruct (sample_scene _ _ _ _) as [[[[g o] npr] glob]|e|];
    cbn [bind]; try discriminate.
  intros [= <-]. now exists g, o, npr, glob.
Qed.

(** [_reset_sim] from the chosen scene on. *)
Lemma reset_sim_after_plan (fuel : nat) (cfg : Config)
  (state : option (list R)) (file : option string) (s : @Env W A)
  (g o : list R) (ag : option (list R * R)) (grasp : R) (npr glob : Rng) :
  plan_scene fuel cfg state s = Return (g, o, ag, grasp, npr, glob) ->
  let r := rebuilt B tmp_dir cfg s g o grasp glob in
  let arm0 := snd (fst (fst r)) in
  exists ok s',
    _reset_sim B tmp_dir fuel cfg state file s = Return (ok, s') /\
    goal s' = Some g /\ np_random s' = npr /\
    originalObjPosition s'
      = (if has_object cfg then Some o else originalObjPosition s) /\
    body s' = (if has_object cfg then snd (fst r) else body s) /\
    arm s' = Some (if ok then
                     match ag with
                     | Some (gp, gg) => mkArm (armId arm0) gp gg
                                          (internals arm0)
                     | None => arm0
                     end
                   else arm0) /\
    (ok = true -> originalGoalPosition s' = Some g) /\
    match truthy file with
    | None => ok = true /\ ext s' = snd r
    | Some f =>
        match p_restoreState B (world (snd r)) f with
        | None =>
            ok = false /\
            trace (ext s')
            = trace (snd r) ++ [EvRestoreState f false;
                                EvPrint "Warning: state reset failed"]
        | Some w =>
            ok = true /\ world (ext s') = w /\
            trace (ext s') = trace (snd r) ++ [EvRestoreState f true]
        end
    end.
Proof.
  intros Hplan r arm0. subst arm0 r. unfold _reset_sim, rebuilt.
  rewrite Hplan. cbn [bind].
  destruct (rebuild B tmp_dir cfg (scene s) g o grasp _)
    as [[[[[gs vt] sc] a0] b0] x1].
  cbn [fst snd].
  destruct (truthy file) as [f|].
  - unfold try_restoreState.
    destruct (p_restoreState B (world x1) f) as [w|].
    + cbn [negb emit]. eexists true, _. split; [reflexivity|].
      cbn [goal np_random originalObjPosition body arm
           originalGoalPosition ext world trace].
      destruct ag as [[gp gg]|]; destruct (has_object cfg);
        repeat split; reflexivity.
    + cbn [negb emit]. eexists false, _. split; [reflexivity|].
      cbn [goal np_random originalObjPosition body arm
           originalGoalPosition ext world trace].
      rewrite <- app_assoc.
      destruct (has_object cfg); repeat split; try reflexivity;
        discriminate.
  - cbn [negb]. eexists true, _. split; [reflexivity|].
    cbn [goal np_random originalObjPosition body arm
         originalGoalPosition ext world trace].
    destruct ag as [[gp gg]|]; destruct (has_object cfg);
      repeat split; reflexivity.
Qed.

(** A reset that returns has chosen its scene. *)
Lemma reset_sim_planned (fuel : nat) (cfg : Config)
  (state : option (list R)) (file : option string) (s : @Env W A)
  (r : bool * Env) :
  _reset_sim B tmp_dir fuel cfg state file s = Return r ->
  exists g o ag grasp npr glob,
    plan_scene fuel cfg state s = Return (g, o, ag, grasp, npr, glob).
Proof.
  unfold _reset_sim.
  destruct (plan_scene fuel cfg state s)
    as [[[[[[g o] ag] grasp] npr] glob]|e|]; cbn [bind]; try discriminate.
  intros _. now exists g, o, ag, grasp, npr, glob.
Qed.

(** With an object configured, a reset that returns has asked the
    engine for the object's body at the chosen position. *)
Lemma reset_sim_creates_object (fuel : nat) (cfg : Config)
  (state : option (list R)) (file : option string) (s : @Env W A)
  (g o : list R) (ag : option (list R * R)) (grasp : R) (npr glob : Rng)
  (ok : bool) (s' : Env) :
  plan_scene fuel cfg state s = Return (g, o, ag, grasp, npr, glob) ->
  _reset_sim B tmp_dir fuel cfg state file s = Return (ok, s') ->
  has_object cfg = true ->
  asked (object_created_at o) s s'.
Proof.
  intros Hplan Hrun Hobj.
  destruct (reset_sim_after_plan fuel cfg state file s _ _ _ _ _ _ Hplan)
    as (ok1 & s1 & Hrun1 & _ & _ & _ & _ & _ & _ & Hfile).
  rewrite Hrun in Hrun1. injection Hrun1 as <- <-.
  destruct (rebuild_creates_object B tmp_dir cfg (scene s) g o grasp Hobj
              {| world := world (ext s); trace := trace (ext s);
                 global_random := glob |})
    as (pre & e & suf & Htr & He).
  fold (rebuilt B tmp_dir cfg s g o grasp glob) in Htr.
  cbn [trace] in Htr.
  destruct (truthy file) as [f|].
  - destruct (p_restoreState B _ f) as [w|].
    + destruct Hfile as (_ & _ & Hfile).
      exists pre, e, (suf ++ [EvRestoreState f true]). split; [|exact He].
      rewrite Hfile, Htr, <- !app_assoc. reflexivity.
    + destruct Hfile as (_ & Hfile).
      exists pre, e, (suf ++ [EvRestoreState f false;
                              EvPrint "Warning: state reset failed"]).
      split; [|exact He].
      rewrite Hfile, Htr, <- !app_assoc. reflexivity.
  - destruct Hfile as (_ & Hfile).
    exists pre, e, suf. split; [|exact He]. now rewrite Hfile.
Qed.

(** A reset that returns leaves the attributes [state_vector] reads in
    place, as long as the actuator keeps its contract. *)
Lemma reset_sim_ready (fuel : nat) (cfg : Config)
  (state : option (list R)) (file : option string) (s : @Env W A)
  (ok : bool) (s' : Env) :
  actuator_contract B ->
  _reset_sim B tmp_dir fuel cfg state file s = Return (ok, s') ->
  ready cfg s'.
Proof.
  intros (HM & HG & HS & _) Hrun.
  destruct (reset_sim_planned _ _ _ _ _ _ Hrun)
    as (g & o & ag & grasp & npr & glob & Hplan).
  destruct (reset_sim_after_plan fuel cfg state file s _ _ _ _ _ _ Hplan)
    as (ok1 & s1 & Hrun1 & Hgoal & _ & _ & Hbody & Harm & _).
  rewrite Hrun in Hrun1. injection Hrun1 as <- <-.
  pose proof (rebuild_result B tmp_dir
                (fun a => length (goalPosition a) = 3%nat) HM HG HS
                cfg (scene s) g o grasp
                {| world := world (ext s); trace := trace (ext s);
                   global_random := glob |}) as [Harm0 Hbody0].
  fold (rebuilt B tmp_dir cfg s g o grasp glob) in Harm0, Hbody0.
  eexists _, g. split; [exact Harm|]. split; [exact Hgoal|].
  assert (Hg3 : length g = 3%nat /\
                match ag with
                | Some (gp, _) => length gp = 3%nat
                | None => True
                end).
  { destruct state as [v|].
    - unfold plan_scene in Hplan.
      destruct (length v =? 22)%nat eqn:E; cbn [assert bind] in Hplan;
        [|discriminate].
      apply Nat.eqb_eq in E.
      destruct (np.item 17 v); cbn [bind] in Hplan; try discriminate.
      destruct (np.item 21 v); cbn [bind] in Hplan; try discriminate.
      injection Hplan as <- _ <- _ _ _.
      split; apply slice_length; lia.
    - apply plan_scene_sampled in Hplan.
      destruct Hplan as (g1 & o1 & npr1 & glob1 & Hs & [= -> -> -> -> -> ->]).
      apply sample_scene_returns in Hs. destruct Hs as (-> & _).
      split; [apply sample_goal_length|exact Logic.I]. }
  destruct Hg3 as [Hg3 Hag].
  split; [exact Hg3|]. split.
  - destruct ok; [|exact Harm0].
    destruct ag as [[gp gg]|]; [exact Hag|exact Harm0].
  - intros Hobj. rewrite Hbody, Hobj. now apply Hbody0.
Qed.

End Reset.

(** ** What a reset guarantees *)

Section ResetProperties.

Context {W A : Type} (B : Backend W A).
Variable tmp_dir : string.
Variable astype_float32 : R -> R.

(** A sampling reset that returns, read back to what it sampled. *)
Lemma reset_sim_sampled (fuel : nat) (cfg : Config) (file : option string)
  (s : @Env W A) (ok : bool) (s' : Env) :
  _reset_sim B tmp_dir fuel cfg None file s = Return (ok, s') ->
  exists g o npr glob,
    sample_scene fuel cfg (np_random s) (global_random (ext s))
    = Return (g, o, npr, glob) /\
    goal s' = Some g /\
    (has_object cfg = true ->
     originalObjPosition s' = Some o /\ asked (object_created_at o) s s').
Proof.
  intros Hrun.
  destruct (reset_sim_planned _ _ _ _ _ _ _ _ Hrun)
    as (g & o & ag & grasp & npr & glob & Hplan).
  destruct (reset_sim_after_plan B tmp_dir fuel cfg None file s
              _ _ _ _ _ _ Hplan)
    as (ok1 & s1 & Hrun1 & Hgoal & _ & Hobj & _).
  rewrite Hrun in Hrun1. injection Hrun1 as <- <-.
  pose proof (reset_sim_creates_object B tmp_dir _ _ _ _ _ _ _ _ _ _ _ _ _
                Hplan Hrun) as Hasked.
  apply plan_scene_sampled in Hplan.
  destruct Hplan as (g1 & o1 & npr1 & glob1 & Hs & [= -> -> -> -> -> ->]).
  exists g1, o1, npr1, glob1. split; [exact Hs|]. split; [exact Hgoal|].
  intros Ho. split; [now rewrite Hobj, Ho|now apply Hasked].
Qed.


(** C8, as the code has it — after a reset that samples the scene,
    the object position has x drawn uniformly from [-0.35, -0.2], y
    drawn uniformly from [-0.25, 0.25], or from [-0.25, 0] when the
    goal is fixed, and z equal to the configured height offset; it is
    within the table bounds when the height offset is within
    [0.05, 0.2]. *)
Theorem sampled_object_on_table (fuel : nat) (cfg : Config)
  (file : option string) (s : @Env W A) (ok : bool) (s' : Env) :
  unit_interval (np_random s) ->
  _reset_sim B tmp_dir fuel cfg None file s = Return (ok, s') ->
  exists g o npr glob x y,
    sample_scene fuel cfg (np_random s) (global_random (ext s))
    = Return (g, o, npr, glob) /\
    (has_object cfg = true ->
     originalObjPosition s' = Some o /\ asked (object_created_at o) s s') /\
    drawn_on_table cfg (unit_draws (np_random s)) o /\
    o = [x; y; height_offset cfg] /\
    -0.35 <= x <= -0.2 /\
    -0.25 <= y <= (if fixed_goal cfg then 0 else 0.25) /\
    (0.05 <= height_offset cfg <= 0.2 ->
     within_box table_low table_high o).
Proof.
  intros Hint Hrun.
  destruct (reset_sim_sampled _ _ _ _ _ _ Hrun)
    as (g & o & npr & glob & Hs & _ & Hobj).
  destruct (sample_scene_returns _ _ _ _ _ _ _ _ Hs) as (_ & _ & Hdrawn).
  destruct (drawn_on_table_bounds cfg _ o Hint Hdrawn)
    as (x & y & -> & Hx & Hy).
  exists g, [x; y; height_offset cfg], npr, glob, x, y.
  split; [exact Hs|]. split; [exact Hobj|]. split; [exact Hdrawn|].
  split; [reflexivity|]. split; [exact Hx|]. split; [exact Hy|].
  intros Hh. split; [reflexivity|].
  intros i l h z Hl Hhi Hz.
  destruct i as [|[|[|i]]]; cbn in Hl, Hhi, Hz; try discriminate;
    injection Hl as <-; injection Hhi as <-; injection Hz as <-;
    destruct (fixed_goal cfg); lra.
Qed.

(** The goal and object fields of a state vector. *)
Lemma state_vector_goal_and_object (cfg : Config) (s : @Env W A) :
  ready cfg s ->
  exists v g,
    state_vector B astype_float32 cfg s = Return v /\
    goal s = Some g /\ length v = 22%nat /\
    np.slice 3 6 v = map astype_float32 g /\
    (forall b, has_object cfg = true -> body s = Some b ->
       np.slice 8 11 v
       = map astype_float32
           (np.array3
              (p_getBasePositionAndOrientation B (world (ext s)) b))).
Proof.
  intros (a & g & Ha & Hg & Hg3 & Hp3 & Hbody).
  pose proof (state_vector_eval B astype_float32 cfg s a g Ha Hg Hbody)
    as Hev.
  cbn zeta in Hev.
  match type of Hev with _ = Return ?v => exists v, g end.
  split; [exact Hev|]. split; [exact Hg|]. clear Hev.
  destruct g as [|g0 [|g1 [|g2 [|? ?]]]]; try discriminate.
  destruct (goalPosition a) as [|p0 [|p1 [|p2 [|? ?]]]]; try discriminate.
  destruct (p_getLinkState B (world (ext s)) (armId a) 6)
    as [[[px py] pz] [[vx vy] vz]].
  cbn [linkWorldPosition worldLinkLinearVelocity np.array3].
  destruct (has_object cfg) eqn:Hobj.
  - destruct (Hbody eq_refl) as [b Hb]. rewrite Hb.
    destruct (p_getBasePositionAndOrientation B (world (ext s)) b)
      as [[ox oy] oz] eqn:Ho.
    cbn [np.array3].
    split; [reflexivity|]. split; [reflexivity|].
    intros b' _ [= <-]. now rewrite Ho.
  - split; [reflexivity|]. split; [reflexivity|]. discriminate.
Qed.

(** C4 — the vector produced by [state_vector], passed back as the
    explicit state of a reset, gives an episode whose goal is the
    goal field of the vector (the float32 cast of the goal it was
    taken from) and whose object is created at the object-position
    field (the float32 cast of the object's position); the scene is
    decoded, not sampled: whatever the fuel, the rejection loop is not
    entered, and neither generator has been drawn from when the scene
    is chosen, [self.np_random] not at all. *)
Theorem explicit_state_round_trip (cfg0 cfg : Config) (s0 s : @Env W A)
  (fuel : nat) (file : option string) :
  ready cfg0 s0 ->
  exists v g0 x17 x21 ok s',
    state_vector B astype_float32 cfg0 s0 = Return v /\
    goal s0 = Some g0 /\
    plan_scene fuel cfg (Some v) s
    = Return (np.slice 3 6 v, np.slice 8 11 v,
              Some (np.slice 14 17 v, x17), x21,
              np_random s, global_random (ext s)) /\
    _reset_sim B tmp_dir fuel cfg (Some v) file s = Return (ok, s') /\
    goal s' = Some (np.slice 3 6 v) /\
    np.slice 3 6 v = map astype_float32 g0 /\
    (has_object cfg = true ->
       originalObjPosition s' = Some (np.slice 8 11 v) /\
       asked (object_created_at (np.slice 8 11 v)) s s') /\
    (forall b, has_object cfg0 = true -> body s0 = Some b ->
       np.slice 8 11 v
       = map astype_float32
           (np.array3
              (p_getBasePositionAndOrientation B (world (ext s0)) b))) /\
    np_random s' = np_random s.
Proof.
  intros Hready.
  destruct (state_vector_goal_and_object cfg0 s0 Hready)
    as (v & g0 & Hv & Hg0 & Hlen & Hgoal & Hobj).
  destruct (plan_scene_explicit fuel cfg v s Hlen)
    as (x17 & x21 & _ & _ & Hplan).
  destruct (reset_sim_after_plan B tmp_dir fuel cfg (Some v) file s
              _ _ _ _ _ _ Hplan)
    as (ok & s' & Hrun & Hg' & Hnpr & Ho' & _).
  exists v, g0, x17, x21, ok, s'.
  repeat (split; [assumption|]).
  split; [|split; assumption].
  intros Hc. split; [now rewrite Ho', Hc|].
  exact (reset_sim_creates_object B tmp_dir _ _ _ _ _ _ _ _ _ _ _ _ _
           Hplan Hrun Hc).
Qed.

(** C6 — a reset with a snapshot file whose restoration fails returns
    [False], having recorded the failed restore and printed the
    warning, instead of raising; a reset without a snapshot file makes
    no restore attempt and cannot return [False]: it returns [True] for
    every explicit state of 22 elements, and on the sampling path it
    returns [True] as soon as the rejection loop has ended. *)
Theorem snapshot_failure_is_reported (fuel : nat) (cfg : Config)
  (state : option (list R)) (file : option string) (s : @Env W A) :
  (forall g o ag grasp npr glob f,
      plan_scene fuel cfg state s = Return (g, o, ag, grasp, npr, glob) ->
      truthy file = Some f ->
      p_restoreState B
        (world (snd (rebuilt B tmp_dir cfg s g o grasp glob))) f = None ->
      exists s' evs,
        _reset_sim B tmp_dir fuel cfg state file s = Return (false, s') /\
        trace (ext s')
        = trace (ext s) ++ evs
          ++ [EvRestoreState f false;
              EvPrint "Warning: state reset failed"] /\
        Forall quiet evs) /\
  (truthy file = None ->
   (forall ok s',
       _reset_sim B tmp_dir fuel cfg state file s = Return (ok, s') ->
       ok = true /\
       exists evs, trace (ext s') = trace (ext s) ++ evs /\ Forall quiet evs)
   /\
   (forall v, state = Some v -> length v = 22%nat ->
      exists s',
        _reset_sim B tmp_dir fuel cfg state file s = Return (true, s')) /\
   (state = None ->
      _reset_sim B tmp_dir fuel cfg state file s = OutOfFuel \/
      exists s',
        _reset_sim B tmp_dir fuel cfg state file s = Return (true, s'))).
Proof.
  assert (Hquiet : forall g o ag grasp npr glob,
    plan_scene fuel cfg state s = Return (g, o, ag, grasp, npr, glob) ->
    exists ok s' evs,
      _reset_sim B tmp_dir fuel cfg state file s = Return (ok, s') /\
      trace (snd (rebuilt B tmp_dir cfg s g o grasp glob))
      = trace (ext s) ++ evs /\ Forall quiet evs /\
      match truthy file with
      | None => ok = true /\
                ext s' = snd (rebuilt B tmp_dir cfg s g o grasp glob)
      | Some f =>
          match p_restoreState B
                  (world (snd (rebuilt B tmp_dir cfg s g o grasp glob))) f
          with
          | None =>
              ok = false /\
              trace (ext s')
              = trace (snd (rebuilt B tmp_dir cfg s g o grasp glob))
                ++ [EvRestoreState f false;
                    EvPrint "Warning: state reset failed"]
          | Some w =>
              ok = true /\ world (ext s') = w /\
              trace (ext s')
              = trace (snd (rebuilt B tmp_dir cfg s g o grasp glob))
                ++ [EvRestoreState f true]
          end
      end).
  { intros g o ag grasp npr glob Hplan.
    destruct (reset_sim_after_plan B tmp_dir fuel cfg state file s
                _ _ _ _ _ _ Hplan)
      as (ok & s' & Hrun & _ & _ & _ & _ & _ & _ & Hfile).
    destruct (rebuild_quiet B tmp_dir cfg (scene s) g o grasp
                {| world := world (ext s); trace := trace (ext s);
                   global_random := glob |}) as (evs & Htr & Hq).
    fold (rebuilt B tmp_dir cfg s g o grasp glob) in Htr.
    cbn [trace] in Htr.
    now exists ok, s', evs. }
  split.
  - intros g o ag grasp npr glob f Hplan Hf Hfail.
    destruct (Hquiet _ _ _ _ _ _ Hplan)
      as (ok & s' & evs & Hrun & Htr & Hq & Hfile).
    rewrite Hf, Hfail in Hfile. destruct Hfile as [-> Hfile].
    exists s', evs. split; [exact Hrun|]. split; [|exact Hq].
    now rewrite Hfile, Htr, <- app_assoc.
  - intros Hnone. split; [|split].
    + intros ok s' Hrun.
      destruct (reset_sim_planned _ _ _ _ _ _ _ _ Hrun)
        as (g & o & ag & grasp & npr & glob & Hplan).
      destruct (Hquiet _ _ _ _ _ _ Hplan)
        as (ok1 & s1 & evs & Hrun1 & Htr & Hq & Hfile).
      rewrite Hrun in Hrun1. injection Hrun1 as <- <-.
      rewrite Hnone in Hfile. destruct Hfile as [-> Hfile].
      split; [reflexivity|]. exists evs. now rewrite Hfile.
    + intros v -> Hlen.
      destruct (plan_scene_explicit fuel cfg v s Hlen)
        as (x17 & x21 & _ & _ & Hplan).
      destruct (Hquiet _ _ _ _ _ _ Hplan)
        as (ok & s' & evs & Hrun & _ & _ & Hfile).
      rewrite Hnone in Hfile. destruct Hfile as [-> _].
      now exists s'.
    + intros ->.
      destruct (sample_scene_no_raise fuel cfg (np_random s)
                  (global_random (ext s))) as [E|[[[[g o] npr] glob] E]].
      * left. unfold _reset_sim, plan_scene. now rewrite E.
      * right.
        assert (Hplan : plan_scene fuel cfg None s
                        = Return (g, o, None, 0, npr, glob))
          by (unfold plan_scene; now rewrite E).
        destruct (Hquiet _ _ _ _ _ _ Hplan)
          as (ok & s' & evs & Hrun & _ & _ & Hfile).
        rewrite Hnone in Hfile. destruct Hfile as [-> _].
        now exists s'.
Qed.

End ResetProperties.

(** ** Stepping keeps the attributes in place *)

Section Stepping.

Context {W A : Type} (B : Backend W A).

Lemma set_action_ready (cfg : Config) (h h' : gmap nat (list R))
  (action : nat) (s s' : @Env W A) :
  actuator_contract B -> ready cfg s ->
  _set_action B h action s = Return (h', s') -> ready cfg s'.
Proof.
  intros (_ & _ & _ & HA & _) (a & g & Ha & Hg & Hg3 & Hp3 & Hb) Hrun.
  unfold _set_action in Hrun.
  destruct (deref h action) as [v|e|]; cbn [bind] in Hrun;
    try discriminate.
  destruct (assert _); cbn [bind] in Hrun; try discriminate.
  destruct (alloc h _) as [l1 h1].
  destruct (deref h1 l1) as [v1|e|]; cbn [bind] in Hrun; try discriminate.
  destruct (np.setitem 3 0 v1) as [v2|e|]; cbn [bind] in Hrun;
    try discriminate.
  destruct (deref _ l1) as [v3|e|]; cbn [bind] in Hrun; try discriminate.
  destruct (alloc _ v3) as [l2 h2].
  destruct (deref h2 l2) as [v4|e|]; cbn [bind] in Hrun; try discriminate.
  destruct (alloc h2 _) as [l3 h3].
  rewrite Ha in Hrun. cbn [attr bind] in Hrun.
  destruct (deref h3 l3) as [v5|e|]; cbn [bind] in Hrun; try discriminate.
  injection Hrun as _ <-.
  unfold with_actuator, actuate, call.
  specialize (HA a (world (ext s)) v5 Hp3).
  destruct (apply_action B a (world (ext s)) v5) as [a1 w1].
  exists a1, g. cbn [fst snd arm goal body]. auto.
Qed.

Lemma step_callback_ready (cfg : Config) (s s' : @Env W A) :
  actuator_contract B -> ready cfg s ->
  _step_callback B s = Return s' -> ready cfg s'.
Proof.
  intros (_ & _ & _ & _ & HS) (a & g & Ha & Hg & Hg3 & Hp3 & Hb) Hrun.
  unfold _step_callback in Hrun. rewrite Ha in Hrun.
  cbn [attr bind] in Hrun. injection Hrun as <-.
  unfold with_actuator, actuate, call.
  specialize (HS a (world (ext s)) Hp3).
  destruct (step_simulation B a (world (ext s))) as [a1 w1].
  exists a1, g. cbn [fst snd arm goal body]. auto.
Qed.

End Stepping.

(** ** The statements at concrete inputs *)

Lemma toy_contract : actuator_contract toy.
Proof. repeat split; intros; try reflexivity; assumption. Qed.

(** Whatever a reset of the small backend returns, [state_vector] can
    be taken afterwards. *)
Lemma toy_reset_ready (fuel : nat) (cfg : Config) (state : option (list R))
  (file : option string) (s : @Env unit unit) (ok : bool) (s' : Env) :
  _reset_sim toy "/tmp" fuel cfg state file s = Return (ok, s') ->
  ready cfg s'.
Proof. apply reset_sim_ready, toy_contract. Qed.

Lemma euclidean_same (a : list R) : euclidean a a = 0.
Proof.
  unfold euclidean.
  replace (sq_diff a a) with 0; [apply sqrt_0|].
  induction a as [|x a IH]; cbn [sq_diff]; [reflexivity|].
  rewrite <- IH. lra.
Qed.

Lemma state_vector_layout_witness :
  ready default_config toy_env /\
  exists v,
    state_vector toy (fun x => x) default_config toy_env = Return v /\
    length v = 22%nat /\ np.slice 3 6 v = [-0.4; 0.2; 0.3].
Proof.
  split; [apply toy_env_ready|].
  destruct (state_vector_layout toy (fun x => x) default_config toy_env
              (toy_env_ready default_config))
    as (v & a & g & _ & Hg & Hv & _ & Hlen & _ & Hgoal & _).
  exists v. split; [exact Hv|]. split; [exact Hlen|].
  rewrite Hgoal. injection Hg as <-. reflexivity.
Defined.

Lemma set_action_keeps_caller_array_witness :
  exists h' s',
    _set_action toy {[ 0%nat := [2; -3; 0.5; 7] ]} 0 toy_env
    = Return (h', s') /\
    h' !! 0%nat = Some [2; -3; 0.5; 7].
Proof.
  destruct (set_action_keeps_caller_array toy
              {[ 0%nat := [2; -3; 0.5; 7] ]}
              0%nat toy_env [2; -3; 0.5; 7] (mkArm 0%Z [0; 0; 0] 0 tt)
              (lookup_singleton_eq _ _) eq_refl eq_refl)
    as (h' & s' & Hrun & Hkeep & _).
  exists h', s'. split; assumption.
Defined.

(** The scene a first reset chooses under a configuration with the fixed
    goal in the air, when every draw of the generator is 0. *)
Lemma fixed_goal_plan (cfg : Config) :
  fixed_goal cfg = true -> target_in_the_air cfg = true ->
  0.1 * 0.1 <= (height_offset cfg - 0.3) * (height_offset cfg - 0.3) ->
  plan_scene 1 cfg None fresh_env
  = Return ([-0.4; 0.2; 0.3],
            [-0.35 + (-0.2 - -0.35) * 0; -0.25 + (0 - -0.25) * 0;
             height_offset cfg],
            None, 0,
            advance (advance (advance (constant_rng 0 0))),
            constant_rng 0 0).
Proof.
  intros Hf Ha Hh. unfold plan_scene.
  cbn [fresh_env np_random ext toy_ext global_random].
  rewrite (sample_scene_fixed_goal_in_the_air 0 cfg _ _ Hf Ha Hh).
  reflexivity.
Qed.

Lemma default_plan_ok :
  0.1 * 0.1 <= (height_offset default_config - 0.3)
               * (height_offset default_config - 0.3).
Proof. cbn [height_offset default_config]. lra. Qed.


Lemma constant_rng_unit_interval : unit_interval (constant_rng 0 0).
Proof. intros k. cbn. lra. Qed.

Lemma sampled_object_on_table_witness :
  unit_interval (np_random fresh_env) /\
  exists ok s' o x y,
    _reset_sim toy "/tmp" 1 default_config None None fresh_env
    = Return (ok, s') /\
    originalObjPosition s' = Some o /\
    o = [x; y; 0.06] /\ -0.35 <= x <= -0.2 /\ -0.25 <= y <= 0 /\
    within_box table_low table_high o.
Proof.
  split; [exact constant_rng_unit_interval|].
  destruct (reset_sim_after_plan toy "/tmp" 1 default_config None None
              fresh_env _ _ _ _ _ _
              (fixed_goal_plan default_config eq_refl eq_refl default_plan_ok))
    as (ok & s' & Hrun & _).
  destruct (sampled_object_on_table toy "/tmp" 1 default_config None
              fresh_env ok s' constant_rng_unit_interval Hrun)
    as (g & o & npr & glob & x & y & _ & Ho & _ & Hxy & Hx & Hy & Hbox).
  exists ok, s', o, x, y.
  split; [exact Hrun|]. split; [now apply (Ho eq_refl)|].
  split; [exact Hxy|].
  split; [exact Hx|]. split; [exact Hy|].
  apply Hbox. cbn [height_offset default_config]. lra.
Defined.

(** C8, as stated, fails: with the height offset configured as 1, the
    sampling reset creates the object at height 1, outside the table's
    interval [0.05, 0.2]. *)
Lemma high_object_spawns_outside_table_bounds :
  exists ok s' o,
    _reset_sim toy "/tmp" 1 high_object_config None None fresh_env
    = Return (ok, s') /\
    originalObjPosition s' = Some o /\
    ~ within_box table_low table_high o.
Proof.
  assert (Hh : 0.1 * 0.1 <= (height_offset high_object_config - 0.3)
                            * (height_offset high_object_config - 0.3))
    by (cbn [height_offset high_object_config]; lra).
  destruct (reset_sim_after_plan toy "/tmp" 1 high_object_config None None
              fresh_env _ _ _ _ _ _
              (fixed_goal_plan high_object_config eq_refl eq_refl Hh))
    as (ok & s' & Hrun & _ & _ & Ho & _).
  exists ok, s', [-0.35 + (-0.2 - -0.35) * 0; -0.25 + (0 - -0.25) * 0; 1].
  split; [exact Hrun|]. split; [exact Ho|].
  intros [_ Hbox].
  specialize (Hbox 2%nat 0.05 0.2 1 eq_refl eq_refl eq_refl). lra.
Qed.

Lemma explicit_state_round_trip_witness :
  ready default_config toy_env /\
  exists v ok s',
    state_vector toy (fun x => x) default_config toy_env = Return v /\
    _reset_sim toy "/tmp" 0 default_config (Some v) None toy_env
    = Return (ok, s') /\
    goal s' = Some [-0.4; 0.2; 0.3] /\
    originalObjPosition s' = Some [0; 0; 0] /\
    np_random s' = np_random toy_env.
Proof.
  split; [apply toy_env_ready|].
  destruct (explicit_state_round_trip toy "/tmp" (fun x => x)
              default_config default_config toy_env toy_env 0 None
              (toy_env_ready default_config))
    as (v & g0 & x17 & x21 & ok & s' & Hv & Hg0 & _ & Hrun & Hg & Hgv
        & Ho & Hov & Hnpr).
  exists v, ok, s'. split; [exact Hv|]. split; [exact Hrun|].
  injection Hg0 as <-.
  split; [now rewrite Hg, Hgv|].
  split; [|exact Hnpr].
  rewrite (proj1 (Ho eq_refl)), (Hov 0%Z eq_refl eq_refl). reflexivity.
Defined.

Lemma snapshot_failure_is_reported_witness :
  (exists s' evs,
     _reset_sim toy "/tmp" 1 default_config None (Some "corrupt"%string)
       fresh_env = Return (false, s') /\
     trace (ext s')
     = trace (ext fresh_env) ++ evs
       ++ [EvRestoreState "corrupt" false;
           EvPrint "Warning: state reset failed"] /\
     Forall quiet evs) /\
  (exists s',
     _reset_sim toy "/tmp" 0 default_config (Some (replicate 22 0)) None
       fresh_env = Return (true, s')).
Proof.
  split.
  - apply (proj1 (snapshot_failure_is_reported toy "/tmp" 1 default_config
                    None (Some "corrupt"%string) fresh_env)
             _ _ _ _ _ _ "corrupt"%string
             (fixed_goal_plan default_config eq_refl eq_refl
                default_plan_ok)
             eq_refl eq_refl).
  - apply (proj1 (proj2 (proj2 (snapshot_failure_is_reported toy "/tmp" 0
                                  default_config (Some (replicate 22 0))
                                  None fresh_env)
                           eq_refl))
             (replicate 22 0) eq_refl eq_refl).
Defined.

(** * Further properties *)

(** ** Distance and reward *)

Lemma goal_distance_mismatch (a b : list R) :
  length a <> length b -> goal_distance a b = Raise AssertionError.
Proof.
  intros H. unfold goal_distance.
  now rewrite (proj2 (Nat.eqb_neq _ _) H).
Qed.

(** X2 — two vectors of different shapes fail the assertion of
    [goal_distance], and [compute_reward] passes the failure on in
    every reward mode, the unknown ones included. *)
Theorem shape_mismatch_is_assertion_error (cfg : Config) (a b : list R) :
  length a <> length b ->
  goal_distance a b = Raise AssertionError /\
  compute_reward cfg a b = Raise AssertionError.
Proof.
  intros H. split; [now apply goal_distance_mismatch|].
  unfold compute_reward. now rewrite goal_distance_mismatch.
Qed.

(** X3 — with a reward mode that is neither "sparse" nor "positive",
    [compute_reward] falls off the end of the function: it returns
    [None], whatever the distance. *)
Theorem compute_reward_unknown_mode (cfg : Config) (a b : list R) :
  reward_type cfg <> "sparse"%string ->
  reward_type cfg <> "positive"%string ->
  length a = length b ->
  compute_reward cfg a b = Return None.
Proof.
  intros Hs Hp Hlen. unfold compute_reward.
  rewrite (goal_distance_same_shape a b Hlen). cbn [bind].
  now rewrite (proj2 (String.eqb_neq _ _) Hs), (proj2 (String.eqb_neq _ _) Hp).
Qed.

Lemma compute_reward_by_flag (cfg : Config) (a b : list R) :
  length a = length b ->
  compute_reward cfg a b
  = Return (reward_of cfg (Rltb (euclidean a b) (distance_threshold cfg))).
Proof.
  intros Hlen. unfold compute_reward, reward_of.
  rewrite (goal_distance_same_shape a b Hlen). cbn [bind].
  destruct (String.eqb _ "sparse"); [reflexivity|].
  destruct (String.eqb _ "positive"); reflexivity.
Qed.

Section SuccessAndReward.

Context {W A : Type} (B : Backend W A).

(** The position success and reward are about: the object's when there
    is one, the gripper's otherwise. *)
Lemma is_success_eval (cfg : Config) (s : @Env W A) (a : Arm A)
  (g : list R) :
  arm s = Some a -> goal s = Some g -> length g = 3%nat ->
  (has_object cfg = true -> is_Some (body s)) ->
  let w := world (ext s) in
  let tracked :=
    if has_object cfg then
      match body s with
      | Some b => np.array3 (p_getBasePositionAndOrientation B w b)
      | None => []
      end
    else np.array3 (linkWorldPosition (p_getLinkState B w (armId a) 6)) in
  length tracked = 3%nat /\
  _is_success B cfg s
  = Return (Rltb (euclidean tracked g) (distance_threshold cfg)) /\
  _get_reward B cfg s
  = Return (reward_of cfg (Rltb (euclidean tracked g)
                             (distance_threshold cfg))).
Proof.
  intros Ha Hg Hg3 Hbody. cbn zeta.
  unfold _is_success, _get_reward. rewrite Ha, Hg. cbn [attr bind].
  destruct (p_getLinkState B (world (ext s)) (armId a) 6)
    as [[[px py] pz] vel].
  cbn [linkWorldPosition np.array3].
  rewrite (goal_distance_same_shape [px; py; pz] g) by now rewrite Hg3.
  cbn [bind].
  destruct (has_object cfg).
  - destruct (Hbody eq_refl) as [b ->]. cbn [attr bind].
    destruct (p_getBasePositionAndOrientation B (world (ext s)) b)
      as [[ox oy] oz].
    cbn [np.array3].
    rewrite (goal_distance_same_shape [ox; oy; oz] g) by now rewrite Hg3.
    cbn [bind].
    rewrite compute_reward_by_flag by now rewrite Hg3.
    now repeat split.
  - cbn [bind attr].
    rewrite compute_reward_by_flag by now rewrite Hg3.
    now repeat split.
Qed.


(** X6 — [_get_reward] and [_is_success] agree: on the same state the
    reward is the success value of the mode (3 or 5) exactly when
    [_is_success] is true, the other value (-1 or 0) when it is false,
    and [None] in an unknown mode. *)
Theorem reward_agrees_with_success (cfg : Config) (s : @Env W A) :
  ready cfg s ->
  exists ok,
    _is_success B cfg s = Return ok /\
    _get_reward B cfg s = Return (reward_of cfg ok).
Proof.
  intros (a & g & Ha & Hg & Hg3 & _ & Hbody).
  destruct (is_success_eval cfg s a g Ha Hg Hg3 Hbody) as (_ & Hs & Hr).
  cbn zeta in Hs, Hr. eexists. split; [exact Hs|exact Hr].
Qed.

End SuccessAndReward.

(** ** The goal sampler and the rejection loop *)

(** X7 — [_sample_goal] always returns three coordinates.  With a
    fixed goal it never draws from [self.np_random]: in the air the
    goal is the constant (-0.4, 0.2, 0.3) and nothing is drawn at all,
    on the table it is two normal draws from the module-level
    generator around (-0.3, 0.2) at height 0.03.  With a sampled goal
    it never draws from the module-level generator. *)
Theorem sample_goal_generators (cfg : Config) (npr glob : Rng) :
  length (fst (fst (_sample_goal cfg npr glob))) = 3%nat /\
  (fixed_goal cfg = true ->
   snd (fst (_sample_goal cfg npr glob)) = npr /\
   (target_in_the_air cfg = true ->
    _sample_goal cfg npr glob = ([-0.4; 0.2; 0.3], npr, glob)) /\
   (target_in_the_air cfg = false ->
    _sample_goal cfg npr glob
    = ([-0.3 + 0.05 * std_normals glob (cursor glob);
        0.2 + 0.05 * std_normals glob (S (cursor glob));
        0.03], npr, advance (advance glob)))) /\
  (fixed_goal cfg = false -> snd (_sample_goal cfg npr glob) = glob).
Proof.
  split; [apply sample_goal_length|].
  unfold _sample_goal. split.
  - intros ->. split; [destruct (target_in_the_air cfg); reflexivity|].
    split; intros ->; reflexivity.
  - intros ->. unfold table_low, table_high. rewrite uniform_three.
    destruct (target_in_the_air cfg); [|reflexivity].
    unfold rng.uniform1, rng.random_sample.
    destruct (Rltb _ 1); reflexivity.
Qed.

(** X8 — a sampled goal lies over the table: x in [-0.35, -0.2) and y
    in [-0.25, 0.25); on the table its height is 0.03, and in the air
    the vertical offset is always added (the test [uniform() < 1]
    cannot fail), which puts the height in [0.03, 0.23). *)
Theorem sampled_goal_bounds (cfg : Config) (npr glob : Rng) :
  fixed_goal cfg = false -> unit_interval npr ->
  exists x y z,
    fst (fst (_sample_goal cfg npr glob)) = [x; y; z] /\
    -0.35 <= x < -0.2 /\ -0.25 <= y < 0.25 /\
    (target_in_the_air cfg = false ->
     z = 0.03 /\
     snd (fst (_sample_goal cfg npr glob)) = advance (advance (advance npr)))
    /\
    (target_in_the_air cfg = true ->
     0.03 <= z < 0.23 /\
     z = 0.03 + (0 + (0.2 - 0) * unit_draws npr (4 + cursor npr)) /\
     snd (fst (_sample_goal cfg npr glob))
     = advance (advance (advance (advance (advance npr))))).
Proof.
  intros Hf Hint. unfold _sample_goal. rewrite Hf.
  unfold table_low, table_high. rewrite uniform_three.
  pose proof (Hint (cursor npr)) as H0.
  pose proof (Hint (S (cursor npr))) as H1.
  pose proof (Hint (3 + cursor npr)%nat) as H3.
  pose proof (Hint (4 + cursor npr)%nat) as H4.
  destruct (target_in_the_air cfg).
  - unfold rng.uniform1, rng.random_sample.
    cbn [cursor unit_draws advance].
    rewrite (proj2 (Rltb_true _ 1)) by (cbn [Nat.add] in H3; lra).
    cbn [fst snd list_insert insert nth].
    eexists _, _, _. split; [reflexivity|].
    split; [lra|]. split; [lra|]. split; [discriminate|].
    intros _. cbn [Nat.add] in H4 |- *. split; [lra|].
    split; reflexivity.
  - cbn [fst snd].
    eexists _, _, _. split; [reflexivity|].
    split; [lra|]. split; [lra|]. split; [|discriminate].
    intros _. split; reflexivity.
Qed.



(** ** Resets *)

Ltac quiet_step :=
  lazymatch goal with
  | |- adds _ (ret _) => apply adds_ret
  | |- adds _ (draw _) => apply adds_draw
  | |- adds _ (emit _) => apply adds_emit; reflexivity
  | |- adds _ (call _ _) => apply adds_call; intros; reflexivity
  | |- adds _ (actuate _ _) => unfold actuate
  | |- adds _ (p _ _) => unfold p
  | |- adds _ (init_env _ _ _ _) => apply init_env_quiet
  | |- adds _ (init_arm _ _) => apply init_arm_quiet
  | |- adds _ (andthen _ _) => apply adds_andthen; [|intros ?]
  | |- adds _ (if ?c then _ else _) => destruct c
  | |- adds _ (match ?q with _ => _ end) => destruct q
  end.

Section MoreOnReset.

Context {W A : Type} (B : Backend W A).
Variable tmp_dir : string.
Variable astype_float32 : R -> R.

(** [rebuild] begins by tearing the simulation down. *)
Lemma rebuild_starts_with_reset (cfg : Config) (sc : Scene) (g o : list R)
  (grasp : R) (x : Ext) :
  exists r suf,
    trace (snd (rebuild B tmp_dir cfg sc g o grasp x))
    = trace x ++ EvP resetSimulation r :: suf.
Proof.
  unfold rebuild.
  match goal with
  | |- context [andthen (p B resetSimulation) ?k] =>
      assert (Hk : forall t, adds quiet (k t))
        by (intros t; cbn beta; repeat quiet_step);
      unfold andthen at 1
  end.
  unfold p at 1, call at 1.
  destruct (p_exec B (world x) resetSimulation) as [r w].
  match goal with
  | |- context [snd (?k0 ?x1)] =>
      destruct (Hk r x1) as (evs & E & _)
  end.
  exists r, evs. rewrite E. cbn [trace]. now rewrite <- app_assoc.
Qed.

(** [rebuild] creates the goal marker at the goal. *)
Lemma rebuild_creates_marker (cfg : Config) (sc : Scene) (g o : list R)
  (grasp : R) :
  emits (goal_marker_at g) (rebuild B tmp_dir cfg sc g o grasp).
Proof.
  unfold rebuild.
  do 3 (eapply (emits_later _ quiet); [repeat quiet_step|intros ?]).
  eapply (emits_first _ quiet).
  - unfold p. apply emits_now. intros b. now eexists _, b.
  - intros b. repeat quiet_step.
Qed.

(** With an object, [rebuild] registers it with the actuator, passing
    the grasping flag on. *)
Lemma rebuild_registers_object (cfg : Config) (sc : Scene) (g o : list R)
  (grasp : R) :
  has_object cfg = true ->
  emits (registered_graspable grasp) (rebuild B tmp_dir cfg sc g o grasp).
Proof.
  intros Hobj. unfold rebuild. rewrite Hobj.
  do 8 (eapply (emits_later _ quiet); [repeat quiet_step|intros ?]).
  eapply (emits_later _ quiet); [repeat quiet_step|intros [obj_size obj_color]].
  do 4 (eapply (emits_later _ quiet); [repeat quiet_step|intros ?]).
  eapply (emits_first _ quiet).
  - unfold actuate. apply emits_now. intros a. now eexists.
  - intros a. repeat quiet_step.
Qed.

(** What [_reset_sim] leaves in the attributes it writes last. *)
Lemma reset_sim_originals (fuel : nat) (cfg : Config)
  (state : option (list R)) (file : option string) (s : @Env W A)
  (g o : list R) (ag : option (list R * R)) (grasp : R) (npr glob : Rng)
  (ok : bool) (s' : Env) :
  plan_scene fuel cfg state s = Return (g, o, ag, grasp, npr, glob) ->
  _reset_sim B tmp_dir fuel cfg state file s = Return (ok, s') ->
  (ok = false ->
   originalGoalPosition s' = originalGoalPosition s /\
   originalGripPosition s' = originalGripPosition s) /\
  (ok = true ->
   originalGoalPosition s' = Some g /\
   exists a,
     arm s' = Some a /\
     originalGripPosition s'
     = Some (np.array3
               (linkWorldPosition
                  (p_getLinkState B (world (ext s')) (armId a) 6)))) /\
  exists pre suf,
    trace (ext s')
    = trace (snd (rebuilt B tmp_dir cfg s g o grasp glob)) ++ suf /\
    trace (snd (rebuilt B tmp_dir cfg s g o grasp glob))
    = trace (ext s) ++ pre.
Proof.
  intros Hplan. unfold _reset_sim, rebuilt. rewrite Hplan. cbn [bind].
  destruct (rebuild_quiet B tmp_dir cfg (scene s) g o grasp
              {| world := world (ext s); trace := trace (ext s);
                 global_random := glob |}) as (evs & Etr & _).
  cbn [trace] in Etr.
  destruct (rebuild B tmp_dir cfg (scene s) g o grasp _)
    as [[[[[gs vt] sc] a0] b0] x1].
  cbn [fst snd] in Etr |- *.
  destruct (truthy file) as [f|].
  - unfold try_restoreState.
    destruct (p_restoreState B (world x1) f) as [w|]; cbn [negb emit].
    + intros [= <- <-].
      cbn [originalGoalPosition originalGripPosition arm ext world trace].
      split; [discriminate|]. split.
      * intros _. split; [reflexivity|].
        destruct ag as [[gp gg]|]; eexists; split; reflexivity.
      * now exists evs, [EvRestoreState f true].
    + intros [= <- <-].
      cbn [originalGoalPosition originalGripPosition arm ext world trace].
      split; [now intros _|]. split; [discriminate|].
      exists evs, [EvRestoreState f false;
                   EvPrint "Warning: state reset failed"].
      split; [|exact Etr]. now rewrite <- app_assoc.
  - cbn [negb]. intros [= <- <-].
    cbn [originalGoalPosition originalGripPosition arm ext world trace].
    split; [discriminate|]. split.
    + intros _. split; [reflexivity|].
      destruct ag as [[gp gg]|]; eexists; split; reflexivity.
    + exists evs, []. now rewrite app_nil_r.
Qed.

(** X10 — the retry loop of [_env_setup] runs the reset once: called
    without a snapshot file, a reset that returns returns [True], so
    the state after [_env_setup] is the state after that first reset. *)
Theorem env_setup_runs_one_reset (tries fuel : nat) (cfg : Config)
  (s : @Env W A) (ok : bool) (s' : Env) :
  _reset_sim B tmp_dir fuel cfg None None s = Return (ok, s') ->
  ok = true /\ _env_setup B tmp_dir (S tries) fuel cfg s = Return s'.
Proof.
  intros Hrun.
  destruct (reset_sim_planned _ _ _ _ _ _ _ _ Hrun)
    as (g & o & ag & grasp & npr & glob & Hplan).
  destruct (reset_sim_after_plan B tmp_dir fuel cfg None None s
              _ _ _ _ _ _ Hplan)
    as (ok1 & s1 & Hrun1 & _ & _ & _ & _ & _ & _ & Hfile).
  rewrite Hrun in Hrun1. injection Hrun1 as <- <-.
  cbn [truthy] in Hfile. destruct Hfile as [-> _].
  split; [reflexivity|].
  cbn [_env_setup]. rewrite Hrun. reflexivity.
Qed.

(** X11 — an explicit state that does not have 22 elements fails the
    shape assertion of [_reset_sim], whatever the configuration and
    the snapshot file. *)
Theorem reset_sim_rejects_wrong_shape (fuel : nat) (cfg : Config)
  (v : list R) (file : option string) (s : @Env W A) :
  length v <> 22%nat ->
  _reset_sim B tmp_dir fuel cfg (Some v) file s = Raise AssertionError.
Proof.
  intros H. unfold _reset_sim, plan_scene.
  now rewrite (proj2 (Nat.eqb_neq _ _) H).
Qed.

(** The arm fields and the grasping flag of a state vector. *)
Lemma state_vector_arm_fields (cfg : Config) (s : @Env W A) :
  ready cfg s ->
  exists v a,
    state_vector B astype_float32 cfg s = Return v /\
    arm s = Some a /\ length v = 22%nat /\
    np.slice 14 17 v = map astype_float32 (goalPosition a) /\
    v !! 17%nat = Some (astype_float32 (goalGripper a)) /\
    v !! 21%nat
    = Some (astype_float32
              (if is_grasping B a (world (ext s)) then 1 else 0)).
Proof.
  intros (a & g & Ha & Hg & Hg3 & Hp3 & Hbody).
  pose proof (state_vector_eval B astype_float32 cfg s a g Ha Hg Hbody)
    as Hev.
  cbn zeta in Hev.
  match type of Hev with _ = Return ?v => exists v, a end.
  split; [exact Hev|]. split; [exact Ha|]. clear Hev.
  destruct g as [|g0 [|g1 [|g2 [|? ?]]]]; try discriminate.
  destruct (goalPosition a) as [|p0 [|p1 [|p2 [|? ?]]]]; try discriminate.
  destruct (p_getLinkState B (world (ext s)) (armId a) 6)
    as [[[px py] pz] [[vx vy] vz]].
  cbn [linkWorldPosition worldLinkLinearVelocity np.array3].
  destruct (has_object cfg) eqn:Hobj.
  - destruct (Hbody eq_refl) as [b Hb]. rewrite Hb.
    destruct (p_getBasePositionAndOrientation B (world (ext s)) b)
      as [[ox oy] oz].
    cbn [np.array3]. repeat split; reflexivity.
  - repeat split; reflexivity.
Qed.

(** X12 — an explicit-state reset without a snapshot file puts the
    arm's internal goal back: afterwards [arm.goalPosition] is the
    field [state[14:17]] and [arm.goalGripper] is [state[17]]; when the
    state was produced by [state_vector], these are the float32 casts
    of the values the arm had, and with an object configured the
    grasping flag [state[21]] (the cast of 1 or 0) is what
    [set_graspable_object] receives. *)
Theorem explicit_state_restores_arm_goal (cfg0 cfg : Config)
  (s0 s : @Env W A) (fuel : nat) (file : option string) :
  ready cfg0 s0 -> truthy file = None ->
  exists v a0 s' a,
    state_vector B astype_float32 cfg0 s0 = Return v /\
    arm s0 = Some a0 /\
    _reset_sim B tmp_dir fuel cfg (Some v) file s = Return (true, s') /\
    arm s' = Some a /\
    goalPosition a = np.slice 14 17 v /\
    goalPosition a = map astype_float32 (goalPosition a0) /\
    goalGripper a = astype_float32 (goalGripper a0) /\
    (has_object cfg = true ->
     asked (registered_graspable
              (astype_float32
                 (if is_grasping B a0 (world (ext s0)) then 1 else 0)))
           s s').
Proof.
  intros Hready Hfile.
  destruct (state_vector_arm_fields cfg0 s0 Hready)
    as (v & a0 & Hv & Ha0 & Hlen & Hgp & H17 & H21).
  destruct (plan_scene_explicit fuel cfg v s Hlen)
    as (x17 & x21 & E17 & E21 & Hplan).
  rewrite H17 in E17. injection E17 as <-.
  rewrite H21 in E21. injection E21 as <-.
  destruct (reset_sim_after_plan B tmp_dir fuel cfg (Some v) file s
              _ _ _ _ _ _ Hplan)
    as (ok & s' & Hrun & _ & _ & _ & _ & Harm & _ & Hf).
  rewrite Hfile in Hf. destruct Hf as [-> Hext].
  eexists v, a0, s', _.
  split; [exact Hv|]. split; [exact Ha0|]. split; [exact Hrun|].
  split; [exact Harm|]. cbn [goalPosition goalGripper].
  split; [reflexivity|]. split; [exact Hgp|]. split; [reflexivity|].
  intros Hobj.
  destruct (rebuild_registers_object cfg (scene s) (np.slice 3 6 v)
              (np.slice 8 11 v)
              (astype_float32
                 (if is_grasping B a0 (world (ext s0)) then 1 else 0)) Hobj
              {| world := world (ext s); trace := trace (ext s);
                 global_random := global_random (ext s) |})
    as (pre & e & suf & Etr & He).
  exists pre, e, suf. split; [|exact He].
  rewrite Hext. exact Etr.
Qed.

(** X13 — a reset that returns [False] has already replaced the goal,
    the arm and the scene, but has not reached the lines that record
    the originals: [originalGoalPosition] and [originalGripPosition]
    are those of the state before, and an explicit state's arm goal
    has not been put back (the arm is as [rebuild] made it). *)
Theorem failed_reset_keeps_old_originals (fuel : nat) (cfg : Config)
  (state : option (list R)) (file : option string) (s s' : @Env W A) :
  _reset_sim B tmp_dir fuel cfg state file s = Return (false, s') ->
  exists g o ag grasp npr glob,
    plan_scene fuel cfg state s = Return (g, o, ag, grasp, npr, glob) /\
    goal s' = Some g /\
    arm s' = Some (snd (fst (fst (rebuilt B tmp_dir cfg s g o grasp glob))))
    /\
    originalGoalPosition s' = originalGoalPosition s /\
    originalGripPosition s' = originalGripPosition s.
Proof.
  intros Hrun.
  destruct (reset_sim_planned _ _ _ _ _ _ _ _ Hrun)
    as (g & o & ag & grasp & npr & glob & Hplan).
  destruct (reset_sim_after_plan B tmp_dir fuel cfg state file s
              _ _ _ _ _ _ Hplan)
    as (ok1 & s1 & Hrun1 & Hgoal & _ & _ & _ & Harm & _).
  rewrite Hrun in Hrun1. injection Hrun1 as <- <-.
  destruct (reset_sim_originals fuel cfg state file s _ _ _ _ _ _ _ _
              Hplan Hrun) as (Hold & _).
  destruct (Hold eq_refl) as [Hog Hop].
  exists g, o, ag, grasp, npr, glob.
  split; [exact Hplan|]. split; [exact Hgoal|]. split; [exact Harm|].
  split; assumption.
Qed.

(** X14 — a reset that returns [True] has recorded the originals of the
    new episode: [originalGoalPosition] is the goal,
    [originalGripPosition] is the position of the gripper link in the
    world the reset ends in, and with an object [originalObjPosition]
    is the position the object was created at. *)
Theorem successful_reset_records_originals (fuel : nat) (cfg : Config)
  (state : option (list R)) (file : option string) (s s' : @Env W A) :
  _reset_sim B tmp_dir fuel cfg state file s = Return (true, s') ->
  exists g a,
    goal s' = Some g /\ arm s' = Some a /\
    originalGoalPosition s' = Some g /\
    originalGripPosition s'
    = Some (np.array3
              (linkWorldPosition
                 (p_getLinkState B (world (ext s')) (armId a) 6))) /\
    (has_object cfg = true ->
     exists o, originalObjPosition s' = Some o /\
               asked (object_created_at o) s s') /\
    (has_object cfg = false ->
     originalObjPosition s' = originalObjPosition s /\ body s' = body s).
Proof.
  intros Hrun.
  destruct (reset_sim_planned _ _ _ _ _ _ _ _ Hrun)
    as (g & o & ag & grasp & npr & glob & Hplan).
  destruct (reset_sim_after_plan B tmp_dir fuel cfg state file s
              _ _ _ _ _ _ Hplan)
    as (ok1 & s1 & Hrun1 & Hgoal & _ & Hobj & Hbody & _).
  rewrite Hrun in Hrun1. injection Hrun1 as <- <-.
  destruct (reset_sim_originals fuel cfg state file s _ _ _ _ _ _ _ _
              Hplan Hrun) as (_ & Hnew & _).
  destruct (Hnew eq_refl) as (Hog & a & Ha & Hop).
  exists g, a. split; [exact Hgoal|]. split; [exact Ha|].
  split; [exact Hog|]. split; [exact Hop|]. split.
  - intros Hc. exists o. split; [now rewrite Hobj, Hc|].
    exact (reset_sim_creates_object B tmp_dir _ _ _ _ _ _ _ _ _ _ _ _ _
             Hplan Hrun Hc).
  - intros Hc. now rewrite Hobj, Hbody, Hc.
Qed.

(** X15 — whatever a reset returns, the first thing it asks of the
    engine is [resetSimulation], and it creates the goal marker (mass
    0, maximal coordinates) at the new goal. *)
Theorem reset_tears_down_then_marks_goal (fuel : nat) (cfg : Config)
  (state : option (list R)) (file : option string) (s : @Env W A)
  (ok : bool) (s' : Env) :
  _reset_sim B tmp_dir fuel cfg state file s = Return (ok, s') ->
  exists g r rest,
    goal s' = Some g /\
    trace (ext s') = trace (ext s) ++ EvP resetSimulation r :: rest /\
    asked (goal_marker_at g) s s'.
Proof.
  intros Hrun.
  destruct (reset_sim_planned _ _ _ _ _ _ _ _ Hrun)
    as (g & o & ag & grasp & npr & glob & Hplan).
  destruct (reset_sim_after_plan B tmp_dir fuel cfg state file s
              _ _ _ _ _ _ Hplan)
    as (ok1 & s1 & Hrun1 & Hgoal & _).
  rewrite Hrun in Hrun1. injection Hrun1 as <- <-.
  destruct (reset_sim_originals fuel cfg state file s _ _ _ _ _ _ _ _
              Hplan Hrun) as (_ & _ & pre & suf & Etr & _).
  unfold rebuilt in Etr.
  destruct (rebuild_starts_with_reset cfg (scene s) g o grasp
              {| world := world (ext s); trace := trace (ext s);
                 global_random := glob |}) as (r & rest & Er).
  destruct (rebuild_creates_marker cfg (scene s) g o grasp
              {| world := world (ext s); trace := trace (ext s);
                 global_random := glob |}) as (pre' & e & suf' & Em & He).
  cbn [trace] in Er, Em.
  exists g, r, (rest ++ suf). split; [exact Hgoal|]. split.
  - rewrite Etr, Er, <- app_assoc. reflexivity.
  - exists pre', e, (suf' ++ suf). split; [|exact He].
    rewrite Etr, Em, <- !app_assoc. reflexivity.
Qed.

End MoreOnReset.

(** ** Building the arm and the surroundings *)

Ltac trace_step :=
  match goal with
  | |- context [match ?e with _ => _ end] =>
      lazymatch e with
      | context [match _ with _ => _ end] => fail
      | _ => destruct e eqn:?
      end
  end; cbn [world trace global_random fst snd].

Lemma string_length_append (a s : string) :
  String.length (a ++ s) = (String.length a + String.length s)%nat.
Proof.
  induction a as [|c a IH]; [reflexivity|].
  change (S (String.length (a ++ s)) = S (String.length a + String.length s)).
  now f_equal.
Qed.

Lemma string_append_inv_tail (a b s : string) :
  (a ++ s = b ++ s)%string -> a = b.
Proof.
  revert b. induction a as [|c a IH]; intros [|c' b] H;
    pose proof (f_equal String.length H) as HL;
    rewrite !string_length_append in HL; cbn [String.length] in HL;
    try lia.
  - reflexivity.
  - change (String c (a ++ s) = String c' (b ++ s))%string in H.
    injection H as -> H. f_equal. now apply IH.
Qed.

Section Building.

Context {W A : Type} (B : Backend W A).
Variable tmp_dir : string.

Lemma mico_calls_app (t1 t2 : list Event) :
  mico_calls (t1 ++ t2) = mico_calls t1 ++ mico_calls t2.
Proof. apply omap_app. Qed.

Lemma saved_textures_app (t1 t2 : list Event) :
  saved_textures (t1 ++ t2) = saved_textures t1 ++ saved_textures t2.
Proof. apply omap_app. Qed.

Lemma init_arm_mico_call (cfg : Config) (x : Ext) :
  mico_calls (trace (snd (init_arm B cfg x)))
  = mico_calls (trace x)
    ++ [(if randomize_arm cfg then
           np.clip_arrays [0; 0; 0.03] [0; 0; 0.07]
             (fst (rng.normal [0; 0; 0.05] 0.02 (global_random x)))
         else [0; 0; 0],
         [-0.35 - 0.2; -0.25 - 0.2; 0.05],
         [-0.2 + 0.2; 0.25 + 0.2; 0.2 + 0.2],
         randomize_arm cfg,
         if randomize_arm cfg then
           Some (fst (fst (fst (create_randomized_description B
                    (snd (rng.normal [0; 0; 0.05] 0.02 (global_random x)))))))
         else None)].
Proof.
  unfold init_arm, p, actuate. unfold andthen, draw, emit, call, ret.
  destruct (randomize_arm cfg); cbn [world trace global_random];
    repeat trace_step;
    rewrite <- ?app_assoc, mico_calls_app; reflexivity.
Qed.

Lemma init_arm_global_random (cfg : Config) (x : Ext) :
  randomize_arm cfg = false ->
  global_random (snd (init_arm B cfg x)) = global_random x.
Proof.
  intros H. unfold init_arm, p, actuate. rewrite H.
  unfold andthen, draw, emit, call, ret.
  cbn [world trace global_random]. repeat trace_step. reflexivity.
Qed.

(** X16 — [init_arm] constructs one [Mico] per call, reaching from the
    table's lower corner minus 0.2 (with the floor put at 0.05) to its
    upper corner plus 0.2.  Without arm randomization the arm is
    spawned at the origin with the stock description and nothing is
    drawn from the generator; with it the spawn position is, coordinate
    by coordinate, the smaller of the normal draw and (0, 0, 0.07). *)
Theorem init_arm_constructs_one_arm (cfg : Config) (x : Ext) :
  exists sp u,
    mico_calls (trace (snd (init_arm B cfg x)))
    = mico_calls (trace x)
      ++ [(sp, [-0.35 - 0.2; -0.25 - 0.2; 0.05],
           [-0.2 + 0.2; 0.25 + 0.2; 0.2 + 0.2], randomize_arm cfg, u)] /\
    (randomize_arm cfg = false ->
     sp = [0; 0; 0] /\ u = None /\
     global_random (snd (init_arm B cfg x)) = global_random x) /\
    (randomize_arm cfg = true ->
     let g := global_random x in
     sp = [Rmin (0 + 0.02 * std_normals g (cursor g)) 0;
           Rmin (0 + 0.02 * std_normals g (S (cursor g))) 0;
           Rmin (0.05 + 0.02 * std_normals g (S (S (cursor g)))) 0.07] /\
     is_Some u).
Proof.
  eexists _, _. split; [apply init_arm_mico_call|]. split.
  - intros H. rewrite H. split; [reflexivity|]. split; [reflexivity|].
    now apply init_arm_global_random.
  - intros H. rewrite H. cbn zeta. split; [|now eexists].
    cbn [rng.normal rng.normal1 fst np.clip_arrays cursor std_normals advance].
    unfold np.clip1.
    rewrite (Rmax_left 0 0) by lra.
    rewrite (Rmax_right 0.03 0.07) by lra.
    reflexivity.
Qed.

Lemma init_env_saved_textures (cfg : Config) (sc : Scene) (x : Ext) :
  saved_textures (trace (snd (init_env B tmp_dir cfg sc x)))
  = saved_textures (trace x)
    ++ (if randomize_textures cfg then
          [(tmp_dir ++ "/wall-" ++ envId cfg ++ ".png")%string;
           (tmp_dir ++ "/table-" ++ envId cfg ++ ".png")%string]
        else []).
Proof.
  unfold init_env, choice_of_two, p.
  unfold andthen, draw, emit, call, ret.
  destruct (randomize_textures cfg), (randomize_camera cfg);
    cbn [world trace global_random];
    repeat trace_step;
    rewrite <- ?app_assoc, ?saved_textures_app; cbn [saved_textures omap app];
    rewrite ?app_nil_r; reflexivity.
Qed.

(** X17 — with texture randomization [init_env] writes two files, one
    for the wall and one for the table, named after the environment's
    identifier: the two differ, and two environments with different
    identifiers (and the same directory) write four different files. *)
Theorem texture_files_are_keyed_by_env (cfg1 cfg2 : Config)
  (sc1 sc2 : Scene) (x1 x2 : Ext) :
  randomize_textures cfg1 = true -> randomize_textures cfg2 = true ->
  envId cfg1 <> envId cfg2 ->
  exists w1 t1 w2 t2,
    saved_textures (trace (snd (init_env B tmp_dir cfg1 sc1 x1)))
    = saved_textures (trace x1) ++ [w1; t1] /\
    saved_textures (trace (snd (init_env B tmp_dir cfg2 sc2 x2)))
    = saved_textures (trace x2) ++ [w2; t2] /\
    w1 <> t1 /\ w2 <> t2 /\
    w1 <> w2 /\ w1 <> t2 /\ t1 <> w2 /\ t1 <> t2.
Proof.
  intros H1 H2 Hid.
  eexists _, _, _, _.
  split; [rewrite init_env_saved_textures, H1; reflexivity|].
  split; [rewrite init_env_saved_textures, H2; reflexivity|].
  assert (Hwt : forall a b,
             (tmp_dir ++ "/wall-" ++ a ++ ".png"
              <> tmp_dir ++ "/table-" ++ b ++ ".png")%string).
  { intros a b E. apply String.app_inj in E. discriminate. }
  assert (Hww : forall a b,
             (tmp_dir ++ "/wall-" ++ a ++ ".png"
              = tmp_dir ++ "/wall-" ++ b ++ ".png")%string -> a = b).
  { intros a b E. apply String.app_inj in E. apply String.app_inj in E.
    now apply string_append_inv_tail in E. }
  assert (Htt : forall a b,
             (tmp_dir ++ "/table-" ++ a ++ ".png"
              = tmp_dir ++ "/table-" ++ b ++ ".png")%string -> a = b).
  { intros a b E. apply String.app_inj in E. apply String.app_inj in E.
    now apply string_append_inv_tail in E. }
  repeat split.
  - apply Hwt.
  - apply Hwt.
  - intros E. apply Hid. now apply Hww.
  - apply Hwt.
  - intros E. symmetry in E. now apply Hwt in E.
  - intros E. apply Hid. now apply Htt.
Qed.

End Building.

(** ** Observing and acting *)

Section ObservingAndActing.

Context {W A : Type} (B : Backend W A).
Variable tmp_dir : string.
Variable astype_float32 : R -> R.

Lemma state_vector_returns (cfg : Config) (s : @Env W A) :
  ready cfg s ->
  exists v, state_vector B astype_float32 cfg s = Return v /\
            length v = 22%nat.
Proof.
  intros Hready.
  destruct (state_vector_goal_and_object B astype_float32 cfg s Hready)
    as (v & g & Hv & _ & Hlen & _).
  now exists v.
Qed.

(** X18 — what [_get_obs] returns in the three modes that work: in
    mode "low_dim" the state vector, whatever the renderer would
    produce; in mode "pixels" the rendered image, and in mode
    "composed" the state vector together with the rendered image, both
    once the image has shape (84, 84, 3). *)
Theorem get_obs_by_mode (cfg : Config) (s : @Env W A) :
  ready cfg s ->
  exists v,
    state_vector B astype_float32 cfg s = Return v /\
    (observation_type cfg = "low_dim"%string ->
     _get_obs B astype_float32 cfg s = Return (ObsLowDim v)) /\
    (shape (render B (world (ext s)) (scene s)) = [84; 84; 3]%nat ->
     (observation_type cfg = "pixels"%string ->
      _get_obs B astype_float32 cfg s
      = Return (ObsPixels (render B (world (ext s)) (scene s)))) /\
     (observation_type cfg = "composed"%string ->
      _get_obs B astype_float32 cfg s
      = Return (ObsComposed v (render B (world (ext s)) (scene s))))).
Proof.
  intros Hready.
  destruct (state_vector_returns cfg s Hready) as (v & Hv & _).
  exists v. split; [exact Hv|]. unfold _get_obs. rewrite Hv. cbn [bind].
  split; [|intros Hshape; split].
  - intros ->. reflexivity.
  - intros ->. change (contains "pixels" "pixels") with true.
    cbn [orb]. rewrite Hshape, bool_decide_true by reflexivity.
    reflexivity.
  - intros ->. change (contains "pixels" "composed") with false.
    change (contains "composed" "composed") with true.
    cbn [orb]. rewrite Hshape, bool_decide_true by reflexivity.
    reflexivity.
Qed.

(** X19 — how [_get_obs] fails: whenever the mode contains "pixels" or
    "composed", a rendered image of another shape than (84, 84, 3)
    fails the assertion, in a mode the function does not know as well;
    and a mode that is none of the four known ones ends in the
    exception "Unsupported observation type" once that check, where it
    applies, has passed. *)
Theorem get_obs_failures (cfg : Config) (s : @Env W A) :
  ready cfg s ->
  let renders := contains "pixels" (observation_type cfg)
                 || contains "composed" (observation_type cfg) in
  let image := render B (world (ext s)) (scene s) in
  (renders = true -> shape image <> [84; 84; 3]%nat ->
   _get_obs B astype_float32 cfg s = Raise AssertionError) /\
  (known_mode (observation_type cfg) = false ->
   (renders = true -> shape image = [84; 84; 3]%nat) ->
   _get_obs B astype_float32 cfg s
   = Raise (Exception "Unsupported observation type")).
Proof.
  intros Hready. cbn zeta.
  destruct (state_vector_returns cfg s Hready) as (v & Hv & _).
  unfold _get_obs. rewrite Hv. cbn [bind]. split.
  - intros -> Hshape. now rewrite bool_decide_false.
  - unfold known_mode. intros Hk Hshape.
    apply orb_false_elim in Hk as [Hk E4].
    apply orb_false_elim in Hk as [Hk E3].
    apply orb_false_elim in Hk as [E1 E2].
    rewrite E1, E2, E3, E4.
    destruct (contains "pixels" _ || contains "composed" _).
    + rewrite (Hshape eq_refl), bool_decide_true by reflexivity.
      reflexivity.
    + reflexivity.
Qed.

(** X20 — an action that does not have four elements fails the shape
    assertion of [_set_action]. *)
Theorem set_action_rejects_wrong_shape (h : gmap nat (list R))
  (action : nat) (s : @Env W A) (a : list R) :
  h !! action = Some a -> length a <> n_actions ->
  _set_action B h action s = Raise AssertionError.
Proof.
  intros Hl Hlen. unfold _set_action, deref. rewrite Hl. cbn [attr bind].
  now rewrite (proj2 (Nat.eqb_neq _ _) Hlen).
Qed.

(** X21 — [_set_action] looks at an action only through the clipped
    values of its first three components: two actions that agree
    there, whatever their fourth components and however far outside
    [-1, 1] they reach, leave the environment in the same state. *)
Theorem set_action_reads_three_clipped_components
  (h1 h2 : gmap nat (list R)) (act1 act2 : nat) (s : @Env W A)
  (x0 x1 x2 x3 y0 y1 y2 y3 : R) :
  h1 !! act1 = Some [x0; x1; x2; x3] ->
  h2 !! act2 = Some [y0; y1; y2; y3] ->
  clamp x0 = clamp y0 -> clamp x1 = clamp y1 -> clamp x2 = clamp y2 ->
  is_Some (arm s) ->
  exists h1' h2' s',
    _set_action B h1 act1 s = Return (h1', s') /\
    _set_action B h2 act2 s = Return (h2', s').
Proof.
  intros H1 H2 E0 E1 E2 [arm0 Harm].
  destruct (set_action_run B h1 act1 s x0 x1 x2 x3 arm0 H1 Harm)
    as (l1 & l2 & l3 & _ & _ & _ & Hrun1).
  destruct (set_action_run B h2 act2 s y0 y1 y2 y3 arm0 H2 Harm)
    as (k1 & k2 & k3 & _ & _ & _ & Hrun2).
  rewrite !clip1_clamp in Hrun1, Hrun2.
  rewrite <- E0, <- E1, <- E2 in Hrun2.
  eexists _, _, _. split; [exact Hrun1|exact Hrun2].
Qed.

(** X22 — reset, then observe: after any reset that returns, [True] or
    [False], [state_vector] returns 22 numbers whose goal field is the
    float32 cast of the new goal, provided the actuator keeps its
    [goalPosition] at three coordinates. *)
Theorem state_vector_after_reset (fuel : nat) (cfg : Config)
  (state : option (list R)) (file : option string) (s : @Env W A)
  (ok : bool) (s' : Env) :
  actuator_contract B ->
  _reset_sim B tmp_dir fuel cfg state file s = Return (ok, s') ->
  exists v g,
    state_vector B astype_float32 cfg s' = Return v /\
    length v = 22%nat /\ goal s' = Some g /\
    np.slice 3 6 v = map astype_float32 g.
Proof.
  intros HC Hrun.
  pose proof (reset_sim_ready B tmp_dir fuel cfg state file s ok s' HC Hrun)
    as Hready.
  destruct (state_vector_goal_and_object B astype_float32 cfg s' Hready)
    as (v & g & Hv & Hg & Hlen & Hgoal & _).
  now exists v, g.
Qed.

(** X23 — a step does not move the goal: after [_set_action] and
    [_step_callback] the goal, the body, the recorded originals and
    [self.np_random] are what they were, the actuator has been asked
    for exactly [apply_action] and then [step_simulation], and
    [state_vector] can still be taken. *)
Theorem step_keeps_goal (cfg : Config) (h h' : gmap nat (list R))
  (action : nat) (s s1 s2 : @Env W A) :
  actuator_contract B -> ready cfg s ->
  _set_action B h action s = Return (h', s1) ->
  _step_callback B s1 = Return s2 ->
  goal s2 = goal s /\ body s2 = body s /\ np_random s2 = np_random s /\
  originalObjPosition s2 = originalObjPosition s /\
  originalGoalPosition s2 = originalGoalPosition s /\
  originalGripPosition s2 = originalGripPosition s /\
  (exists u, trace (ext s2)
             = trace (ext s) ++ [EvApplyAction u; EvStepSimulation]) /\
  ready cfg s2.
Proof.
  intros HC Hready Hact Hstep.
  pose proof (set_action_ready B cfg h h' action s s1 HC Hready Hact)
    as Hready1.
  pose proof (step_callback_ready B cfg s1 s2 HC Hready1 Hstep) as Hready2.
  enough (Hmain :
    goal s2 = goal s /\ body s2 = body s /\ np_random s2 = np_random s /\
    originalObjPosition s2 = originalObjPosition s /\
    originalGoalPosition s2 = originalGoalPosition s /\
    originalGripPosition s2 = originalGripPosition s /\
    (exists u, trace (ext s2)
               = trace (ext s) ++ [EvApplyAction u; EvStepSimulation])).
  { destruct Hmain as (? & ? & ? & ? & ? & ? & ?).
    repeat (split; [assumption|]). exact Hready2. }
  clear Hready1 Hready2.
  destruct Hready as (a & g & Ha & _).
  unfold _set_action in Hact.
  destruct (deref h action) as [v|e|]; cbn [bind] in Hact;
    try discriminate.
  destruct (assert _); cbn [bind] in Hact; try discriminate.
  destruct (alloc h _) as [l1 h1].
  destruct (deref h1 l1) as [v1|e|]; cbn [bind] in Hact; try discriminate.
  destruct (np.setitem 3 0 v1) as [v2|e|]; cbn [bind] in Hact;
    try discriminate.
  destruct (deref _ l1) as [v3|e|]; cbn [bind] in Hact; try discriminate.
  destruct (alloc _ v3) as [l2 h2].
  destruct (deref h2 l2) as [v4|e|]; cbn [bind] in Hact; try discriminate.
  destruct (alloc h2 _) as [l3 h3].
  rewrite Ha in Hact. cbn [attr bind] in Hact.
  destruct (deref h3 l3) as [v5|e|]; cbn [bind] in Hact; try discriminate.
  injection Hact as _ <-.
  unfold _step_callback in Hstep.
  unfold with_actuator at 1 in Hstep. cbn [arm attr bind] in Hstep.
  injection Hstep as <-.
  unfold with_actuator, actuate, call.
  destruct (apply_action B a (world (ext s)) v5) as [a1 w1].
  cbn [fst snd ext world trace].
  destruct (step_simulation B a1 w1) as [a2 w2].
  cbn [fst snd goal body np_random originalObjPosition originalGoalPosition
       originalGripPosition ext trace].
  repeat (split; [reflexivity|]).
  exists v5. now rewrite <- app_assoc.
Qed.

(** X24 — [get_aux] returns the joint poses followed by six numbers:
    the gripper position and the arm's internal goal position, which
    are the values [state_vector] reports, before the float32 cast, in
    its fields 0-2 and 14-16. *)
Theorem get_aux_layout (get_joint_poses : Arm A -> W -> list R)
  (cfg : Config) (s : @Env W A) :
  ready cfg s ->
  exists aux v a,
    arm s = Some a /\
    get_aux B get_joint_poses s = Return aux /\
    state_vector B astype_float32 cfg s = Return v /\
    let n := length (get_joint_poses a (world (ext s))) in
    length aux = (n + 6)%nat /\
    take n aux = get_joint_poses a (world (ext s)) /\
    map astype_float32 (take 3 (drop n aux)) = np.slice 0 3 v /\
    map astype_float32 (drop (n + 3) aux) = np.slice 14 17 v.
Proof.
  intros (a & g & Ha & Hg & Hg3 & Hp3 & Hbody).
  pose proof (state_vector_eval B astype_float32 cfg s a g Ha Hg Hbody)
    as Hev.
  cbn zeta in Hev.
  eexists _, _, a. split; [exact Ha|].
  split; [unfold get_aux; rewrite Ha; reflexivity|].
  split; [exact Hev|]. cbn zeta.
  destruct g as [|g0 [|g1 [|g2 [|? ?]]]]; try discriminate.
  destruct (goalPosition a) as [|p0 [|p1 [|p2 [|? ?]]]]; try discriminate.
  destruct (p_getLinkState B (world (ext s)) (armId a) 6)
    as [[[px py] pz] [[vx vy] vz]].
  cbn [linkWorldPosition worldLinkLinearVelocity np.array3].
  set (joints := get_joint_poses a (world (ext s))).
  split; [rewrite length_app; reflexivity|].
  split; [now rewrite take_app_length|].
  rewrite drop_app_length.
  rewrite drop_app_add'; [|reflexivity].
  destruct (has_object cfg).
  - destruct (Hbody eq_refl) as [b Hb]. rewrite Hb.
    destruct (p_getBasePositionAndOrientation B (world (ext s)) b)
      as [[ox oy] oz].
    split; reflexivity.
  - split; reflexivity.
Qed.

End ObservingAndActing.

(** ** The further statements at concrete inputs *)

Lemma shape_mismatch_is_assertion_error_witness :
  goal_distance [0; 0] [0; 0; 0] = Raise AssertionError /\
  compute_reward sparse_config [0; 0] [0; 0; 0] = Raise AssertionError.
Proof.
  apply (shape_mismatch_is_assertion_error sparse_config [0; 0] [0; 0; 0]).
  cbn [length]. lia.
Defined.

Lemma compute_reward_unknown_mode_witness :
  compute_reward (config_with_reward "dense") [0; 0; 0.06] [0; 0; 0.2]
  = Return None.
Proof.
  apply (compute_reward_unknown_mode (config_with_reward "dense")).
  - discriminate.
  - discriminate.
  - reflexivity.
Defined.


Lemma reward_agrees_with_success_witness :
  ready default_config toy_env /\
  exists ok,
    _is_success toy default_config toy_env = Return ok /\
    _get_reward toy default_config toy_env
    = Return (Some (if ok then 5 else 0)%Z).
Proof.
  split; [apply toy_env_ready|].
  exact (reward_agrees_with_success toy default_config toy_env
           (toy_env_ready default_config)).
Defined.

Lemma sample_goal_generators_witness :
  _sample_goal default_config (constant_rng 0 0) (constant_rng 0 0)
  = ([-0.4; 0.2; 0.3], constant_rng 0 0, constant_rng 0 0).
Proof.
  apply (proj1 (proj2 (proj1 (proj2 (sample_goal_generators default_config
                                       (constant_rng 0 0) (constant_rng 0 0)))
                         eq_refl))
           eq_refl).
Defined.

Lemma sampled_goal_bounds_witness :
  unit_interval (constant_rng 0 0) /\
  exists x y z,
    fst (fst (_sample_goal (sampled_goal_config true)
                (constant_rng 0 0) (constant_rng 0 0))) = [x; y; z] /\
    -0.35 <= x < -0.2 /\ -0.25 <= y < 0.25 /\ 0.03 <= z < 0.23.
Proof.
  split; [exact constant_rng_unit_interval|].
  destruct (sampled_goal_bounds (sampled_goal_config true)
              (constant_rng 0 0) (constant_rng 0 0) eq_refl
              constant_rng_unit_interval)
    as (x & y & z & Hg & Hx & Hy & _ & Hair).
  exists x, y, z. split; [exact Hg|]. split; [exact Hx|].
  split; [exact Hy|]. exact (proj1 (Hair eq_refl)).
Defined.


(** The scene a reset chooses from the example state, as from a new
    object: the generators are the same. *)
Lemma toy_env_plan (cfg : Config) :
  fixed_goal cfg = true -> target_in_the_air cfg = true ->
  0.1 * 0.1 <= (height_offset cfg - 0.3) * (height_offset cfg - 0.3) ->
  plan_scene 1 cfg None toy_env
  = Return ([-0.4; 0.2; 0.3],
            [-0.35 + (-0.2 - -0.35) * 0; -0.25 + (0 - -0.25) * 0;
             height_offset cfg],
            None, 0,
            advance (advance (advance (constant_rng 0 0))),
            constant_rng 0 0).
Proof. exact (fixed_goal_plan cfg). Qed.

Lemma toy_env_reset_true :
  exists s',
    _reset_sim toy "/tmp" 1 default_config None None toy_env
    = Return (true, s').
Proof.
  destruct (reset_sim_after_plan toy "/tmp" 1 default_config None None
              toy_env _ _ _ _ _ _
              (toy_env_plan default_config eq_refl eq_refl default_plan_ok))
    as (ok & s' & Hrun & _ & _ & _ & _ & _ & _ & Hfile).
  cbn [truthy] in Hfile. destruct Hfile as [-> _]. now exists s'.
Qed.

Lemma toy_env_reset_corrupt :
  exists s',
    _reset_sim toy "/tmp" 1 default_config None (Some "corrupt"%string)
      toy_env = Return (false, s').
Proof.
  destruct (reset_sim_after_plan toy "/tmp" 1 default_config None
              (Some "corrupt"%string) toy_env _ _ _ _ _ _
              (toy_env_plan default_config eq_refl eq_refl default_plan_ok))
    as (ok & s' & Hrun & _ & _ & _ & _ & _ & _ & Hfile).
  cbn [truthy toy p_restoreState] in Hfile.
  change (String.eqb "corrupt" "corrupt") with true in Hfile.
  cbn iota in Hfile. destruct Hfile as [-> _]. now exists s'.
Qed.

Lemma env_setup_runs_one_reset_witness :
  exists s', _env_setup toy "/tmp" 3 1 default_config toy_env = Return s'.
Proof.
  destruct toy_env_reset_true as (s' & Hrun).
  exists s'.
  exact (proj2 (env_setup_runs_one_reset toy "/tmp" 2 1 default_config
                  toy_env true s' Hrun)).
Defined.

Lemma reset_sim_rejects_wrong_shape_witness :
  _reset_sim toy "/tmp" 1 default_config (Some [0; 0; 0]) None toy_env
  = Raise AssertionError.
Proof.
  apply (reset_sim_rejects_wrong_shape toy "/tmp" 1 default_config
           [0; 0; 0] None toy_env).
  cbn [length]. lia.
Defined.

Lemma explicit_state_restores_arm_goal_witness :
  ready default_config toy_env /\
  exists v s' a,
    state_vector toy (fun x => x) default_config toy_env = Return v /\
    _reset_sim toy "/tmp" 0 default_config (Some v) None toy_env
    = Return (true, s') /\
    arm s' = Some a /\ goalPosition a = [0; 0; 0] /\ goalGripper a = 0.
Proof.
  split; [apply toy_env_ready|].
  destruct (explicit_state_restores_arm_goal toy "/tmp" (fun x => x)
              default_config default_config toy_env toy_env 0 None
              (toy_env_ready default_config) eq_refl)
    as (v & a0 & s' & a & Hv & Ha0 & Hrun & Ha & _ & Hgp & Hgg & _).
  exists v, s', a. split; [exact Hv|]. split; [exact Hrun|].
  split; [exact Ha|]. injection Ha0 as <-.
  split; [exact Hgp|exact Hgg].
Defined.

Lemma failed_reset_keeps_old_originals_witness :
  exists s',
    _reset_sim toy "/tmp" 1 default_config None (Some "corrupt"%string)
      toy_env = Return (false, s') /\
    originalGoalPosition s' = Some [-0.4; 0.2; 0.3] /\
    originalGripPosition s' = Some [0; 0; 0].
Proof.
  destruct toy_env_reset_corrupt as (s' & Hrun).
  destruct (failed_reset_keeps_old_originals toy "/tmp" 1 default_config
              None (Some "corrupt"%string) toy_env s' Hrun)
    as (g & o & ag & grasp & npr & glob & _ & _ & _ & Hog & Hop).
  exists s'. split; [exact Hrun|]. split; [exact Hog|exact Hop].
Defined.

Lemma successful_reset_records_originals_witness :
  exists s' g,
    _reset_sim toy "/tmp" 1 default_config None None toy_env
    = Return (true, s') /\
    goal s' = Some g /\ originalGoalPosition s' = Some g /\
    originalGripPosition s' = Some [0; 0; 0].
Proof.
  destruct toy_env_reset_true as (s' & Hrun).
  destruct (successful_reset_records_originals toy "/tmp" 1 default_config
              None None toy_env s' Hrun)
    as (g & a & Hg & _ & Hog & Hop & _).
  exists s', g. split; [exact Hrun|]. split; [exact Hg|].
  split; [exact Hog|exact Hop].
Defined.

Lemma reset_tears_down_then_marks_goal_witness :
  exists s' g r rest,
    _reset_sim toy "/tmp" 1 default_config None None toy_env
    = Return (true, s') /\
    goal s' = Some g /\
    trace (ext s') = EvP resetSimulation r :: rest /\
    asked (goal_marker_at g) toy_env s'.
Proof.
  destruct toy_env_reset_true as (s' & Hrun).
  destruct (reset_tears_down_then_marks_goal toy "/tmp" 1 default_config
              None None toy_env true s' Hrun)
    as (g & r & rest & Hg & Htr & Hm).
  exists s', g, r, rest. split; [exact Hrun|]. split; [exact Hg|].
  split; [exact Htr|exact Hm].
Defined.

Lemma texture_files_are_keyed_by_env_witness :
  exists w1 t1 w2 t2,
    saved_textures
      (trace (snd (init_env toy "/tmp" (textured_config "a")
                     (scene toy_env) toy_ext))) = [w1; t1] /\
    saved_textures
      (trace (snd (init_env toy "/tmp" (textured_config "b")
                     (scene toy_env) toy_ext))) = [w2; t2] /\
    w1 <> t1 /\ w1 <> w2 /\ t1 <> t2.
Proof.
  destruct (texture_files_are_keyed_by_env toy "/tmp"
              (textured_config "a") (textured_config "b")
              (scene toy_env) (scene toy_env) toy_ext toy_ext
              eq_refl eq_refl ltac:(discriminate))
    as (w1 & t1 & w2 & t2 & H1 & H2 & Hwt & _ & Hww & _ & _ & Htt).
  now exists w1, t1, w2, t2.
Defined.

Lemma get_obs_by_mode_witness :
  ready (config_with_mode "composed") toy_env /\
  exists v,
    _get_obs toy (fun x => x) (config_with_mode "composed") toy_env
    = Return (ObsComposed v (render toy tt (scene toy_env))).
Proof.
  split; [apply toy_env_ready|].
  destruct (get_obs_by_mode toy (fun x => x) (config_with_mode "composed")
              toy_env (toy_env_ready _))
    as (v & _ & _ & Himg).
  exists v. exact (proj2 (Himg eq_refl) eq_refl).
Defined.

Lemma get_obs_failures_witness :
  ready (config_with_mode "rgb") toy_env /\
  _get_obs toy (fun x => x) (config_with_mode "rgb") toy_env
  = Raise (Exception "Unsupported observation type").
Proof.
  split; [apply toy_env_ready|].
  apply (proj2 (get_obs_failures toy (fun x => x) (config_with_mode "rgb")
                  toy_env (toy_env_ready _))).
  - reflexivity.
  - discriminate.
Defined.

Lemma set_action_rejects_wrong_shape_witness :
  _set_action toy {[ 0%nat := [1; 2; 3] ]} 0 toy_env = Raise AssertionError.
Proof.
  apply (set_action_rejects_wrong_shape toy {[ 0%nat := [1; 2; 3] ]}
           0%nat toy_env [1; 2; 3] (lookup_singleton_eq _ _)).
  unfold n_actions. cbn [length]. lia.
Defined.

Lemma clamp_above (x : R) : 1 <= x -> clamp x = 1.
Proof.
  intros H. unfold clamp, Rltb.
  repeat (destruct (Rlt_dec _ _)); lra.
Qed.

Lemma set_action_reads_three_clipped_components_witness :
  exists h1' h2' s',
    _set_action toy {[ 0%nat := [2; 0.5; 3; 7] ]} 0 toy_env
    = Return (h1', s') /\
    _set_action toy {[ 5%nat := [1; 0.5; 1; 0] ]} 5 toy_env
    = Return (h2', s').
Proof.
  apply (set_action_reads_three_clipped_components toy
           {[ 0%nat := [2; 0.5; 3; 7] ]} {[ 5%nat := [1; 0.5; 1; 0] ]}
           0%nat 5%nat toy_env 2 0.5 3 7 1 0.5 1 0
           (lookup_singleton_eq _ _) (lookup_singleton_eq _ _)).
  - rewrite !clamp_above by lra. reflexivity.
  - reflexivity.
  - rewrite !clamp_above by lra. reflexivity.
  - now eexists.
Defined.

Lemma state_vector_after_reset_witness :
  actuator_contract toy /\
  exists s' v,
    _reset_sim toy "/tmp" 1 default_config None None toy_env
    = Return (true, s') /\
    state_vector toy (fun x => x) default_config s' = Return v /\
    length v = 22%nat.
Proof.
  split; [exact toy_contract|].
  destruct toy_env_reset_true as (s' & Hrun).
  destruct (state_vector_after_reset toy "/tmp" (fun x => x) 1
              default_config None None toy_env true s' toy_contract Hrun)
    as (v & g & Hv & Hlen & _).
  now exists s', v.
Defined.

Lemma step_keeps_goal_witness :
  exists h' s1 s2,
    _set_action toy {[ 0%nat := [2; 0.5; 3; 7] ]} 0 toy_env
    = Return (h', s1) /\
    _step_callback toy s1 = Return s2 /\
    goal s2 = Some [-0.4; 0.2; 0.3] /\ ready default_config s2.
Proof.
  destruct (set_action_run toy {[ 0%nat := [2; 0.5; 3; 7] ]} 0%nat toy_env
              2 0.5 3 7 (mkArm 0%Z [0; 0; 0] 0 tt)
              (lookup_singleton_eq _ _) eq_refl)
    as (l1 & l2 & l3 & _ & _ & _ & Hact).
  eexists _, _, _. split; [exact Hact|].
  split; [reflexivity|].
  match goal with
  | |- goal ?s2 = _ /\ _ =>
      pose proof (step_keeps_goal toy default_config _ _ _ toy_env _ s2
                    toy_contract (toy_env_ready default_config) Hact
                    eq_refl) as (Hg & _ & _ & _ & _ & _ & _ & Hr)
  end.
  split; [exact Hg|exact Hr].
Defined.

Lemma get_aux_layout_witness :
  ready default_config toy_env /\
  exists aux,
    get_aux toy (fun _ _ => replicate 10 0) toy_env = Return aux /\
    length aux = 16%nat.
Proof.
  split; [apply toy_env_ready|].
  destruct (get_aux_layout toy (fun x => x) (fun _ _ => replicate 10 0)
              default_config toy_env (toy_env_ready default_config))
    as (aux & v & a & _ & Haux & _ & Hlen & _).
  exists aux. split; [exact Haux|exact Hlen].
Defined.

(** * Floating point *)

(** ** Rounding a product that stays below a number of the format *)

Lemma digits2_pos_bounds (m : positive) :
  (2 ^ (Zpos (digits2_pos m) - 1) <= Zpos m < 2 ^ Zpos (digits2_pos m))%Z.
Proof.
  induction m as [m IH|m IH|]; cbn [digits2_pos].
  - rewrite Pos2Z.inj_succ, Z.pow_succ_r by lia.
    replace (Z.succ (Zpos (digits2_pos m)) - 1)%Z
      with (Z.succ (Zpos (digits2_pos m) - 1)) by lia.
    rewrite Z.pow_succ_r by lia. lia.
  - rewrite Pos2Z.inj_succ, Z.pow_succ_r by lia.
    replace (Z.succ (Zpos (digits2_pos m)) - 1)%Z
      with (Z.succ (Zpos (digits2_pos m) - 1)) by lia.
    rewrite Z.pow_succ_r by lia. lia.
  - cbn. lia.
Qed.

Lemma shr_1_m (r : shr_record) :
  (0 <= shr_m r)%Z -> shr_m (shr_1 r) = (shr_m r / 2)%Z.
Proof.
  destruct r as [m r s]. cbn [shr_m shr_1]. intros Hm.
  destruct m as [|[p|p|]|p]; cbn [shr_m].
  - reflexivity.
  - apply (Z.div_unique_pos _ _ _ 1); lia.
  - apply (Z.div_unique_pos _ _ _ 0); lia.
  - reflexivity.
  - lia.
Qed.

Lemma iter_shr_1_m (p : positive) (r : shr_record) :
  (0 <= shr_m r)%Z ->
  shr_m (SpecFloat.iter_pos shr_1 p r) = (shr_m r / 2 ^ Zpos p)%Z.
Proof.
  revert r. induction p as [p IH|p IH|]; intros r Hr;
    cbn [SpecFloat.iter_pos].
  - assert (H1 : (0 <= shr_m (shr_1 r))%Z)
      by (rewrite shr_1_m by exact Hr; apply Z.div_pos; lia).
    assert (H2 : (0 <= shr_m (SpecFloat.iter_pos shr_1 p (shr_1 r)))%Z)
      by (rewrite IH by exact H1; apply Z.div_pos; lia).
    rewrite (IH _ H2), (IH _ H1), (shr_1_m r Hr).
    rewrite !Z.div_div by lia.
    assert (E : (2 ^ Zpos p~1 = 2 * 2 ^ Zpos p * 2 ^ Zpos p)%Z).
    { rewrite <- (Z.pow_1_r 2) at 2. rewrite <- !Z.pow_add_r by lia.
      f_equal. lia. }
    rewrite E. f_equal; lia.
  - assert (H1 : (0 <= shr_m (SpecFloat.iter_pos shr_1 p r))%Z)
      by (rewrite IH by exact Hr; apply Z.div_pos; lia).
    rewrite (IH _ H1), (IH _ Hr).
    rewrite !Z.div_div by lia.
    assert (E : (2 ^ Zpos p~0 = 2 ^ Zpos p * 2 ^ Zpos p)%Z).
    { rewrite <- !Z.pow_add_r by lia. f_equal. lia. }
    rewrite E. f_equal; lia.
  - rewrite shr_1_m by exact Hr. rewrite Z.pow_1_r. reflexivity.
Qed.

Lemma round_nearest_even_near (m : Z) (l : location) :
  (m <= round_nearest_even m l <= m + 1)%Z.
Proof.
  destruct l as [|[| |]]; cbn [round_nearest_even]; try lia.
  destruct (Z.even m); lia.
Qed.

Section RoundingBound.

Variables prec emax : Z.
Hypothesis prec_pos : (0 < prec)%Z.

(** The first shift of [binary_round_aux] on a product [mx * mc] of a
    number below 1 and a normal number [c] of the format: the exponent
    does not exceed that of [c], the mantissa fits, and it stays below
    that of [c] when the exponents agree. *)
Lemma first_shift (mx mc : positive) (ex ec : Z) :
  (Zpos mx < 2 ^ prec)%Z -> (ex <= - prec)%Z ->
  (2 ^ (prec - 1) <= Zpos mc < 2 ^ prec)%Z ->
  (SpecFloat.emin prec emax <= ec)%Z ->
  let r := shr_fexp prec emax (Zpos (mx * mc)) (ex + ec) loc_Exact in
  (SpecFloat.emin prec emax <= snd r <= ec)%Z /\
  (0 <= shr_m (fst r) < 2 ^ prec)%Z /\
  (snd r = ec -> (shr_m (fst r) < Zpos mc)%Z).
Proof.
  intros Hmx Hex Hmc Hec. cbn zeta.
  unfold shr_fexp, Zdigits2. cbn [shr_record_of_loc].
  pose proof (digits2_pos_bounds (mx * mc)) as Hd.
  set (d := Zpos (digits2_pos (mx * mc))) in *.
  rewrite Pos2Z.inj_mul in Hd.
  set (M := (Zpos mx * Zpos mc)%Z) in *.
  assert (Hpow : (2 ^ prec <= 2 ^ (- ex))%Z)
    by (apply Z.pow_le_mono_r; lia).
  assert (HM : (M < 2 ^ (- ex) * Zpos mc)%Z) by (unfold M; nia).
  assert (HM2 : (M < 2 ^ (prec - ex))%Z).
  { replace (prec - ex)%Z with (- ex + prec)%Z by lia.
    rewrite Z.pow_add_r by lia.
    assert (0 < 2 ^ (- ex))%Z by (apply Z.pow_pos_nonneg; lia). nia. }
  assert (Hdle : (d <= prec - ex)%Z).
  { assert (H : (2 ^ (d - 1) < 2 ^ (prec - ex))%Z) by lia.
    apply Z.pow_lt_mono_r_iff in H; lia. }
  unfold SpecFloat.fexp.
  set (fe := Z.max (d + (ex + ec) - prec) (SpecFloat.emin prec emax)).
  assert (Hfe1 : (SpecFloat.emin prec emax <= fe)%Z) by (unfold fe; lia).
  assert (Hfe2 : (d + (ex + ec) - prec <= fe)%Z) by (unfold fe; lia).
  assert (Hfe3 : (fe <= ec)%Z) by (unfold fe; lia).
  unfold shr.
  destruct (fe - (ex + ec))%Z as [|n|n] eqn:Hn; cbn [fst snd shr_m].
  - (* no shift *)
    assert (Hd53 : (d <= prec)%Z) by lia.
    assert ((2 ^ d <= 2 ^ prec)%Z) by (apply Z.pow_le_mono_r; lia).
    repeat split; try (rewrite Pos2Z.inj_mul; fold M); lia.
  - rewrite iter_shr_1_m by (cbn [shr_m]; lia). cbn [shr_m].
    rewrite Pos2Z.inj_mul. fold M.
    assert (Hn0 : (0 < 2 ^ Zpos n)%Z) by (apply Z.pow_pos_nonneg; lia).
    repeat split; try lia.
    + apply Z.div_pos; lia.
    + apply Z.div_lt_upper_bound; [lia|].
      rewrite <- Z.pow_add_r by lia.
      assert ((2 ^ d <= 2 ^ (Zpos n + prec))%Z)
        by (apply Z.pow_le_mono_r; lia).
      lia.
    + intros He. apply Z.div_lt_upper_bound; [lia|].
      replace (Zpos n) with (- ex)%Z by lia. exact HM.
  - assert (Hd53 : (d <= prec)%Z) by lia.
    assert ((2 ^ d <= 2 ^ prec)%Z) by (apply Z.pow_le_mono_r; lia).
    repeat split; try (rewrite Pos2Z.inj_mul; fold M); lia.
Qed.

(** The product of a number below 1 and a normal number [c] of the
    format rounds to 0 or to a number that [SFcompare] does not put
    above [c]. *)
Lemma mul_below (s : bool) (mx mc : positive) (ex ec : Z) :
  (Zpos mx < 2 ^ prec)%Z -> (ex <= - prec)%Z ->
  (2 ^ (prec - 1) <= Zpos mc < 2 ^ prec)%Z ->
  (SpecFloat.emin prec emax <= ec <= emax - prec)%Z ->
  let r := binary_round_aux prec emax s (Zpos (mx * mc)) (ex + ec)
             loc_Exact in
  r = S754_zero s \/
  exists m e, r = S754_finite s m e /\
              (e < ec \/ (e = ec /\ Zpos m <= Zpos mc))%Z.
Proof.
  intros Hmx Hex Hmc Hec. cbn zeta. unfold binary_round_aux.
  destruct (first_shift mx mc ex ec Hmx Hex Hmc (proj1 Hec))
    as (He' & Hq & Hqc).
  destruct (shr_fexp prec emax (Zpos (mx * mc)) (ex + ec) loc_Exact)
    as [mrs' e']. cbn [fst snd] in He', Hq, Hqc.
  pose proof (round_nearest_even_near (shr_m mrs')
                (loc_of_shr_record mrs')) as Hr.
  set (r2 := round_nearest_even (shr_m mrs') (loc_of_shr_record mrs')) in *.
  unfold shr_fexp. cbn [shr_record_of_loc].
  destruct r2 as [|m2|m2]; [| |lia].
  - (* the rounded mantissa is 0 *)
    cbn [Zdigits2]. unfold SpecFloat.fexp, shr.
    destruct (Z.max (0 + e' - prec) (SpecFloat.emin prec emax) - e')%Z
      eqn:Hn; try lia; cbn [shr_m]; now left.
  - cbn [Zdigits2].
    pose proof (digits2_pos_bounds m2) as Hd.
    set (d := Zpos (digits2_pos m2)) in *.
    assert (Hd1 : (d <= prec + 1)%Z).
    { assert (H : (2 ^ (d - 1) < 2 ^ (prec + 1))%Z).
      { rewrite (Z.pow_add_r 2 prec 1) by lia. lia. }
      apply Z.pow_lt_mono_r_iff in H; lia. }
    unfold SpecFloat.fexp, shr.
    destruct (Z.max (d + e' - prec) (SpecFloat.emin prec emax) - e')%Z
      as [|n|n] eqn:Hn; cbn [shr_m].
    + right. replace (e' <=? emax - prec)%Z with true
        by (symmetry; apply Z.leb_le; lia).
      exists m2, e'. split; [reflexivity|].
      destruct (Z.eq_dec e' ec) as [E|E]; [right|left; lia].
      split; [exact E|]. specialize (Hqc E). lia.
    + (* a carry: the mantissa is 2 ^ prec *)
      assert (Hn1 : (Zpos n = 1)%Z) by lia.
      assert (n = 1%positive) as -> by lia. clear Hn1.
      assert (Hdp : (d = prec + 1)%Z) by lia.
      assert (Hm2p : (Zpos m2 = 2 ^ prec)%Z).
      { rewrite Hdp in Hd. replace (prec + 1 - 1)%Z with prec in Hd by lia.
        lia. }
      assert (Hne : e' <> ec).
      { intros E. specialize (Hqc E). lia. }
      cbn [SpecFloat.iter_pos]. rewrite shr_1_m by (cbn [shr_m]; lia). cbn [shr_m].
      rewrite Hm2p.
      assert (Hhalf : (2 ^ prec / 2 = 2 ^ (prec - 1))%Z).
      { replace prec with (Z.succ (prec - 1)) at 1 by lia.
        rewrite Z.pow_succ_r by lia.
        rewrite Z.mul_comm. apply Z.div_mul. lia. }
      rewrite Hhalf.
      assert (Hpp : (0 < 2 ^ (prec - 1))%Z)
        by (apply Z.pow_pos_nonneg; lia).
      destruct (2 ^ (prec - 1))%Z as [|mf|mf] eqn:Hmf; try lia.
      right. replace (e' + 1 <=? emax - prec)%Z with true
        by (symmetry; apply Z.leb_le; lia).
      exists mf, (e' + 1)%Z. split; [reflexivity|].
      destruct (Z.eq_dec (e' + 1)%Z ec) as [E|E]; [right|left; lia].
      split; [exact E|lia].
    + right. replace (e' <=? emax - prec)%Z with true
        by (symmetry; apply Z.leb_le; lia).
      exists m2, e'. split; [reflexivity|].
      destruct (Z.eq_dec e' ec) as [E|E]; [right|left; lia].
      split; [exact E|]. specialize (Hqc E). lia.
Qed.

End RoundingBound.

(** ** The order of floats *)

Lemma SFltb_leb (x y : spec_float) : SFltb x y = true -> SFleb x y = true.
Proof. unfold SFltb, SFleb. now destruct (SFcompare x y) as [[| |]|]. Qed.

Lemma SFleb_ltb_trans (x y z : spec_float) :
  SFleb x y = true -> SFltb y z = true -> SFltb x z = true.
Proof.
  unfold SFleb, SFltb.
  destruct x as [sx|sx| |sx mx ex], y as [sy|sy| |sy my ey],
    z as [sz|sz| |sz mz ez]; cbn [SFcompare];
    try discriminate; try reflexivity;
    repeat match goal with s : bool |- _ => destruct s end;
    try discriminate; try reflexivity;
    change (Pos.compare_cont Eq) with Pos.compare;
    repeat match goal with
           | |- context [Z.compare ?a ?b] =>
               destruct (Z.compare_spec a b)
           | |- context [Pos.compare ?a ?b] =>
               destruct (Pos.compare_spec a b)
           end;
    cbn [CompOpp]; try discriminate; try reflexivity; intros; lia.
Qed.

(** ** Differences and squares *)

Lemma binary_round_aux_opp (prec emax : Z) (s : bool) (m e : Z)
  (l : location) :
  binary_round_aux prec emax (negb s) m e l
  = SFopp (binary_round_aux prec emax s m e l).
Proof.
  unfold binary_round_aux.
  destruct (shr_fexp prec emax m e l) as [mrs' e'].
  destruct (shr_fexp prec emax _ e' loc_Exact) as [mrs'' e''].
  destruct (shr_m mrs''); [reflexivity| |reflexivity].
  destruct (Z.leb e'' (emax - prec)); reflexivity.
Qed.

Lemma binary_normalize_opp (prec emax : Z) (z e : Z) :
  binary_normalize prec emax (- z) e false
  = binary_normalize prec emax z e false \/
  binary_normalize prec emax (- z) e false
  = SFopp (binary_normalize prec emax z e false).
Proof.
  destruct z as [|m|m].
  - now left.
  - right. change (- Zpos m)%Z with (Zneg m).
    unfold binary_normalize, binary_round.
    destruct (shl_align m e _) as [mz ez].
    exact (binary_round_aux_opp prec emax false (Zpos mz) ez loc_Exact).
  - right. change (- Zneg m)%Z with (Zpos m).
    unfold binary_normalize, binary_round.
    destruct (shl_align m e _) as [mz ez].
    exact (binary_round_aux_opp prec emax true (Zpos mz) ez loc_Exact).
Qed.

Lemma SFsub_swap (prec emax : Z) (x y : spec_float) :
  SFsub prec emax y x = SFsub prec emax x y \/
  SFsub prec emax y x = SFopp (SFsub prec emax x y).
Proof.
  destruct x as [sx|sx| |sx mx ex], y as [sy|sy| |sy my ey];
    cbn [SFsub SFopp];
    try (now left);
    try (now right);
    try (destruct sx, sy; cbn; now (left + right)).
  rewrite (Z.min_comm ey ex).
  match goal with
  | |- context [binary_normalize _ _ (?a - ?b)%Z _ _] =>
      replace (a - b)%Z with (- (b - a))%Z by lia
  end.
  apply binary_normalize_opp.
Qed.

Lemma SFmul_square_opp (prec emax : Z) (x y : spec_float) :
  x = y \/ x = SFopp y ->
  SFmul prec emax x x = SFmul prec emax y y.
Proof.
  intros [->| ->]; [reflexivity|].
  destruct y as [s|s| |s m e]; cbn [SFopp SFmul]; try reflexivity;
    now destruct s.
Qed.

Lemma squares_of_differences_swap (t : dtype) (a b : list spec_float) :
  map (fun u => SFmul (fp.prec t) (fp.emax t) u u) (fp.sub t a b)
  = map (fun u => SFmul (fp.prec t) (fp.emax t) u u) (fp.sub t b a).
Proof.
  unfold fp.sub. revert b.
  induction a as [|x a IH]; intros [|y b]; cbn [zip_with map];
    try reflexivity.
  rewrite IH. f_equal.
  apply SFmul_square_opp, SFsub_swap.
Qed.

Lemma goal_distance_ieee_swap (a b : list spec_float) :
  ieee.goal_distance a b = ieee.goal_distance b a.
Proof.
  unfold ieee.goal_distance, fp.linalg_norm.
  rewrite (squares_of_differences_swap float64 a b).
  now rewrite (Nat.eqb_sym (length a) (length b)).
Qed.

Lemma SFsub_diag (prec emax : Z) (x : spec_float) :
  fp.isfinite x = true -> SFsub prec emax x x = S754_zero false.
Proof.
  destruct x as [s|s| |s m e]; cbn [fp.isfinite SFsub]; try discriminate.
  - now destruct s.
  - intros _. now rewrite Z.sub_diag.
Qed.

Lemma sum_of_zeros (t : dtype) (n : nat) :
  fp.sum t (replicate n (S754_zero false)) = S754_zero false.
Proof.
  unfold fp.sum. induction n as [|n IH]; [reflexivity|exact IH].
Qed.

Lemma squares_of_self_differences (t : dtype) (a : list spec_float) :
  Forall (fun x => fp.isfinite x = true) a ->
  map (fun u => SFmul (fp.prec t) (fp.emax t) u u) (fp.sub t a a)
  = replicate (length a) (S754_zero false).
Proof.
  unfold fp.sub. induction 1 as [|x a Hx _ IH]; [reflexivity|].
  cbn [zip_with map length replicate]. rewrite IH.
  now rewrite (SFsub_diag _ _ x Hx).
Qed.

Lemma goal_distance_ieee_self (a : list spec_float) :
  Forall (fun x => fp.isfinite x = true) a ->
  ieee.goal_distance a a = Return (S754_zero false).
Proof.
  intros Ha. unfold ieee.goal_distance, fp.linalg_norm.
  rewrite Nat.eqb_refl. cbn [assert bind].
  rewrite (squares_of_self_differences float64 a Ha).
  now rewrite sum_of_zeros.
Qed.

(** ** Clipping and scaling an action *)

Lemma clip1_cases (x lo hi : spec_float) :
  fp.isnan lo = false -> SFltb lo hi = true ->
  (x = S754_nan /\ fp.clip1 x lo hi = S754_nan) \/
  (x <> S754_nan /\
   (fp.clip1 x lo hi = lo \/ fp.clip1 x lo hi = hi \/
    (fp.clip1 x lo hi = x /\ SFltb lo x = true /\ SFltb x hi = true))).
Proof.
  intros Hlo Hlh. unfold fp.clip1, fp.maximum, fp.minimum.
  destruct (fp.isnan x) eqn:Hx.
  - left. destruct x; try discriminate. now split.
  - right. split; [intros ->; discriminate|].
    destruct (SFltb lo x) eqn:E1.
    + rewrite Hx. destruct (SFltb x hi) eqn:E2; [|now right; left].
      right; right. now repeat split.
    + rewrite Hlo, Hlh. now left.
Qed.

Lemma SFleb_below (s1 s2 : bool) (m mc : positive) (e ec : Z) :
  (e < ec \/ (e = ec /\ Zpos m <= Zpos mc))%Z ->
  SFleb (S754_finite true mc ec) (S754_finite s1 m e) = true /\
  SFleb (S754_finite s2 m e) (S754_finite false mc ec) = true.
Proof.
  intros H. unfold SFleb. cbn [SFcompare].
  change (Pos.compare_cont Eq) with Pos.compare.
  destruct s1, s2;
    repeat match goal with
           | |- context [Z.compare ?a ?b] =>
               destruct (Z.compare_spec a b)
           | |- context [Pos.compare ?a ?b] =>
               destruct (Pos.compare_spec a b)
           end;
    cbn [CompOpp]; split; try reflexivity; lia.
Qed.

Section Scaling.

Variables prec emax : Z.
Hypothesis prec_pos : (0 < prec)%Z.
Hypothesis emax_big : (2 < emax)%Z.

Variables (m1 mc : positive) (ec : Z).
Hypothesis one_mantissa : (Zpos m1 = 2 ^ (prec - 1))%Z.
Hypothesis c_normal : (2 ^ (prec - 1) <= Zpos mc < 2 ^ prec)%Z.
Hypothesis c_exponent : (SpecFloat.emin prec emax <= ec <= emax - prec)%Z.

(** A number of the format strictly between -1 and 1 has an exponent
    of at most [- prec]. *)
Lemma inside_unit_interval (s : bool) (mx : positive) (ex : Z) :
  bounded prec emax mx ex = true ->
  SFltb (S754_finite true m1 (1 - prec)) (S754_finite s mx ex) = true ->
  SFltb (S754_finite s mx ex) (S754_finite false m1 (1 - prec)) = true ->
  (Zpos mx < 2 ^ prec)%Z /\ (ex <= - prec)%Z.
Proof.
  unfold bounded, canonical_mantissa, SpecFloat.fexp, SpecFloat.emin.
  intros Hb Hlo Hhi.
  apply andb_true_iff in Hb. destruct Hb as [Hc _].
  apply Z.eqb_eq in Hc.
  pose proof (digits2_pos_bounds mx) as Hd.
  set (d := Zpos (digits2_pos mx)) in *.
  assert (Hdp : (d <= prec)%Z) by lia.
  assert (Hpow : (2 ^ d <= 2 ^ prec)%Z) by (apply Z.pow_le_mono_r; lia).
  split; [lia|].
  assert (Hfull : (ex = 1 - prec -> 2 ^ (prec - 1) <= Zpos mx)%Z).
  { intros E. assert (d = prec) as <- by lia. lia. }
  unfold SFltb in Hlo, Hhi. cbn [SFcompare] in Hlo, Hhi.
  change (Pos.compare_cont Eq) with Pos.compare in Hlo, Hhi.
  destruct s.
  - destruct (Z.compare_spec (1 - prec) ex) as [E|E|E];
      try discriminate; [|lia].
    destruct (Pos.compare_spec m1 mx) as [E'|E'|E'];
      cbn [CompOpp] in Hlo; try discriminate.
    specialize (Hfull (eq_sym E)). lia.
  - destruct (Z.compare_spec ex (1 - prec)) as [E|E|E];
      try discriminate; [|lia].
    destruct (Pos.compare_spec mx m1) as [E'|E'|E']; try discriminate.
    specialize (Hfull E). lia.
Qed.

(** Scaling a number strictly between -1 and 1 by [c] gives a number
    between [- c] and [c]. *)
Lemma scaled_inside (x : spec_float) :
  valid_binary prec emax x = true ->
  SFltb (S754_finite true m1 (1 - prec)) x = true ->
  SFltb x (S754_finite false m1 (1 - prec)) = true ->
  let y := SFmul prec emax x (S754_finite false mc ec) in
  SFleb (S754_finite true mc ec) y = true /\
  SFleb y (S754_finite false mc ec) = true.
Proof.
  destruct x as [s|s| |s mx ex]; cbn [valid_binary]; intros Hv Hlo Hhi.
  - cbn. now split.
  - destruct s; discriminate.
  - discriminate.
  - destruct (inside_unit_interval s mx ex Hv Hlo Hhi) as [Hmx Hex].
    cbn [SFmul].
    destruct (mul_below prec emax prec_pos (xorb s false) mx mc ex ec
                Hmx Hex c_normal c_exponent)
      as [->|(m & e & -> & Hle)].
    + cbn. now split.
    + exact (SFleb_below _ _ m mc e ec Hle).
Qed.

End Scaling.

(** The constants of [_set_action] in the two dtypes: the bounds -1
    and 1 of the clip, and 0.05 as the array sees it. *)
Lemma set_action_constants (t : dtype) :
  exists m1 mc ec,
    fp.of_int t 1 = S754_finite false m1 (1 - fp.prec t) /\
    fp.of_int t (-1) = S754_finite true m1 (1 - fp.prec t) /\
    fp.cast t (fp.literal 5 100) = S754_finite false mc ec /\
    (Zpos m1 = 2 ^ (fp.prec t - 1))%Z /\
    (2 ^ (fp.prec t - 1) <= Zpos mc < 2 ^ fp.prec t)%Z /\
    (SpecFloat.emin (fp.prec t) (fp.emax t) <= ec
     <= fp.emax t - fp.prec t)%Z /\
    SFmul (fp.prec t) (fp.emax t) (S754_finite false m1 (1 - fp.prec t))
      (S754_finite false mc ec) = S754_finite false mc ec /\
    SFmul (fp.prec t) (fp.emax t) (S754_finite true m1 (1 - fp.prec t))
      (S754_finite false mc ec) = S754_finite true mc ec.
Proof.
  destruct t.
  - exists 8388608%positive, 13421773%positive, (-28)%Z.
    repeat split; try (vm_compute; reflexivity);
      vm_compute; discriminate.
  - exists 4503599627370496%positive, 7205759403792794%positive, (-57)%Z.
    repeat split; try (vm_compute; reflexivity);
      vm_compute; discriminate.
Qed.

(** One component of the array the actuator is given. *)
Lemma scaled_component (t : dtype) (x : spec_float) :
  fp.valid t x ->
  let c := fp.cast t (fp.literal 5 100) in
  let clipped := fp.clip1 x (fp.of_int t (-1)) (fp.of_int t 1) in
  let y := SFmul (fp.prec t) (fp.emax t) clipped c in
  if fp.isnan x then clipped = S754_nan /\ y = S754_nan
  else fp.between (fp.of_int t (-1)) (fp.of_int t 1) clipped = true /\
       fp.between (SFopp c) c y = true.
Proof.
  intros Hv. cbn zeta.
  destruct (set_action_constants t)
    as (m1 & mc & ec & H1 & Hm1 & Hc & Hone & Hnorm & Hexp & Hmul1 & Hmulm1).
  rewrite H1, Hm1, Hc. cbn [SFopp negb].
  assert (Hprec : (0 < fp.prec t)%Z) by (destruct t; reflexivity).
  assert (Hemax : (2 < fp.emax t)%Z) by (destruct t; reflexivity).
  assert (Hlh : SFltb (S754_finite true m1 (1 - fp.prec t))
                  (S754_finite false m1 (1 - fp.prec t)) = true)
    by reflexivity.
  assert (Hcc : forall s, fp.between (S754_finite true mc ec)
                            (S754_finite false mc ec)
                            (S754_finite s mc ec) = true).
  { intros s. unfold fp.between.
    destruct (SFleb_below s s mc mc ec ec) as [Ha Hb]; [right; lia|].
    now rewrite Ha, Hb. }
  assert (H11 : forall s, fp.between (S754_finite true m1 (1 - fp.prec t))
                            (S754_finite false m1 (1 - fp.prec t))
                            (S754_finite s m1 (1 - fp.prec t)) = true).
  { intros s. unfold fp.between.
    destruct (SFleb_below s s m1 m1 (1 - fp.prec t) (1 - fp.prec t))
      as [Ha Hb]; [right; lia|].
    now rewrite Ha, Hb. }
  destruct (clip1_cases x (S754_finite true m1 (1 - fp.prec t))
              (S754_finite false m1 (1 - fp.prec t)) eq_refl Hlh)
    as [[-> Hclip]|[Hx [Hclip|[Hclip|(Hclip & Hlo & Hhi)]]]].
  - cbn [fp.isnan]. rewrite Hclip. now split.
  - replace (fp.isnan x) with false by (now destruct x).
    rewrite Hclip, Hmulm1. split; [apply H11|apply Hcc].
  - replace (fp.isnan x) with false by (now destruct x).
    rewrite Hclip, Hmul1. split; [apply H11|apply Hcc].
  - replace (fp.isnan x) with false by (now destruct x).
    rewrite Hclip. split.
    + unfold fp.between.
      now rewrite (SFltb_leb _ _ Hlo), (SFltb_leb _ _ Hhi).
    + unfold fp.between.
      destruct (scaled_inside (fp.prec t) (fp.emax t) Hprec Hemax
                  m1 mc ec Hone Hnorm Hexp x Hv Hlo Hhi) as [Ha Hb].
      now rewrite Ha, Hb.
Qed.

(** ** Distance and reward in floating point *)


(** X1 — [goal_distance] in floating point does not depend on the
    order of its arguments; the distance of a vector of finite numbers
    from itself is 0; but a computed distance of 0 does not make two
    vectors equal, since the square of a small difference rounds
    to 0. *)
Theorem goal_distance_symmetric_and_zero :
  (forall a b, ieee.goal_distance a b = ieee.goal_distance b a) /\
  (forall a, Forall (fun x => fp.isfinite x = true) a ->
             ieee.goal_distance a a = Return (S754_zero false)) /\
  (exists u v, u <> v /\ fp.valid float64 u /\ fp.valid float64 v /\
               ieee.goal_distance [u] [v] = Return (S754_zero false)).
Proof.
  split; [exact goal_distance_ieee_swap|].
  split; [exact goal_distance_ieee_self|].
  exists (SFldexp 53 1024 (fp.of_int float64 1) (-600)), (S754_zero false).
  split; [discriminate|]. now vm_compute.
Qed.

(** X4 — the reward never grows with the distance the code computes:
    of two pairs of positions under the same mode and threshold, the
    pair whose computed distance is at most the other's gets at least
    the other's reward. *)
Theorem compute_reward_monotone (reward_type : string)
  (distance_threshold : spec_float) (a b a' b' : list spec_float)
  (d d' : spec_float) (r r' : Z) :
  ieee.goal_distance a b = Return d ->
  ieee.goal_distance a' b' = Return d' ->
  SFleb d d' = true ->
  ieee.compute_reward reward_type distance_threshold a b
  = Return (Some r) ->
  ieee.compute_reward reward_type distance_threshold a' b'
  = Return (Some r') ->
  (r' <= r)%Z.
Proof.
  intros Hd Hd' Hle. unfold ieee.compute_reward. rewrite Hd, Hd'.
  cbn [bind].
  destruct (SFltb d' distance_threshold) eqn:E'.
  - rewrite (SFleb_ltb_trans d d' distance_threshold Hle E').
    destruct (String.eqb _ "sparse"); [intros [= <-] [= <-]; lia|].
    destruct (String.eqb _ "positive"); [intros [= <-] [= <-]; lia|].
    discriminate.
  - destruct (SFltb d distance_threshold);
      (destruct (String.eqb _ "sparse"); [intros [= <-] [= <-]; lia|]);
      (destruct (String.eqb _ "positive"); [intros [= <-] [= <-]; lia|]);
      discriminate.
Qed.

(** ** The action in floating point *)

(** C5 — on an action of shape (4,) and dtype float32 or float64,
    [_set_action] hands to [apply_action] exactly the array
    (clip(a0) * c, clip(a1) * c, clip(a2) * c, 0), where clip is
    [np.clip] to [-1, 1] and c is 0.05 in the dtype of the action.  The
    fourth component is 0 whatever the input.  A NaN among the first
    three components comes through the clip and the product as NaN;
    every other component is clipped into [-1, 1] and its product lies
    in [-c, c]. *)
Theorem set_action_clip_zero_scale {T : Type} (t : dtype)
  (apply_action : list spec_float -> T) (x0 x1 x2 x3 : spec_float) :
  fp.valid t x0 -> fp.valid t x1 -> fp.valid t x2 ->
  let c := fp.cast t (fp.literal 5 100) in
  let clipped x := fp.clip1 x (fp.of_int t (-1)) (fp.of_int t 1) in
  let y x := SFmul (fp.prec t) (fp.emax t) (clipped x) c in
  ieee._set_action t apply_action [x0; x1; x2; x3]
  = Return (apply_action [y x0; y x1; y x2; S754_zero false]) /\
  Forall (fun x =>
            if fp.isnan x
            then clipped x = S754_nan /\ y x = S754_nan
            else fp.between (fp.of_int t (-1)) (fp.of_int t 1) (clipped x)
                 = true /\
                 fp.between (SFopp c) c (y x) = true)
         [x0; x1; x2].
Proof.
  intros H0 H1 H2. cbn zeta. split.
  - unfold ieee._set_action, fp.clip, fp.scale.
    cbn [length n_actions Nat.eqb assert bind map list_insert insert].
    do 2 f_equal.
    now destruct t.
  - repeat constructor; now apply scaled_component.
Qed.

(** ** The statements in floating point at concrete inputs *)


Lemma goal_distance_symmetric_and_zero_witness :
  ieee.goal_distance
    [fp.literal 14 100; fp.literal 48 100; fp.of_int float64 0]
    [fp.literal (-4) 10; fp.literal 2 10; fp.literal 3 10]
  = ieee.goal_distance
      [fp.literal (-4) 10; fp.literal 2 10; fp.literal 3 10]
      [fp.literal 14 100; fp.literal 48 100; fp.of_int float64 0] /\
  ieee.goal_distance
    [fp.literal (-4) 10; fp.literal 2 10; fp.literal 3 10]
    [fp.literal (-4) 10; fp.literal 2 10; fp.literal 3 10]
  = Return (S754_zero false).
Proof.
  split.
  - apply (proj1 goal_distance_symmetric_and_zero).
  - apply (proj1 (proj2 goal_distance_symmetric_and_zero)).
    repeat constructor.
Defined.

Lemma compute_reward_monotone_witness :
  let goal := [fp.literal (-4) 10; fp.literal 2 10; fp.literal 3 10] in
  let near := [fp.literal (-4) 10; fp.literal 2 10; fp.literal 25 100] in
  let far := [fp.literal (-35) 100; fp.literal (-25) 100;
              fp.literal 6 100] in
  ieee.compute_reward "positive" (fp.literal 1 10) near goal
  = Return (Some 5%Z) /\
  ieee.compute_reward "positive" (fp.literal 1 10) far goal
  = Return (Some 0%Z) /\
  (0 <= 5)%Z.
Proof.
  cbn zeta.
  split; [now vm_compute|]. split; [now vm_compute|].
  apply (compute_reward_monotone "positive" (fp.literal 1 10)
           [fp.literal (-4) 10; fp.literal 2 10; fp.literal 25 100]
           [fp.literal (-4) 10; fp.literal 2 10; fp.literal 3 10]
           [fp.literal (-35) 100; fp.literal (-25) 100; fp.literal 6 100]
           [fp.literal (-4) 10; fp.literal 2 10; fp.literal 3 10]
           (fp.linalg_norm float64
              (fp.sub float64
                 [fp.literal (-4) 10; fp.literal 2 10; fp.literal 25 100]
                 [fp.literal (-4) 10; fp.literal 2 10; fp.literal 3 10]))
           (fp.linalg_norm float64
              (fp.sub float64
                 [fp.literal (-35) 100; fp.literal (-25) 100;
                  fp.literal 6 100]
                 [fp.literal (-4) 10; fp.literal 2 10; fp.literal 3 10])));
    now vm_compute.
Defined.

Lemma set_action_clip_zero_scale_witness :
  ieee._set_action float64 (fun u => u)
    [fp.of_int float64 2; fp.literal 5 10; fp.of_int float64 (-3);
     fp.of_int float64 7]
  = Return [fp.literal 5 100; fp.literal 25 1000;
            SFopp (fp.literal 5 100); S754_zero false] /\
  Forall (fun y => fp.between (SFopp (fp.literal 5 100)) (fp.literal 5 100)
                     y = true)
    [fp.literal 5 100; fp.literal 25 1000; SFopp (fp.literal 5 100)].
Proof.
  destruct (set_action_clip_zero_scale float64 (fun u => u)
              (fp.of_int float64 2) (fp.literal 5 10)
              (fp.of_int float64 (-3)) (fp.of_int float64 7)
              eq_refl eq_refl eq_refl) as [Hrun Hrange].
  split.
  - rewrite Hrun. now vm_compute.
  - inversion_clear Hrange as [|? ? Ha Hrange'].
    inversion_clear Hrange' as [|? ? Hb Hrange''].
    inversion_clear Hrange'' as [|? ? Hc _].
    constructor; [exact (proj2 Ha)|].
    constructor; [exact (proj2 Hb)|].
    constructor; [exact (proj2 Hc)|constructor].
Defined.

(** C5, as stated, fails on two kinds of input.  A NaN component
    passes the clip and reaches the actuator as NaN, which lies in no
    interval.  And a float32 action is scaled in float32: a saturated
    component gives 0.05 rounded to float32, which is above the
    double 0.05. *)
Lemma set_action_nan_and_float32_leave_the_interval :
  let c := fp.literal 5 100 in
  (exists y1 y2,
     ieee._set_action float64 (fun u => u)
       [S754_nan; fp.literal 5 10; fp.of_int float64 (-3);
        fp.of_int float64 7]
     = Return [S754_nan; y1; y2; S754_zero false] /\
     fp.between (SFopp c) c S754_nan = false) /\
  (exists y,
     ieee._set_action float32 (fun u => u)
       [fp.of_int float32 1; fp.of_int float32 1; fp.of_int float32 1;
        fp.of_int float32 1]
     = Return [y; y; y; S754_zero false] /\
     fp.between (SFopp c) c y = false /\ SFltb c y = true).
Proof.
  cbn zeta. split.
  - eexists _, _. split; [now vm_compute|reflexivity].
  - eexists. split; [now vm_compute|]. now vm_compute.
Qed.
